(** * passa: the tiered dependency lookup (dependencies.py) and the pin test
      (utils.py), embedded as executable Rocq definitions.

    Layout: string helpers; [Utils] (utils.py); the marker filter; the
    requirement data model; the world (dependency cache and the record of
    the calls made to collaborators); the three lookup tiers, the
    auto-caching wrapper and the lookup chain; then the theorems. *)

From Stdlib Require Import Ascii String.
From stdpp Require Import base option list strings gmap.

Open Scope string_scope.

(** ** Python string helpers *)

Module Str.

Definition chars (s : string) : list ascii := list_ascii_of_string s.
Definition of_chars (l : list ascii) : string := string_of_list_ascii l.

Fixpoint drop_while (p : ascii -> bool) (l : list ascii) : list ascii :=
  match l with
  | [] => []
  | c :: rest => if p c then drop_while p rest else l
  end.

(** [s.lstrip(c)] *)
Definition lstrip (c : ascii) (s : string) : string :=
  of_chars (drop_while (Ascii.eqb c) (chars s)).

(** [s.rstrip(c)] *)
Definition rstrip (c : ascii) (s : string) : string :=
  of_chars (rev (drop_while (Ascii.eqb c) (rev (chars s)))).

(** [s.endswith(suffix)] *)
Definition endswith (s suffix : string) : bool :=
  String.prefix (of_chars (rev (chars suffix))) (of_chars (rev (chars s))).

(** [s[:-n]] for [n > 0] *)
Definition drop_last (n : nat) (s : string) : string :=
  of_chars (take (length (chars s) - n) (chars s)).

(** [sep.join(parts)] *)
Definition join (sep : string) (parts : list string) : string :=
  String.concat sep parts.

End Str.

(** ** Results of Python calls: a value or a raised exception *)

Inductive Exc : Type :=
| TypeError
| ValueError
| AttributeError
| KeyError
| InvalidRequirement (line : string)   (* Requirement.from_line rejects the line *)
| BuildFailed                          (* RuntimeError: failed to build wheel from ... *)
| NoDependencies                       (* RuntimeError: failed to get dependencies for ... *)
| Collaborator (what : string).        (* raised inside an external collaborator *)

Inductive Res (A : Type) : Type :=
| Ok (a : A)
| Raise (e : Exc).
Arguments Ok {A} a.
Arguments Raise {A} e.

#[global] Instance Exc_eq_dec : EqDecision Exc.
Proof. solve_decision. Defined.

(** ** utils.py *)

Module Utils.

(** One [Specifier]: its [_spec] pair (operator, version). *)
Definition Spec : Type := string * string.

(** What [get_pinned_version] looks at in its argument, which may be any
    Python object: the attribute [specifier] (absent: [None]; present: the
    [_specs] of the specifier set) and the attribute [editable]. *)
Record PyObject : Type := {
  attr_specifier : option (list Spec);
  attr_editable : option bool;
}.

Definition pinning_op (op : string) : bool :=
  bool_decide (op = "==") || bool_decide (op = "===").

Definition get_pinned_version (ireq : PyObject) : Res string :=
  match attr_specifier ireq with
  | None => Raise TypeError                 (* except AttributeError: raise TypeError *)
  | Some specs =>
    match attr_editable ireq with
    | None => Raise AttributeError          (* ireq.editable is missing *)
    | Some true => Raise ValueError         (* editable *)
    | Some false =>
      match specs with
      | [] => Raise ValueError              (* not specifier *)
      | [(op, version)] =>
        if negb (pinning_op op) || Str.endswith version ".*"
        then Raise ValueError
        else Ok version
      | _ :: _ :: _ => Raise ValueError     (* len(specifier._specs) != 1 *)
      end
    end
  end.

Definition is_pinned (ireq : PyObject) : Res bool :=
  match get_pinned_version ireq with
  | Ok _ => Ok true
  | Raise TypeError => Ok false
  | Raise ValueError => Ok false
  | Raise e => Raise e
  end.

End Utils.


(** ** packaging.utils.canonicalize_name

    PEP 503: every run of the characters [-], [_] and [.] becomes a single
    [-], and the name is lower-cased. *)

Module Packaging.

Definition is_separator (c : ascii) : bool :=
  Ascii.eqb c "-" || Ascii.eqb c "_" || Ascii.eqb c ".".

Definition lower (c : ascii) : ascii :=
  let n := nat_of_ascii c in
  if (65 <=? n)%nat && (n <=? 90)%nat then ascii_of_nat (n + 32) else c.

Fixpoint canonicalize_chars (after_separator : bool) (l : list ascii) : list ascii :=
  match l with
  | [] => []
  | c :: rest =>
    if is_separator c
    then if after_separator
         then canonicalize_chars true rest
         else "-"%char :: canonicalize_chars true rest
    else lower c :: canonicalize_chars false rest
  end.

Definition canonicalize_name (name : string) : string :=
  Str.of_chars (canonicalize_chars false (Str.chars name)).

End Packaging.

(** ** markers.py: the marker filter *)

Module Markers.

(** A marker expression (spec, data model): a boolean expression over
    environment attributes, one attribute being the synthetic [extra]. *)
Inductive Marker : Type :=
| MExtra (extra : string)                 (* extra == 'name' *)
| MEnv (variable op value : string)       (* any other comparison *)
| MAnd (l r : Marker)
| MOr (l r : Marker).

#[global] Instance Marker_eq_dec : EqDecision Marker.
Proof. solve_decision. Defined.

Fixpoint has_extra (m : Marker) : bool :=
  match m with
  | MExtra _ => true
  | MEnv _ _ _ => false
  | MAnd l r | MOr l r => has_extra l || has_extra r
  end.

Fixpoint collect_extras (m : Marker) : gset string :=
  match m with
  | MExtra e => {[ e ]}
  | MEnv _ _ _ => ∅
  | MAnd l r | MOr l r => collect_extras l ∪ collect_extras r
  end.

Definition rebuild (op : Marker -> Marker -> Marker)
    (l r : option Marker) : option Marker :=
  match l, r with
  | Some l', Some r' => Some (op l' r')
  | Some l', None => Some l'
  | None, Some r' => Some r'
  | None, None => None
  end.

Fixpoint strip_extra (m : Marker) : option Marker :=
  match m with
  | MExtra _ => None
  | MEnv _ _ _ => Some m
  | MAnd l r => rebuild MAnd (strip_extra l) (strip_extra r)
  | MOr l r => rebuild MOr (strip_extra l) (strip_extra r)
  end.

(** Modelled from the spec: markers.py is not among the sources, so the
    three functions dependencies.py imports from it follow section 4.1.
    [contains_extra]: true iff the expression has at least one extra
    clause anywhere in its boolean structure. The argument is the
    [markers] attribute of a requirement, absent ([None]) when the
    requirement has no marker. *)
Definition contains_extra (marker : option Marker) : bool :=
  match marker with
  | None => false
  | Some m => has_extra m
  end.

(** Modelled from the spec: the set of extra names appearing in extra
    clauses; empty if none (section 4.1, [extractExtras]). *)
Definition get_contained_extras (marker : option Marker) : gset string :=
  match marker with
  | None => ∅
  | Some m => collect_extras m
  end.

(** Modelled from the spec: the expression with every extra clause
    removed, the connective around a removed clause collapsing to its
    other operand; [None] if nothing is left (section 4.1,
    [withoutExtra]). *)
Definition get_without_extra (marker : option Marker) : option Marker :=
  match marker with
  | None => None
  | Some m => strip_extra m
  end.

End Markers.
Export Markers.

(** ** Data model *)

(** A requirementslib [Requirement], as far as this module reads it. *)
Record Requirement : Type := {
  req_name : string;
  req_editable : bool;
  req_extras : list string;
  req_specifier : list Utils.Spec;
  markers : option Marker;
}.

Definition normalized_name (r : Requirement) : string :=
  Packaging.canonicalize_name (req_name r).

(** [r.markers = ...] *)
Definition set_markers (r : Requirement) (m : option Marker) : Requirement :=
  {| req_name := req_name r; req_editable := req_editable r;
     req_extras := req_extras r; req_specifier := req_specifier r;
     markers := m |}.

(** A pip [InstallRequirement]. The specifiers are listed in the order in
    which [str(ireq.specifier)] prints them. *)
Record InstallRequirement : Type := {
  ireq_name : string;
  ireq_editable : bool;
  ireq_extras : list string;
  ireq_specifier : list Utils.Spec;
}.

#[global] Instance InstallRequirement_eq_dec : EqDecision InstallRequirement.
Proof. solve_decision. Defined.

(** [requirement.as_ireq()] *)
Definition as_ireq (r : Requirement) : InstallRequirement :=
  {| ireq_name := req_name r; ireq_editable := req_editable r;
     ireq_extras := req_extras r; ireq_specifier := req_specifier r |}.

(** An install requirement seen as the argument of [Utils.is_pinned]. *)
Definition ireq_object (ireq : InstallRequirement) : Utils.PyObject :=
  {| Utils.attr_specifier := Some (ireq_specifier ireq);
     Utils.attr_editable := Some (ireq_editable ireq) |}.

(** requirementslib.models.utils.is_pinned_requirement: the library's copy
    of [Utils.is_pinned] (not editable, exactly one specifier, operator
    [==] or [===], no trailing wildcard). *)
Definition is_pinned_requirement (ireq : InstallRequirement) : bool :=
  match Utils.is_pinned (ireq_object ireq) with
  | Ok b => b
  | Raise _ => false
  end.

(** [str(ireq.specifier)] *)
Definition specifier_str (ireq : InstallRequirement) : string :=
  Str.join "," (map (fun s : Utils.Spec => fst s ++ snd s) (ireq_specifier ireq)).

(** A Pipfile source: a dict with string keys. *)
Definition Source : Type := gmap string string.

(** A value of the JSON API under [requires_dist] or [requires]. *)
Inductive JsonValue : Type :=
| JNull
| JLines (lines : list string).

(** The [info] object of a JSON API response; an absent key is [None]. *)
Record Info : Type := {
  requires_dist : option JsonValue;
  requires : option JsonValue;
}.

(** One element of [wheel.metadata.run_requires]: a string, or a dict that
    may have the keys [extra] and [requires]. *)
Inductive Entry : Type :=
| EntryText (line : string)
| EntryDict (extra : option string) (entry_requires : option (list string)).

Record Wheel : Type := {
  run_requires : list Entry;
}.

(** The collaborators the module calls into. *)
Record Env : Type := {
  (** [requirementslib.Requirement.from_line(line)]; [None] when it raises. *)
  from_line : string -> option Requirement;
  (** [r.as_line(include_hashes=False)] *)
  as_line : Requirement -> string;
  (** [session.get(url)], [raise_for_status()] and [response.json()["info"]];
      [None] when one of them raises. *)
  http_info : string -> option Info;
  (** [_pip.build_wheel(ireq, sources)]: a path, [None], or an exception. *)
  build_wheel : InstallRequirement -> list Source -> Res (option string);
  (** [os.path.exists(path)] *)
  path_exists : string -> bool;
  (** [distlib.wheel.Wheel(path)] and the [metadata.run_requires] read from
      it; [None] when opening the file or reading its metadata raises. *)
  open_wheel : string -> option Wheel;
}.

(** ** The world: the dependency cache and the calls made so far *)

Definition CacheKey : Type := string * string.

Inductive Event : Type :=
| CacheGet (ireq : InstallRequirement)                          (* DEPENDENCY_CACHE[ireq] *)
| CacheSet (ireq : InstallRequirement) (value : list string)   (* DEPENDENCY_CACHE[ireq] = value *)
| CacheDel (ireq : InstallRequirement)                          (* del DEPENDENCY_CACHE[ireq] *)
| HttpGet (url : string)                                        (* session.get(url) *)
| BuildWheel (ireq : InstallRequirement) (sources : list Source).

Record World : Type := {
  dep_cache : gmap CacheKey (list string);
  calls : list Event;
}.

Definition record_call (ev : Event) (w : World) : World :=
  {| dep_cache := dep_cache w; calls := calls w ++ [ev] |}.

Definition set_cache (c : gmap CacheKey (list string)) (w : World) : World :=
  {| dep_cache := c; calls := calls w |}.

(** Computations that read and change the world and may raise. The world
    reached when an exception is raised is kept: what was done before the
    exception stays done. *)
Definition M (A : Type) : Type := World -> Res A * World.

Definition ret {A} (a : A) : M A := fun w => (Ok a, w).
Definition raise {A} (e : Exc) : M A := fun w => (Raise e, w).
Definition bind {A B} (c : M A) (k : A -> M B) : M B :=
  fun w =>
    match c w with
    | (Ok a, w') => k a w'
    | (Raise e, w') => (Raise e, w')
    end.
Definition lift {A} (r : Res A) : M A := fun w => (r, w).
Definition call (ev : Event) : M unit := fun w => (Ok tt, record_call ev w).

Declare Scope py_scope.
Delimit Scope py_scope with py.
Notation "x <- c ;; k" := (bind c (fun x => k))
  (at level 100, c at next level, right associativity) : py_scope.
Notation "c ;;; k" := (bind c (fun _ => k))
  (at level 100, right associativity) : py_scope.
Open Scope py_scope.

(** ** dependencies.py *)

Section Dependencies.

Context (env : Env).

(** *** requirementslib.models.cache.DependencyCache

    Modelled from the spec: the cache class belongs to requirementslib and
    is not among the sources. Section 3 keys an entry by the normalized
    name and the exact version, and says that a requirement without an
    exact pin, or an editable one, is never a cache key: for such a
    requirement the key derivation fails with [TypeError], for every
    operation. *)
Definition as_cache_key (ireq : InstallRequirement) : Res CacheKey :=
  match Utils.get_pinned_version (ireq_object ireq) with
  | Ok version => Ok (Packaging.canonicalize_name (ireq_name ireq), version)
  | Raise _ => Raise TypeError
  end.

(** [DEPENDENCY_CACHE[ireq]] *)
Definition cache_getitem (ireq : InstallRequirement) : M (list string) :=
  call (CacheGet ireq) ;;;
  key <- lift (as_cache_key ireq) ;;
  fun w =>
    match dep_cache w !! key with
    | Some value => (Ok value, w)
    | None => (Raise KeyError, w)
    end.

(** [DEPENDENCY_CACHE[ireq] = value] *)
Definition cache_setitem (ireq : InstallRequirement) (value : list string) : M unit :=
  call (CacheSet ireq value) ;;;
  key <- lift (as_cache_key ireq) ;;
  fun w => (Ok tt, set_cache (<[key := value]> (dep_cache w)) w).

(** [del DEPENDENCY_CACHE[ireq]] *)
Definition cache_delitem (ireq : InstallRequirement) : M unit :=
  call (CacheDel ireq) ;;;
  key <- lift (as_cache_key ireq) ;;
  fun w => (Ok tt, set_cache (delete key (dep_cache w)) w).

(** *** The getters *)

Definition Getter : Type := InstallRequirement -> M (option (list string)).

Definition _cached (f : Getter) : Getter :=
  fun ireq =>
    result <- f ireq ;;
    match result with
    | Some value =>
      if is_pinned_requirement ireq
      then cache_setitem ireq value ;;; ret result
      else ret result
    | None => ret result
    end.

(** The validation loop of [_get_dependencies_from_cache] together with its
    [except Exception] clause: the final value of [broken]. *)
Fixpoint cache_entry_broken (ireq_name : string) (cached : list string) : bool :=
  match cached with
  | [] => false
  | line :: rest =>
    match from_line env line with
    | None => true                                    (* except Exception *)
    | Some dep_req =>
      if contains_extra (markers dep_req) then true
      else if bool_decide (normalized_name dep_req = ireq_name) then true
      else cache_entry_broken ireq_name rest
    end
  end.

Definition _get_dependencies_from_cache : Getter :=
  fun ireq =>
    if ireq_editable ireq then ret None
    else fun w =>
      match cache_getitem ireq w with
      | (Raise KeyError, w1) => (Ok None, w1)
      | (Raise e, w1) => (Raise e, w1)
      | (Ok cached, w1) =>
        let ireq_name := Packaging.canonicalize_name (ireq_name ireq) in
        if cache_entry_broken ireq_name cached
        then (cache_delitem ireq ;;; ret None) w1
        else (Ok (Some cached), w1)
      end.

Definition url_prefixes (sources : list Source) : list string :=
  omap (fun source : Source =>
          let raw_url := default "" (source !! "url") in
          let proc_url := Str.rstrip "/" raw_url in
          if Str.endswith proc_url "/simple"
          then Some (Str.drop_last 7 proc_url)
          else None)
       sources.

Definition json_url (prefix : string) (ireq : InstallRequirement) (version : string) : string :=
  prefix ++ "/pypi/" ++ Packaging.canonicalize_name (ireq_name ireq)
         ++ "/" ++ version ++ "/json".

(** The list comprehension over the lines of a response; [None] when a
    line fails to parse. *)
Fixpoint info_lines (lines : list string) : option (list string) :=
  match lines with
  | [] => Some []
  | line :: rest =>
    dep_req ← from_line env line;
    tail ← info_lines rest;
    Some (if contains_extra (markers dep_req)
          then tail
          else as_line env dep_req :: tail)
  end.

(** The body of the [try] block after [info] is known; [None] when it
    raises. The default [info["requires"]] is evaluated before [get] is
    called. *)
Definition info_dependencies (info : Info) : option (list string) :=
  fallback ← requires info;
  match default fallback (requires_dist info) with
  | JNull => None
  | JLines lines => info_lines lines
  end.

Definition json_attempt (url : string) : option (list string) :=
  http_info env url ≫= info_dependencies.

Fixpoint json_loop (ireq : InstallRequirement) (version : string)
    (prefixes : list string) : M (option (list string)) :=
  match prefixes with
  | [] => ret None
  | prefix :: rest =>
    let url := json_url prefix ireq version in
    call (HttpGet url) ;;;
    match json_attempt url with
    | Some dependencies => ret (Some dependencies)       (* break *)
    | None => json_loop ireq version rest                (* continue *)
    end
  end.

Definition _get_dependencies_from_json (ireq : InstallRequirement)
    (sources : list Source) : M (option (list string)) :=
  if ireq_editable ireq then ret None
  else
    match ireq_extras ireq with
    | _ :: _ => ret None
    | [] =>
      let version := Str.lstrip "=" (specifier_str ireq) in
      json_loop ireq version (url_prefixes sources)
    end.

(** The inner loop of [_read_requirements]. *)
Fixpoint read_lines (extras : list string) (lines : list string)
    (requirements : list string) : Res (list string) :=
  match lines with
  | [] => Ok requirements
  | line :: rest =>
    match from_line env line with
    | None => Raise (InvalidRequirement line)
    | Some r =>
      match markers r with
      | Some _ =>
        let contained := get_contained_extras (markers r) in
        if bool_decide (contained ≠ ∅)
           && negb (existsb (fun e => bool_decide (e ∈ contained)) extras)
        then read_lines extras rest requirements               (* continue *)
        else
          let marker := get_without_extra (markers r) in
          let line' := as_line env (set_markers r marker) in
          read_lines extras rest (requirements ++ [line'])
      | None => read_lines extras rest (requirements ++ [line])
      end
    end
  end.

Definition entry_extra (entry : Entry) : option string :=
  match entry with
  | EntryText _ => None
  | EntryDict extra _ => extra
  end.

Definition entry_lines (entry : Entry) : list string :=
  match entry with
  | EntryText line => [line]
  | EntryDict _ lines => default [] lines
  end.

(** The outer loop of [_read_requirements]. *)
Fixpoint read_entries (extras : list string) (entries : list Entry)
    (requirements : list string) : Res (list string) :=
  match entries with
  | [] => Ok requirements
  | entry :: rest =>
    match entry_extra entry with
    | Some extra =>
      if bool_decide (extra ∈ extras)
      then
        match read_lines extras (entry_lines entry) requirements with
        | Ok requirements' => read_entries extras rest requirements'
        | Raise e => Raise e
        end
      else read_entries extras rest requirements             (* continue *)
    | None =>
      match read_lines extras (entry_lines entry) requirements with
      | Ok requirements' => read_entries extras rest requirements'
      | Raise e => Raise e
      end
    end
  end.

Definition _read_requirements (wheel : Wheel) (extras : list string) : Res (list string) :=
  read_entries extras (run_requires wheel) [].

Definition usable_artifact (wheel_path : option string) : bool :=
  match wheel_path with
  | None => false
  | Some path => negb (bool_decide (path = "")) && path_exists env path
  end.

Definition _get_dependencies_from_pip (ireq : InstallRequirement)
    (sources : list Source) : M (option (list string)) :=
  call (BuildWheel ireq sources) ;;;
  wheel_path <- lift (build_wheel env ireq sources) ;;
  match wheel_path with
  | Some path =>
    if usable_artifact wheel_path
    then
      match open_wheel env path with
      | Some wheel =>
        requirements <- lift (_read_requirements wheel (ireq_extras ireq)) ;;
        ret (Some requirements)
      | None => raise (Collaborator "distlib.wheel")
      end
    else raise BuildFailed
  | None => raise BuildFailed
  end.

(** [[Requirement.from_line(d) for d in deps]] *)
Fixpoint parse_lines (deps : list string) : Res (list Requirement) :=
  match deps with
  | [] => Ok []
  | d :: rest =>
    match from_line env d with
    | None => Raise (InvalidRequirement d)
    | Some r =>
      match parse_lines rest with
      | Ok rs => Ok (r :: rs)
      | Raise e => Raise e
      end
    end
  end.

(** The [for getter in getters] loop of [get_dependencies] and what
    follows it. *)
Fixpoint run_getters (getters : list Getter) (ireq : InstallRequirement)
    (last_exc : option Exc) : M (list Requirement) :=
  match getters with
  | [] =>
    match last_exc with
    | Some e => raise e                      (* six.reraise of last_exc *)
    | None => raise NoDependencies
    end
  | getter :: rest =>
    fun w =>
      match getter ireq w with
      | (Raise e, w') => run_getters rest ireq (Some e) w'
      | (Ok None, w') => run_getters rest ireq last_exc w'
      | (Ok (Some deps), w') => (parse_lines deps, w')
      end
  end.

Definition getters (sources : list Source) : list Getter :=
  [ _get_dependencies_from_cache;
    _cached (fun ireq => _get_dependencies_from_json ireq sources);
    _cached (fun ireq => _get_dependencies_from_pip ireq sources) ].

Definition get_dependencies (requirement : Requirement)
    (sources : list Source) : M (list Requirement) :=
  run_getters (getters sources) (as_ireq requirement) None.

End Dependencies.

(** ** Vocabulary of the statements *)

Section Vocabulary.

Context (env : Env).

(** What the validation loop accepts in a line of the entry of the
    requirement named [ireq_name]. *)
Definition sound_line (ireq_name line : string) : Prop :=
  exists dep_req,
    from_line env line = Some dep_req
    /\ contains_extra (markers dep_req) = false
    /\ normalized_name dep_req <> ireq_name.

(** A getter's outcome that is a list (possibly empty), as opposed to
    [None] or an exception. *)
Definition is_list (r : Res (option (list string))) : bool :=
  match r with
  | Ok (Some _) => true
  | _ => false
  end.

Definition raised {A} (r : Res A) : option Exc :=
  match r with
  | Ok _ => None
  | Raise e => Some e
  end.

(** Every getter of the list called in turn, each in the world its
    predecessor left: the outcomes, and the world after the last one. *)
Fixpoint run_all (gs : list Getter) (ireq : InstallRequirement) (w : World)
    : list (Res (option (list string))) * World :=
  match gs with
  | [] => ([], w)
  | g :: rest =>
    let '(r, w1) := g ireq w in
    let '(rs, w') := run_all rest ireq w1 in
    (r :: rs, w')
  end.

(** The exception raised last among the outcomes, if any. *)
Definition last_raised (rs : list (Res (option (list string)))) : option Exc :=
  last (omap raised rs).

Definition is_cache_call (ev : Event) : bool :=
  match ev with
  | CacheGet _ | CacheSet _ _ | CacheDel _ => true
  | _ => false
  end.

Definition is_build_call (ev : Event) : bool :=
  match ev with
  | BuildWheel _ _ => true
  | _ => false
  end.

End Vocabulary.

(** The world after some more calls. *)
Definition record_calls (evs : list Event) (w : World) : World :=
  {| dep_cache := dep_cache w; calls := calls w ++ evs |}.

(** ** Vocabulary of the extras scoping *)

Section ScopingVocabulary.

Context (env : Env).

(** An entry of the metadata is in scope of the requested extras when it
    is not tagged, or tagged with a requested extra. *)
Definition in_scope (extras : list string) (entry : Entry) : Prop :=
  forall tag, entry_extra entry = Some tag -> tag ∈ extras.

(** The marker lets the line through: it gates on no extra, or on some
    requested one. *)
Definition gate_open (extras : list string) (marker : option Marker) : Prop :=
  get_contained_extras marker = ∅
  \/ exists e, e ∈ extras /\ e ∈ get_contained_extras marker.

(** The line [line], parsed as [r], is kept as the text [out]: unchanged
    when it has no marker, else printed with the extra clauses removed from
    its marker. *)
Definition kept_as (extras : list string) (line : string) (r : Requirement)
    (out : string) : Prop :=
  (markers r = None /\ out = line)
  \/ (markers r <> None
      /\ gate_open extras (markers r)
      /\ out = as_line env (set_markers r (get_without_extra (markers r)))).

End ScopingVocabulary.

(** ** A concrete environment, for the examples *)

Module Demo.

Definition plain (name : string) (specifier : list Utils.Spec)
    (marker : option Marker) : Requirement :=
  {| req_name := name; req_editable := false; req_extras := [];
     req_specifier := specifier; markers := marker |}.

Definition known_lines : list (string * Requirement) :=
  [ ("werkzeug>=0.15", plain "werkzeug" [(">=", "0.15")] None);
    ("jinja2>=2.10; extra == 'dotenv'",
       plain "jinja2" [(">=", "2.10")] (Some (MExtra "dotenv")));
    ("urllib3>=1.21", plain "urllib3" [(">=", "1.21")] None);
    ("cryptography>=1.0", plain "cryptography" [(">=", "1.0")] None);
    ("cryptography>=1.0; extra == 'security'",
       plain "cryptography" [(">=", "1.0")] (Some (MExtra "security")));
    ("pysocks>=1.5.6", plain "pysocks" [(">=", "1.5.6")] None);
    ("pysocks>=1.5.6; extra == 'socks'",
       plain "pysocks" [(">=", "1.5.6")] (Some (MExtra "socks")));
    ("win-inet-pton; sys_platform == 'win32' and extra == 'socks'",
       plain "win-inet-pton" []
         (Some (MAnd (MEnv "sys_platform" "==" "win32") (MExtra "socks"))));
    ("win-inet-pton; sys_platform == 'win32'",
       plain "win-inet-pton" [] (Some (MEnv "sys_platform" "==" "win32")));
    ("Flask>=0.12", plain "Flask" [(">=", "0.12")] None) ].

(** The parser of the examples knows the lines above and rejects every
    other text. *)
Definition demo_from_line (line : string) : option Requirement :=
  (list_to_map known_lines : gmap string Requirement) !! line.

Fixpoint marker_str (m : Marker) : string :=
  match m with
  | MExtra e => "extra == '" ++ e ++ "'"
  | MEnv v op x => v ++ " " ++ op ++ " '" ++ x ++ "'"
  | MAnd l r => marker_str l ++ " and " ++ marker_str r
  | MOr l r => marker_str l ++ " or " ++ marker_str r
  end.

Definition demo_as_line (r : Requirement) : string :=
  req_name r
  ++ Str.join "," (map (fun s : Utils.Spec => fst s ++ snd s) (req_specifier r))
  ++ match markers r with
     | Some m => "; " ++ marker_str m
     | None => ""
     end.

Definition flask_info : Info :=
  {| requires_dist :=
       Some (JLines ["werkzeug>=0.15"; "jinja2>=2.10; extra == 'dotenv'"]);
     requires := Some (JLines []) |}.

Definition demo_http_info (url : string) : option Info :=
  if bool_decide (url = "https://pypi.org/pypi/flask/1.0/json")
  then Some flask_info
  else None.

Definition requests_wheel : string := "/wheels/requests-2.19.1-py2.py3-none-any.whl".
Definition legacy_wheel : string := "/wheels/legacy-0.1-py2-none-any.whl".
Definition ghost_wheel : string := "/wheels/ghost-0.1-py2-none-any.whl".

Definition demo_build_wheel (ireq : InstallRequirement) (sources : list Source)
    : Res (option string) :=
  if bool_decide (ireq_name ireq = "requests") then Ok (Some requests_wheel)
  else if bool_decide (ireq_name ireq = "legacy") then Ok (Some legacy_wheel)
  else if bool_decide (ireq_name ireq = "ghost") then Ok (Some ghost_wheel)
  else if bool_decide (ireq_name ireq = "toolchain") then Raise (Collaborator "build_wheel")
  else Ok None.

Definition demo_path_exists (path : string) : bool :=
  bool_decide (path = requests_wheel) || bool_decide (path = legacy_wheel).

Definition requests_metadata : list Entry :=
  [ EntryDict None (Some ["urllib3>=1.21"]);
    EntryDict (Some "security") (Some ["cryptography>=1.0; extra == 'security'"]);
    EntryDict (Some "socks")
      (Some ["pysocks>=1.5.6; extra == 'socks'";
             "win-inet-pton; sys_platform == 'win32' and extra == 'socks'"]) ].

Definition legacy_metadata : list Entry :=
  [ EntryText "urllib3>=1.21"; EntryText "futures (>= 2.1.3" ].

Definition demo_open_wheel (path : string) : Wheel :=
  if bool_decide (path = requests_wheel) then {| run_requires := requests_metadata |}
  else if bool_decide (path = legacy_wheel) then {| run_requires := legacy_metadata |}
  else {| run_requires := [] |}.

Definition env : Env :=
  {| from_line := demo_from_line;
     as_line := demo_as_line;
     http_info := demo_http_info;
     build_wheel := demo_build_wheel;
     path_exists := demo_path_exists;
     open_wheel := fun path => Some (demo_open_wheel path) |}.

Definition pypi : Source := {[ "name" := "pypi"; "url" := "https://pypi.org/simple" ]}.

Definition empty_world : World := {| dep_cache := ∅; calls := [] |}.

Definition pinned (name version : string) (extras : list string) : Requirement :=
  {| req_name := name; req_editable := false; req_extras := extras;
     req_specifier := [("==", version)]; markers := None |}.

End Demo.

(** ** Vocabulary of the further properties of utils.py *)

(** A text without opening bracket. *)
Definition bracket_free (s : string) : Prop :=
  Forall (fun c => c <> "["%char) (Str.chars s).

(** A text that is empty or opens with a bracket, as [extras_as_pip] is. *)
Definition bracketed (s : string) : Prop :=
  s = "" \/ exists t, s = String "["%char t.

(** The requirements of the examples. *)
Module Cases.

(** [flask>=1.0]: not editable, not pinned. *)
Definition flask_any : InstallRequirement :=
  as_ireq (Demo.plain "flask" [(">=", "1.0")] None).

(** [flask==1.0] *)
Definition flask : Requirement := Demo.pinned "flask" "1.0" [].

(** [requests==2.19.1], [requests[security]==2.19.1], [requests[socks]==2.19.1] *)
Definition requests : Requirement := Demo.pinned "requests" "2.19.1" [].
Definition requests_security : Requirement := Demo.pinned "requests" "2.19.1" ["security"].
Definition requests_socks : Requirement := Demo.pinned "requests" "2.19.1" ["socks"].

(** [legacy==0.1]: its wheel builds, one line of its metadata is malformed. *)
Definition legacy : Requirement := Demo.pinned "legacy" "0.1" [].

(** [ghost>=0.1]: the builder names a wheel that is not on disk. *)
Definition ghost : Requirement := Demo.plain "ghost" [(">=", "0.1")] None.

(** A cache that holds a sound entry for [flask==1.0]. *)
Definition flask_cached : World :=
  {| dep_cache := {[ ("flask", "1.0") := ["werkzeug>=0.15"] ]}; calls := [] |}.

(** A cache whose entry for [flask==1.0] names flask itself. *)
Definition flask_self : World :=
  {| dep_cache := {[ ("flask", "1.0") := ["werkzeug>=0.15"; "Flask>=0.12"] ]};
     calls := [] |}.

(** A cache that holds the empty list for [requests==2.19.1]. *)
Definition requests_cached_empty : World :=
  {| dep_cache := {[ ("requests", "2.19.1") := [] ]}; calls := [] |}.

End Cases.

(** ** Vocabulary of the further properties of the lookup chain *)

(** The cache key of a requirement, if it has one. *)
Definition key_of (ireq : InstallRequirement) : option CacheKey :=
  match as_cache_key ireq with
  | Ok key => Some key
  | Raise _ => None
  end.

(** Two caches that differ at most at the given key; equal when there is
    no key. *)
Definition same_but (key : option CacheKey)
    (c c' : gmap CacheKey (list string)) : Prop :=
  match key with
  | Some k => forall k', k' <> k -> c' !! k' = c !! k'
  | None => c' = c
  end.

Definition is_http_call (ev : Event) : bool :=
  match ev with
  | HttpGet _ => true
  | _ => false
  end.

Definition is_cache_get (ev : Event) : bool :=
  match ev with
  | CacheGet _ => true
  | _ => false
  end.

Definition is_cache_set (ev : Event) : bool :=
  match ev with
  | CacheSet _ _ => true
  | _ => false
  end.

Definition is_cache_del (ev : Event) : bool :=
  match ev with
  | CacheDel _ => true
  | _ => false
  end.

(** How many of the calls satisfy [p]. *)
Fixpoint tally (p : Event -> bool) (evs : list Event) : nat :=
  match evs with
  | [] => 0
  | ev :: rest => (if p ev then 1 else 0) + tally p rest
  end.

(** The calls made between two worlds, the second reached from the first. *)
Definition calls_since (w w' : World) : list Event :=
  drop (length (calls w)) (calls w').


(** The calls [evs] hold at most [g] cache lookups, [d] cache deletions,
    [h] requests, [b] builds and [s] cache writes. *)
Definition within (evs : list Event) (g d h b s : nat) : Prop :=
  tally is_cache_get evs <= g
  /\ tally is_cache_del evs <= d
  /\ tally is_http_call evs <= h
  /\ tally is_build_call evs <= b
  /\ tally is_cache_set evs <= s.


(** ** utils.py: the remaining functions *)

Module UtilsMore.

(** [identify_requirment]. [r.extras_as_pip] is a property of
    requirementslib's [Requirement] and is taken as given. *)
Definition identify_requirment (extras_as_pip : Requirement -> string)
    (r : Requirement) : string :=
  normalized_name r ++ extras_as_pip r.

(** How a call into the operating system ends. *)
Inductive Outcome : Type :=
| Returned
| OSError (errno : nat)
| OtherError (what : string).

(** [mkdir_p], over any state of the file system: [makedirs] is
    [os.makedirs] and [isdir] is [os.path.isdir]. *)
Definition mkdir_p {FS : Type}
    (makedirs : string -> nat -> FS -> Outcome * FS)
    (isdir : string -> FS -> bool)
    (path : string) (mode : nat) (fs : FS) : Outcome * FS :=
  match makedirs path mode fs with
  | (Returned, fs') => (Returned, fs')
  | (OSError errno, fs') =>
    if isdir path fs' then (Returned, fs') else (OSError errno, fs')
  | (OtherError what, fs') => (OtherError what, fs')
  end.

End UtilsMore.

(** ** models/virtualenv.py *)

Module VirtualEnv.

(** [source.get("name") == requirement.index] *)
Definition named (index : string) (source : Source) : Prop :=
  source !! "name" = Some index.

#[global] Instance named_dec (index : string) (source : Source) :
  Decision (named index source).
Proof. unfold named. apply _. Defined.

(** [filter_sources]: [index] is [requirement.index], and [sources] may be
    [None] as well as a list. *)
Definition filter_sources (index : option string)
    (sources : option (list Source)) : option (list Source) :=
  match sources with
  | None => None
  | Some [] => sources
  | Some ((_ :: _) as every) =>
    match index with
    | None => sources
    | Some wanted =>
      if bool_decide (wanted = "") then sources
      else
        match filter (named wanted) every with
        | [] => sources
        | (_ :: _) as filtered_sources => Some filtered_sources
        end
    end
  end.

(** The characters the pattern of [from_project_path] replaces: space,
    dollar, backquote, exclamation mark, star, at, double quote, backslash,
    carriage return, line feed and tab. *)
Definition unsafe_codes : list nat := [32; 36; 96; 33; 42; 64; 34; 92; 13; 10; 9].

Definition is_unsafe (c : ascii) : bool :=
  bool_decide (nat_of_ascii c ∈ unsafe_codes).

(** [re.sub(pattern, "_", name)[0:42]] *)
Definition sanitize (name : string) : string :=
  Str.of_chars
    (take 42 (map (fun c => if is_unsafe c then "_"%char else c) (Str.chars name))).

(** base64.urlsafe_b64encode (RFC 4648, the alphabet ending in [-] and
    [_]), on bytes given as numbers below 256. *)
Definition urlsafe_alphabet : list ascii :=
  Str.chars "ABCDEFGHIJKLMNOPQRSTUVWXYZabcdefghijklmnopqrstuvwxyz0123456789-_".

Definition sextet (n : nat) : ascii := nth n urlsafe_alphabet "="%char.

Fixpoint urlsafe_b64encode (bytes : list nat) : list ascii :=
  match bytes with
  | [] => []
  | [a] => [sextet (a / 4); sextet (a mod 4 * 16); "="%char; "="%char]
  | [a; b] =>
    [sextet (a / 4); sextet (a mod 4 * 16 + b / 16); sextet (b mod 16 * 4); "="%char]
  | a :: b :: c :: rest =>
    sextet (a / 4) :: sextet (a mod 4 * 16 + b / 16)
      :: sextet (b mod 16 * 4 + c / 64) :: sextet (c mod 64)
      :: urlsafe_b64encode rest
  end.

(** [base64.urlsafe_b64encode(digest[:6]).decode()[:8]] *)
Definition hash_fragment (digest : list nat) : string :=
  Str.of_chars (take 8 (urlsafe_b64encode (take 6 digest))).

(** ["{0}-{1}".format(sanitized, hash_fragment)] *)
Definition venv_name (dirname : string) (digest : list nat) : string :=
  sanitize dirname ++ "-" ++ hash_fragment digest.

(** [os.path.join(a, b)] of posixpath. *)
Definition posix_join (a b : string) : string :=
  if String.prefix "/" b then b
  else if bool_decide (a = "") || Str.endswith a "/" then a ++ b
  else a ++ "/" ++ b.

(** The text [get_workon_home] expands: [WORKON_HOME] unless it is unset
    or empty, else the default of the platform. *)
Definition workon_home_text (environ : gmap string string) (os_name : string) : string :=
  let fallback :=
    if bool_decide (os_name = "nt") then "~/.virtualenvs"
    else posix_join (default "~/.local/share" (environ !! "XDG_DATA_HOME")) "virtualenvs" in
  match environ !! "WORKON_HOME" with
  | Some workon_home => if bool_decide (workon_home = "") then fallback else workon_home
  | None => fallback
  end.

(** The characters [str.strip()] removes, among those below 256. *)
Definition is_space (c : ascii) : bool :=
  bool_decide (nat_of_ascii c ∈ [9; 10; 11; 12; 13; 28; 29; 30; 31; 32; 133; 160]).

Definition strip (s : string) : string :=
  Str.of_chars
    (rev (Str.drop_while is_space (rev (Str.drop_while is_space (Str.chars s))))).

(** What [from_project_path] and [get_workon_home] use of pathlib, of the
    file system and of the process, over any type of paths. *)
Record System (Path : Type) : Type := {
  (** [vistir.compat.Path(text)] *)
  path_of : string -> Path;
  (** [path.name], [path.parent], [path / child], [path.as_posix()] *)
  path_name : Path -> string;
  path_parent : Path -> Path;
  path_join : Path -> string -> Path;
  as_posix : Path -> string;
  (** [path.exists()], [path.is_dir()], [path.read_text()] *)
  fs_exists : Path -> bool;
  fs_is_dir : Path -> bool;
  fs_read_text : Path -> Res string;
  (** [os.environ], [os.name] *)
  environ : gmap string string;
  os_name : string;
  (** [Path(os.path.expandvars(text)).expanduser()] *)
  expand : string -> Path;
  (** [cls.normalize_path(path)], not modelled further *)
  normalize_path : Path -> string;
  (** [hashlib.sha256(text.encode()).digest()], as numbers below 256 *)
  sha256 : string -> list nat;
}.
Arguments path_of {Path} _ _.
Arguments path_name {Path} _ _.
Arguments path_parent {Path} _ _.
Arguments path_join {Path} _ _ _.
Arguments as_posix {Path} _ _.
Arguments fs_exists {Path} _ _.
Arguments fs_is_dir {Path} _ _.
Arguments fs_read_text {Path} _ _.
Arguments environ {Path} _.
Arguments os_name {Path} _.
Arguments expand {Path} _ _.
Arguments normalize_path {Path} _ _.
Arguments sha256 {Path} _ _.

Definition get_workon_home {Path : Type} (sys : System Path) : Path :=
  expand sys (workon_home_text (environ sys) (os_name sys)).

(** [from_project_path]: the text handed to the constructor. *)
Definition from_project_path {Path : Type} (sys : System Path) (path : Path) : Res string :=
  let '(pipfile_path, path) :=
    if bool_decide (path_name sys path = "Pipfile")
    then (path, path_parent sys path)
    else (path_join sys path "Pipfile", path) in
  let pipfile_location := normalize_path sys pipfile_path in
  let venv_path := path_join sys path ".venv" in
  let named_venv :=
    let name := venv_name (path_name sys path) (sha256 sys pipfile_location) in
    Ok (as_posix sys (path_join sys (get_workon_home sys) name)) in
  if fs_exists sys venv_path then
    if negb (fs_is_dir sys venv_path) then
      match fs_read_text sys venv_path with
      | Raise e => Raise e
      | Ok text =>
        let possible_path := path_of sys (strip text) in
        if fs_exists sys possible_path
        then Ok (as_posix sys possible_path)
        else named_venv
      end
    else if fs_exists sys (path_join sys venv_path "lib")
         then Ok (as_posix sys venv_path)
         else named_venv
  else named_venv.

End VirtualEnv.

(** ** cli/remove.py *)

Module Remove.

(** What [main] reads of the parsed options. *)
Record Options : Type := {
  only : option string;
  packages : list string;
  project_root : string;
}.

(** The calls [main] makes, in order. *)
Inductive Step : Type :=
| OpenProject (root : string)
| RemoveKeys (packages : list string) (default develop : bool)
| Lock
| WritePipfile
| WriteLockfile
| Print.

(** How the collaborators answer: each may raise. [open_project] is
    [Project(options.project_root)]; [lock] is [PinReuseLocker(project)]
    followed by [lock(locker)], and tells whether locking succeeded. *)
Record Project : Type := {
  open_project : string -> Res unit;
  remove_keys_from_pipfile : list string -> bool -> bool -> Res unit;
  lock : Res bool;
  write_pipfile : Res unit;
  write_lockfile : Res unit;
}.

(** [options.only != section] *)
Definition other_than (section : string) (only : option string) : bool :=
  negb (bool_decide (only = Some section)).

(** [main]: the value returned ([None] or [1]) or the exception raised,
    and the calls made. *)
Definition main (project : Project) (options : Options)
    : Res (option nat) * list Step :=
  let default := other_than "dev" (only options) in
  let develop := other_than "default" (only options) in
  let s1 := [OpenProject (project_root options)] in
  match open_project project (project_root options) with
  | Raise e => (Raise e, s1)
  | Ok _ =>
    let s2 := (s1 ++ [RemoveKeys (packages options) default develop])%list in
    match remove_keys_from_pipfile project (packages options) default develop with
    | Raise e => (Raise e, s2)
    | Ok _ =>
      let s3 := (s2 ++ [Lock])%list in
      match lock project with
      | Raise e => (Raise e, s3)
      | Ok false => (Ok (Some 1), s3)
      | Ok true =>
        let s4 := (s3 ++ [WritePipfile])%list in
        match write_pipfile project with
        | Raise e => (Raise e, s4)
        | Ok _ =>
          let s5 := (s4 ++ [WriteLockfile])%list in
          match write_lockfile project with
          | Raise e => (Raise e, s5)
          | Ok _ => (Ok None, (s5 ++ [Print])%list)
          end
        end
      end
    end
  end.

End Remove.


(** A system for the examples of models/virtualenv.py: absolute POSIX
    paths as lists of components, a project in [/home/user/shop] with a
    directory [.venv] holding [lib], no relevant environment variable. *)
Module DemoSystem.

Fixpoint split_slash (current : list ascii) (l : list ascii) : list string :=
  match l with
  | [] => match current with [] => [] | _ => [Str.of_chars (rev current)] end
  | c :: rest =>
    if Ascii.eqb c "/"
    then match current with
         | [] => split_slash [] rest
         | _ => Str.of_chars (rev current) :: split_slash [] rest
         end
    else split_slash (c :: current) rest
  end.

Definition demo_path_of (text : string) : list string :=
  split_slash [] (Str.chars text).

(** [expanduser] for the user of the examples. *)
Definition demo_expand (text : string) : list string :=
  match demo_path_of text with
  | "~" :: rest => "home" :: "user" :: rest
  | p => p
  end.

Definition demo_as_posix (p : list string) : string :=
  "/" ++ Str.join "/" p.

Definition shop : list string := ["home"; "user"; "shop"].

Definition directories : list (list string) :=
  [ ["home"]; ["home"; "user"]; shop; (shop ++ [".venv"])%list;
    (shop ++ [".venv"; "lib"])%list ].

Definition files : list (list string) := [ (shop ++ ["Pipfile"])%list ].

(** A stand-in for the digest: 32 numbers below 256 read off the text. *)
Definition demo_digest (text : string) : list nat :=
  take 32 (map nat_of_ascii (Str.chars text) ++ replicate 32 0)%list.

Definition sys : VirtualEnv.System (list string) :=
  {| VirtualEnv.path_of := demo_path_of;
     VirtualEnv.path_name := fun p => List.last p "";
     VirtualEnv.path_parent := fun p => removelast p;
     VirtualEnv.path_join := fun p child => (p ++ [child])%list;
     VirtualEnv.as_posix := demo_as_posix;
     VirtualEnv.fs_exists := fun p => bool_decide (p ∈ (directories ++ files)%list);
     VirtualEnv.fs_is_dir := fun p => bool_decide (p ∈ directories);
     VirtualEnv.fs_read_text := fun p => Raise (Collaborator "OSError");
     VirtualEnv.environ := ∅;
     VirtualEnv.os_name := "posix";
     VirtualEnv.expand := demo_expand;
     VirtualEnv.normalize_path := demo_as_posix;
     VirtualEnv.sha256 := demo_digest |}.

(** A file system of directories only, for [mkdir_p]: [os.makedirs] fails
    with errno 17 on a path that exists and creates it otherwise. *)
Definition demo_makedirs (path : string) (mode : nat) (fs : gset string)
    : UtilsMore.Outcome * gset string :=
  if bool_decide (path ∈ fs) then (UtilsMore.OSError 17, fs)
  else (UtilsMore.Returned, {[ path ]} ∪ fs).

Definition demo_isdir (path : string) (fs : gset string) : bool :=
  bool_decide (path ∈ fs).

(** [extras_as_pip] as requirementslib prints it, the extras taken as they
    are listed. *)
Definition demo_extras_as_pip (r : Requirement) : string :=
  match req_extras r with
  | [] => ""
  | extras => "[" ++ Str.join "," extras ++ "]"
  end.

(** A project whose collaborators all succeed, and one whose locking
    fails. *)
Definition project_ok : Remove.Project :=
  {| Remove.open_project := fun _ => Ok tt;
     Remove.remove_keys_from_pipfile := fun _ _ _ => Ok tt;
     Remove.lock := Ok true;
     Remove.write_pipfile := Ok tt;
     Remove.write_lockfile := Ok tt |}.

Definition project_unlockable : Remove.Project :=
  {| Remove.open_project := fun _ => Ok tt;
     Remove.remove_keys_from_pipfile := fun _ _ _ => Ok tt;
     Remove.lock := Ok false;
     Remove.write_pipfile := Ok tt;
     Remove.write_lockfile := Ok tt |}.

End DemoSystem.


(** An index that answers as PyPI does today: [requires_dist] without
    [requires]. *)
Module DemoModern.

Definition flask_info : Info :=
  {| requires_dist := Some (JLines ["werkzeug>=0.15"]); requires := None |}.

Definition env : Env :=
  {| from_line := Demo.demo_from_line;
     as_line := Demo.demo_as_line;
     http_info := fun url =>
       if bool_decide (url = "https://pypi.org/pypi/flask/1.0/json")
       then Some flask_info else None;
     build_wheel := Demo.demo_build_wheel;
     path_exists := Demo.demo_path_exists;
     open_wheel := fun path => Some (Demo.demo_open_wheel path) |}.

(** [-e requests]: the checkout of requests, editable. *)
Definition requests_editable : Requirement :=
  {| req_name := "requests"; req_editable := true; req_extras := [];
     req_specifier := []; markers := None |}.

End DemoModern.


(** ** Vocabulary of the statements, continued: what is stated of lists of
    lines, of metadata entries and of sources without going through the
    functions of the module *)

Section Readings.

Context (env : Env).

(** What parsing a list of lines gives: one requirement for each line, in
    order, or the error of the first line the parser rejects. *)
Definition parsed_as (deps : list string) (outcome : Res (list Requirement)) : Prop :=
  (exists reqs,
     outcome = Ok reqs
     /\ Forall2 (fun line r => from_line env line = Some r) deps reqs)
  \/ (exists good bad rest,
        deps = (good ++ bad :: rest)%list
        /\ Forall (fun line => is_Some (from_line env line)) good
        /\ from_line env bad = None
        /\ outcome = Raise (InvalidRequirement bad)).

(** The entry offers the line to a requirement with these extras: a bare
    string offers itself; a dict offers the lines under its key
    [requires], and, when it has the key [extra], only if that extra is
    among the requested ones. *)
Inductive offers (extras : list string) : Entry -> string -> Prop :=
| offers_text (line : string) :
    offers extras (EntryText line) line
| offers_untagged (lines : list string) (line : string) :
    line ∈ lines -> offers extras (EntryDict None (Some lines)) line
| offers_tagged (tag : string) (lines : list string) (line : string) :
    tag ∈ extras -> line ∈ lines ->
    offers extras (EntryDict (Some tag) (Some lines)) line.

(** An entry without the key [extra]. *)
Definition untagged (entry : Entry) : Prop :=
  match entry with
  | EntryText _ => True
  | EntryDict None _ => True
  | EntryDict (Some _) _ => False
  end.

(** [k] slashes. *)
Definition slashes (k : nat) : string := Str.of_chars (replicate k "/"%char).

(** The url of the source is [prefix], then [/simple], then any number of
    slashes. A source without url has the empty url. *)
Definition simple_index (source : Source) (prefix : string) : Prop :=
  exists k, default "" (source !! "url") = prefix ++ "/simple" ++ slashes k.

(** The candidate prefixes of a list of sources, in the order of the
    sources: a source that is a simple index gives its prefix, any other
    source gives nothing. *)
Inductive candidates : list Source -> list string -> Prop :=
| candidates_nil : candidates [] []
| candidates_keep (source : Source) (sources : list Source)
    (prefix : string) (prefixes : list string) :
    simple_index source prefix -> candidates sources prefixes ->
    candidates (source :: sources) (prefix :: prefixes)
| candidates_skip (source : Source) (sources : list Source) (prefixes : list string) :
    (forall prefix, ~ simple_index source prefix) -> candidates sources prefixes ->
    candidates (source :: sources) prefixes.

(** The request to [url] succeeds and gives [deps]: there is a response
    with an [info] that has the key [requires]; the value under
    [requires_dist], or under [requires] if [requires_dist] is absent, is a
    list of lines; every line parses; and [deps] are the requirements
    without extra clause, printed, in order. *)
Definition answers (url : string) (deps : list string) : Prop :=
  exists info fallback lines reqs,
    http_info env url = Some info
    /\ requires info = Some fallback
    /\ default fallback (requires_dist info) = JLines lines
    /\ mapM (from_line env) lines = Some reqs
    /\ deps = as_line env <$> filter (fun r => contains_extra (markers r) = false) reqs.

(** The wheel builder returned no usable artifact: no path, an empty
    path, or a path that is not on disk. *)
Definition no_artifact (wheel_path : option string) : Prop :=
  wheel_path = None
  \/ wheel_path = Some ""
  \/ exists path, wheel_path = Some path /\ path_exists env path = false.

End Readings.

(** An environment with several sources and a wheel that cannot be read. *)
Module DemoFaulty.

(** A mirror whose url ends in a slash and which answers no request. *)
Definition mirror : Source := {[ "name" := "mirror"; "url" := "https://mirror.example/simple/" ]}.

(** A source that is not a simple index, and one without url. *)
Definition files : Source := {[ "name" := "files"; "url" := "https://files.example/packages" ]}.
Definition nameless : Source := {[ "name" := "local" ]}.

Definition corrupt_wheel : string := "/wheels/corrupt-0.1-py2-none-any.whl".

(** [corrupt==0.1]: the builder leaves a file that is not a wheel. *)
Definition corrupt : Requirement := Demo.pinned "corrupt" "0.1" [].

Definition env : Env :=
  {| from_line := Demo.demo_from_line;
     as_line := Demo.demo_as_line;
     http_info := Demo.demo_http_info;
     build_wheel := fun ireq sources =>
       if bool_decide (ireq_name ireq = "corrupt") then Ok (Some corrupt_wheel)
       else Demo.demo_build_wheel ireq sources;
     path_exists := fun path =>
       bool_decide (path = corrupt_wheel) || Demo.demo_path_exists path;
     open_wheel := fun path =>
       if bool_decide (path = corrupt_wheel) then None
       else Some (Demo.demo_open_wheel path) |}.

End DemoFaulty.


Section KeptLines.

Context (env : Env).

(** [r'] is [r] with the extra clauses removed from its marker, and
    nothing else changed. *)
Definition stripped_of_extras (r r' : Requirement) : Prop :=
  req_name r' = req_name r
  /\ req_editable r' = req_editable r
  /\ req_extras r' = req_extras r
  /\ req_specifier r' = req_specifier r
  /\ markers r' = get_without_extra (markers r).

(** The line [line], parsed as [r], comes out as the text [out]: as it is
    when [r] has no marker; else, if the marker names no extra or names a
    requested one, printed again from [r] stripped of its extra clauses. *)
Definition kept (extras : list string) (line : string) (r : Requirement)
    (out : string) : Prop :=
  (markers r = None /\ out = line)
  \/ (markers r <> None
      /\ gate_open extras (markers r)
      /\ exists r', stripped_of_extras r r' /\ out = as_line env r').

End KeptLines.

(** * Theorems *)

(** ** Python string helpers *)

Lemma chars_of_chars (l : list ascii) : Str.chars (Str.of_chars l) = l.
Proof. apply list_ascii_of_string_of_list_ascii. Qed.

Lemma of_chars_chars (s : string) : Str.of_chars (Str.chars s) = s.
Proof. apply string_of_list_ascii_of_string. Qed.

Lemma chars_app (a b : string) : Str.chars (a ++ b) = (Str.chars a ++ Str.chars b)%list.
Proof.
  unfold Str.chars. induction a as [|c a IH]; [reflexivity|].
  change (c :: list_ascii_of_string (a ++ b)
          = c :: (list_ascii_of_string a ++ list_ascii_of_string b)%list).
  f_equal. exact IH.
Qed.

Lemma of_chars_app (k l : list ascii) :
  Str.of_chars (k ++ l) = Str.of_chars k ++ Str.of_chars l.
Proof.
  rewrite <- (of_chars_chars (Str.of_chars k ++ Str.of_chars l)).
  rewrite chars_app, !chars_of_chars. reflexivity.
Qed.

Lemma prefix_app (a b : string) :
  String.prefix a b = true <-> exists c, b = a ++ c.
Proof.
  revert b. induction a as [|x a IH]; intros b.
  - split; [intros _; exists b; reflexivity | intros _; destruct b; reflexivity].
  - destruct b as [|y b].
    + split; [discriminate|]. intros [c [=]].
    + change (String.prefix (String x a) (String y b))
        with (if Ascii.ascii_dec x y then String.prefix a b else false).
      destruct (Ascii.ascii_dec x y) as [->|Hxy].
      * rewrite IH. split; intros [c Hc]; exists c.
        -- rewrite Hc. reflexivity.
        -- injection Hc as ->. reflexivity.
      * split; [discriminate|]. intros [c Hc]. injection Hc as Hx _.
        exfalso. apply Hxy. symmetry. exact Hx.
Qed.

(** [s.endswith(suffix)] holds exactly of the strings that end in [suffix]. *)
Lemma endswith_spec (s suffix : string) :
  Str.endswith s suffix = true <-> exists p, s = p ++ suffix.
Proof.
  unfold Str.endswith. rewrite prefix_app. split.
  - intros [c Hc]. apply (f_equal Str.chars) in Hc.
    rewrite chars_app, !chars_of_chars in Hc.
    apply (f_equal (@rev ascii)) in Hc. rewrite rev_app_distr, !rev_involutive in Hc.
    exists (Str.of_chars (rev (Str.chars c))).
    rewrite <- (of_chars_chars s), Hc, of_chars_app, of_chars_chars. reflexivity.
  - intros [p ->]. exists (Str.of_chars (rev (Str.chars p))).
    rewrite chars_app, rev_app_distr, of_chars_app. reflexivity.
Qed.

Lemma drop_last_suffix (p suffix : string) :
  Str.drop_last (String.length suffix) (p ++ suffix) = p.
Proof.
  unfold Str.drop_last. rewrite chars_app, length_app.
  assert (Hlen : length (Str.chars suffix) = String.length suffix).
  { unfold Str.chars. induction suffix as [|c t IH]; [reflexivity|].
    cbn. rewrite IH. reflexivity. }
  rewrite Hlen.
  replace (length (Str.chars p) + String.length suffix - String.length suffix)
    with (length (Str.chars p)) by lia.
  rewrite take_app_length. apply of_chars_chars.
Qed.

Lemma drop_last_simple (p : string) : Str.drop_last 7 (p ++ "/simple") = p.
Proof. exact (drop_last_suffix p "/simple"). Qed.

Lemma endswith_false (s suffix : string) :
  Str.endswith s suffix = false <-> forall p, s <> p ++ suffix.
Proof.
  rewrite <- not_true_iff_false, endswith_spec. split.
  - intros Hno p Hp. apply Hno. eauto.
  - intros Hno [p Hp]. exact (Hno p Hp).
Qed.

(** ** utils.py *)

Lemma pinning_op_spec (op : string) :
  Utils.pinning_op op = true <-> op = "==" \/ op = "===".
Proof.
  unfold Utils.pinning_op.
  rewrite orb_true_iff, !bool_decide_eq_true. reflexivity.
Qed.

Lemma get_pinned_version_ok (o : Utils.PyObject) (version : string) :
  Utils.get_pinned_version o = Ok version <->
  exists op,
    Utils.attr_specifier o = Some [(op, version)]
    /\ Utils.attr_editable o = Some false
    /\ (op = "==" \/ op = "===")
    /\ Str.endswith version ".*" = false.
Proof.
  destruct o as [specifier editable]; unfold Utils.get_pinned_version; cbn.
  split.
  - destruct specifier as [specs|]; [|discriminate].
    destruct editable as [[|]|]; try discriminate.
    destruct specs as [|[op v] [|? ?]]; try discriminate.
    destruct (Utils.pinning_op op) eqn:Hop; cbn; [|discriminate].
    destruct (Str.endswith v ".*") eqn:Hv; cbn; [discriminate|].
    intros [= <-]. exists op. apply pinning_op_spec in Hop. auto.
  - intros (op & -> & -> & Hop & Hv).
    apply pinning_op_spec in Hop. rewrite Hop, Hv. reflexivity.
Qed.

(** C10. [is_pinned] returns [True] exactly when [get_pinned_version]
    returns a version, which is exactly when the argument has a specifier
    attribute, is not editable, and has a single specifier with operator
    [==] or [===] whose version does not end in [.*]. Where
    [get_pinned_version] raises [TypeError] or [ValueError], [is_pinned]
    returns [False]; it raises only what [get_pinned_version] raises
    besides these two. *)
Theorem is_pinned_iff_get_pinned_version (o : Utils.PyObject) :
  (Utils.is_pinned o = Ok true <-> exists v, Utils.get_pinned_version o = Ok v)
  /\ ((exists v, Utils.get_pinned_version o = Ok v) <->
      exists op v,
        Utils.attr_specifier o = Some [(op, v)]
        /\ Utils.attr_editable o = Some false
        /\ (op = "==" \/ op = "===")
        /\ forall p, v <> p ++ ".*")
  /\ (Utils.get_pinned_version o = Raise TypeError
      \/ Utils.get_pinned_version o = Raise ValueError <->
      Utils.is_pinned o = Ok false)
  /\ (forall e, Utils.is_pinned o = Raise e ->
        Utils.get_pinned_version o = Raise e /\ e <> TypeError /\ e <> ValueError).
Proof.
  repeat split.
  - unfold Utils.is_pinned.
    destruct (Utils.get_pinned_version o) as [v|[]]; try discriminate; eauto.
  - intros [v Hv]. unfold Utils.is_pinned. rewrite Hv. reflexivity.
  - intros [v Hv]. apply get_pinned_version_ok in Hv as (op & Hs & He & Hop & Hv).
    exists op, v. rewrite <- endswith_false. auto.
  - intros (op & v & Hs & He & Hop & Hv). exists v. apply get_pinned_version_ok.
    exists op. rewrite endswith_false. auto.
  - unfold Utils.is_pinned. intros [-> | ->]; reflexivity.
  - unfold Utils.is_pinned.
    destruct (Utils.get_pinned_version o) as [v|[]]; try discriminate; auto.
  - unfold Utils.is_pinned in H.
    destruct (Utils.get_pinned_version o) as [v|[]]; try discriminate; congruence.
  - unfold Utils.is_pinned in H.
    destruct (Utils.get_pinned_version o) as [v|[]]; try discriminate; congruence.
  - unfold Utils.is_pinned in H.
    destruct (Utils.get_pinned_version o) as [v|[]]; try discriminate; congruence.
Qed.

(** ** Pinned requirements and cache keys *)

Lemma is_pinned_requirement_true (ireq : InstallRequirement) :
  is_pinned_requirement ireq = true <->
  exists v, Utils.get_pinned_version (ireq_object ireq) = Ok v.
Proof.
  unfold is_pinned_requirement, Utils.is_pinned.
  destruct (Utils.get_pinned_version (ireq_object ireq)) as [v|[]];
    split; try discriminate; eauto; intros [? [=]].
Qed.

Lemma is_pinned_requirement_key (ireq : InstallRequirement) :
  is_pinned_requirement ireq = true <-> exists key, as_cache_key ireq = Ok key.
Proof.
  rewrite is_pinned_requirement_true. unfold as_cache_key.
  destruct (Utils.get_pinned_version (ireq_object ireq)) as [v|e]; split.
  - eauto.
  - eauto.
  - intros [? [=]].
  - intros [? [=]].
Qed.

Lemma not_pinned_no_key (ireq : InstallRequirement) :
  is_pinned_requirement ireq = false -> as_cache_key ireq = Raise TypeError.
Proof.
  intros Hp. unfold as_cache_key.
  destruct (Utils.get_pinned_version (ireq_object ireq)) as [v|e] eqn:Hv; [|reflexivity].
  assert (is_pinned_requirement ireq = true) by (apply is_pinned_requirement_true; eauto).
  congruence.
Qed.

Lemma editable_not_pinned (ireq : InstallRequirement) :
  ireq_editable ireq = true -> is_pinned_requirement ireq = false.
Proof.
  intros He. unfold is_pinned_requirement, Utils.is_pinned, Utils.get_pinned_version.
  cbn. rewrite He. reflexivity.
Qed.

(** ** The cache operations *)

Lemma cache_getitem_keyed (ireq : InstallRequirement) (key : CacheKey) (w : World) :
  as_cache_key ireq = Ok key ->
  cache_getitem ireq w =
    (match dep_cache w !! key with Some value => Ok value | None => Raise KeyError end,
     record_call (CacheGet ireq) w).
Proof.
  intros Hk. unfold cache_getitem, bind, call, lift. rewrite Hk. cbn.
  destruct (dep_cache w !! key); reflexivity.
Qed.

Lemma cache_getitem_unkeyed (ireq : InstallRequirement) (w : World) :
  as_cache_key ireq = Raise TypeError ->
  cache_getitem ireq w = (Raise TypeError, record_call (CacheGet ireq) w).
Proof. intros Hk. unfold cache_getitem, bind, call, lift. rewrite Hk. reflexivity. Qed.

Lemma cache_setitem_keyed (ireq : InstallRequirement) (key : CacheKey)
    (value : list string) (w : World) :
  as_cache_key ireq = Ok key ->
  cache_setitem ireq value w =
    (Ok tt, set_cache (<[key := value]> (dep_cache w)) (record_call (CacheSet ireq value) w)).
Proof. intros Hk. unfold cache_setitem, bind, call, lift. rewrite Hk. reflexivity. Qed.

Lemma cache_delitem_keyed (ireq : InstallRequirement) (key : CacheKey) (w : World) :
  as_cache_key ireq = Ok key ->
  cache_delitem ireq w =
    (Ok tt, set_cache (delete key (dep_cache w)) (record_call (CacheDel ireq) w)).
Proof. intros Hk. unfold cache_delitem, bind, call, lift. rewrite Hk. reflexivity. Qed.

(** ** The auto-caching wrapper *)

Lemma _cached_not_pinned (f : Getter) (ireq : InstallRequirement) (w : World) :
  is_pinned_requirement ireq = false -> _cached f ireq w = f ireq w.
Proof.
  intros Hp. unfold _cached, bind, ret. rewrite Hp.
  destruct (f ireq w) as [[[value|]|e] w1]; reflexivity.
Qed.

Lemma _cached_no_list (f : Getter) (ireq : InstallRequirement) (w w1 : World)
    (r : Res (option (list string))) :
  f ireq w = (r, w1) -> (forall value, r <> Ok (Some value)) ->
  _cached f ireq w = (r, w1).
Proof.
  intros Hf Hr. unfold _cached, bind, ret. rewrite Hf.
  destruct r as [[value|]|e]; try reflexivity.
  exfalso. exact (Hr value eq_refl).
Qed.

Lemma _cached_pinned_list (f : Getter) (ireq : InstallRequirement) (w w1 : World)
    (key : CacheKey) (value : list string) :
  f ireq w = (Ok (Some value), w1) -> as_cache_key ireq = Ok key ->
  _cached f ireq w =
    (Ok (Some value),
     set_cache (<[key := value]> (dep_cache w1)) (record_call (CacheSet ireq value) w1)).
Proof.
  intros Hf Hk. unfold _cached, bind, ret. rewrite Hf.
  assert (Hp : is_pinned_requirement ireq = true)
    by (apply is_pinned_requirement_key; eauto).
  rewrite Hp. rewrite (cache_setitem_keyed _ _ _ _ Hk). reflexivity.
Qed.

Section CacheTier.

Context (env : Env).

Lemma cache_entry_broken_false (ireq_name : string) (cached : list string) :
  cache_entry_broken env ireq_name cached = false <->
  Forall (sound_line env ireq_name) cached.
Proof.
  induction cached as [|line rest IH]; cbn.
  - split; [constructor | reflexivity].
  - destruct (from_line env line) as [dep_req|] eqn:Hline.
    + destruct (contains_extra (markers dep_req)) eqn:Hextra.
      * split; [discriminate|].
        intros Hall. inversion Hall as [|? ? (r & Hr & Hx & _) _]; subst.
        congruence.
      * case_bool_decide as Hname.
        -- split; [discriminate|].
           intros Hall. inversion Hall as [|? ? (r & Hr & _ & Hn) _]; subst.
           congruence.
        -- rewrite IH. split.
           ++ intros Hrest. constructor; [|exact Hrest].
              exists dep_req. auto.
           ++ intros Hall. inversion Hall; assumption.
    + split; [discriminate|].
      intros Hall. inversion Hall as [|? ? (r & Hr & _) _]; subst. congruence.
Qed.

Lemma cache_tier_editable (ireq : InstallRequirement) (w : World) :
  ireq_editable ireq = true ->
  _get_dependencies_from_cache env ireq w = (Ok None, w).
Proof. intros He. unfold _get_dependencies_from_cache. rewrite He. reflexivity. Qed.

Lemma cache_tier_hit (ireq : InstallRequirement) (key : CacheKey)
    (cached : list string) (w : World) :
  ireq_editable ireq = false ->
  as_cache_key ireq = Ok key ->
  dep_cache w !! key = Some cached ->
  _get_dependencies_from_cache env ireq w =
    if cache_entry_broken env (Packaging.canonicalize_name (ireq_name ireq)) cached
    then (Ok None,
          set_cache (delete key (dep_cache w))
            (record_call (CacheDel ireq) (record_call (CacheGet ireq) w)))
    else (Ok (Some cached), record_call (CacheGet ireq) w).
Proof.
  intros He Hk Hc. unfold _get_dependencies_from_cache. rewrite He.
  rewrite (cache_getitem_keyed _ _ _ Hk), Hc.
  destruct (cache_entry_broken _ _ _); [|reflexivity].
  unfold bind, ret. rewrite (cache_delitem_keyed _ _ _ Hk). reflexivity.
Qed.

Lemma cache_tier_miss (ireq : InstallRequirement) (key : CacheKey) (w : World) :
  ireq_editable ireq = false ->
  as_cache_key ireq = Ok key ->
  dep_cache w !! key = None ->
  _get_dependencies_from_cache env ireq w = (Ok None, record_call (CacheGet ireq) w).
Proof.
  intros He Hk Hc. unfold _get_dependencies_from_cache. rewrite He.
  rewrite (cache_getitem_keyed _ _ _ Hk), Hc. reflexivity.
Qed.

Lemma cache_tier_unkeyed (ireq : InstallRequirement) (w : World) :
  ireq_editable ireq = false ->
  is_pinned_requirement ireq = false ->
  _get_dependencies_from_cache env ireq w =
    (Raise TypeError, record_call (CacheGet ireq) w).
Proof.
  intros He Hp. unfold _get_dependencies_from_cache. rewrite He.
  rewrite (cache_getitem_unkeyed _ _ (not_pinned_no_key _ Hp)). reflexivity.
Qed.

End CacheTier.

(** ** The cache tier and the wrapper on requirements that are not pinned *)

Section PinOnly.

Context (env : Env).

(** C1, as amended. For a requirement that is editable or lacks an exact
    pinned version, the auto-caching wrapper of any getter does what the
    getter does and nothing more (no cache write), and the cache tier
    returns no entry and leaves the cache as it was. An editable
    requirement makes the cache tier return [None] without any call; a
    requirement that is not editable is passed to the cache lookup, which
    has no key for it. *)
Theorem unpinned_never_cached (ireq : InstallRequirement) (w : World) :
  ireq_editable ireq = true \/ is_pinned_requirement ireq = false ->
  (forall f : Getter, _cached f ireq w = f ireq w)
  /\ is_list (fst (_get_dependencies_from_cache env ireq w)) = false
  /\ dep_cache (snd (_get_dependencies_from_cache env ireq w)) = dep_cache w
  /\ (ireq_editable ireq = true ->
      _get_dependencies_from_cache env ireq w = (Ok None, w))
  /\ (ireq_editable ireq = false ->
      _get_dependencies_from_cache env ireq w =
        (Raise TypeError, record_call (CacheGet ireq) w)).
Proof.
  intros H.
  assert (Hp : is_pinned_requirement ireq = false).
  { destruct H as [He|Hp]; [apply editable_not_pinned, He | exact Hp]. }
  split; [intros f; apply _cached_not_pinned, Hp|].
  destruct (ireq_editable ireq) eqn:He.
  - rewrite (cache_tier_editable env ireq w He). repeat split; discriminate.
  - rewrite (cache_tier_unkeyed env ireq w He Hp). repeat split; discriminate.
Qed.

End PinOnly.

(** ** The cache tier on an existing entry *)

Section CacheEntry.

Context (env : Env).

(** C2. For a requirement that is not editable and has a cache entry, the
    cache tier returns the entry, the cache untouched, exactly when every
    line of the entry parses, carries no marker with an extra clause and
    names a package other than the requirement's normalized name; in every
    other case it deletes the entry and returns [None]. *)
Theorem cache_tier_validates (ireq : InstallRequirement) (key : CacheKey)
    (cached : list string) (w : World) :
  ireq_editable ireq = false ->
  as_cache_key ireq = Ok key ->
  dep_cache w !! key = Some cached ->
  let ireq_name := Packaging.canonicalize_name (ireq_name ireq) in
  (Forall (sound_line env ireq_name) cached <->
   _get_dependencies_from_cache env ireq w =
     (Ok (Some cached), record_call (CacheGet ireq) w))
  /\ (~ Forall (sound_line env ireq_name) cached <->
      _get_dependencies_from_cache env ireq w =
        (Ok None,
         set_cache (delete key (dep_cache w))
           (record_call (CacheDel ireq) (record_call (CacheGet ireq) w)))).
Proof.
  intros He Hk Hc ireq_name.
  rewrite (cache_tier_hit env ireq key cached w He Hk Hc). fold ireq_name.
  rewrite <- cache_entry_broken_false.
  destruct (cache_entry_broken env ireq_name cached); split; split;
    try reflexivity; try discriminate; try congruence.
Qed.

End CacheEntry.

(** ** The auto-caching wrapper *)

Section Wrapper.

Context (env : Env).

(** C8. The wrapper returns what the wrapped getter returned. When that is
    a list and the requirement is pinned, the list is stored under the
    requirement's key before the wrapper returns, so that the cache lookup
    of the same requirement then finds it and the cache tier returns it
    unless validation rejects it; in every other case the wrapper leaves
    the world as the getter left it. *)
Theorem _cached_returns_and_stores (f : Getter) (ireq : InstallRequirement)
    (w w1 : World) (r : Res (option (list string))) :
  f ireq w = (r, w1) ->
  fst (_cached f ireq w) = r
  /\ (forall value,
        r = Ok (Some value) -> is_pinned_requirement ireq = true ->
        exists key,
          as_cache_key ireq = Ok key
          /\ snd (_cached f ireq w) =
               set_cache (<[key := value]> (dep_cache w1))
                 (record_call (CacheSet ireq value) w1)
          /\ fst (cache_getitem ireq (snd (_cached f ireq w))) = Ok value
          /\ (cache_entry_broken env (Packaging.canonicalize_name (ireq_name ireq)) value = false ->
              fst (_get_dependencies_from_cache env ireq (snd (_cached f ireq w)))
              = Ok (Some value)))
  /\ (is_list r = false \/ is_pinned_requirement ireq = false ->
      snd (_cached f ireq w) = w1).
Proof.
  intros Hf. repeat split.
  - unfold _cached, bind, ret. rewrite Hf.
    destruct r as [[value|]|e]; try reflexivity.
    destruct (is_pinned_requirement ireq) eqn:Hp; [|reflexivity].
    apply is_pinned_requirement_key in Hp as [key Hk].
    rewrite (cache_setitem_keyed _ _ _ _ Hk). reflexivity.
  - intros value -> Hp.
    pose proof Hp as Hp'.
    apply is_pinned_requirement_key in Hp as [key Hk]. exists key.
    rewrite (_cached_pinned_list f ireq w w1 key value Hf Hk). cbn [snd].
    assert (He : ireq_editable ireq = false).
    { destruct (ireq_editable ireq) eqn:He; [|reflexivity].
      rewrite (editable_not_pinned _ He) in Hp'. discriminate. }
    repeat split.
    + exact Hk.
    + rewrite (cache_getitem_keyed _ _ _ Hk). cbn.
      rewrite lookup_insert_eq. reflexivity.
    + intros Hb.
      rewrite (cache_tier_hit env ireq key value _ He Hk).
      * rewrite Hb. reflexivity.
      * cbn. apply lookup_insert_eq.
  - intros [Hr|Hp].
    + rewrite (_cached_no_list f ireq w w1 r Hf); [reflexivity|].
      intros value ->. discriminate.
    + rewrite (_cached_not_pinned f ireq w Hp), Hf. reflexivity.
Qed.

End Wrapper.

(** ** The remote-metadata tier *)

Lemma record_calls_nil (w : World) : record_calls [] w = w.
Proof. destruct w as [c evs]. unfold record_calls; cbn. rewrite app_nil_r. reflexivity. Qed.

Lemma record_calls_cons (ev : Event) (evs : list Event) (w : World) :
  record_calls evs (record_call ev w) = record_calls (ev :: evs) w.
Proof.
  unfold record_calls, record_call; cbn. rewrite <- app_assoc. reflexivity.
Qed.

Section JsonTier.

Context (env : Env).

Lemma info_lines_map_filter (lines : list string) :
  info_lines env lines =
    reqs ← mapM (from_line env) lines;
    Some (as_line env <$> filter (fun r => contains_extra (markers r) = false) reqs).
Proof.
  induction lines as [|line rest IH]; [reflexivity|].
  cbn [info_lines mapM]. destruct (from_line env line) as [dep_req|]; [|reflexivity].
  rewrite IH. destruct (mapM (from_line env) rest) as [reqs|]; [|reflexivity].
  cbn [mbind option_bind mret option_ret]. rewrite filter_cons.
  destruct (contains_extra (markers dep_req)) eqn:Hx.
  - rewrite decide_False by discriminate. reflexivity.
  - rewrite decide_True by reflexivity. reflexivity.
Qed.

Lemma info_lines_no_extra (lines deps : list string) :
  info_lines env lines = Some deps ->
  Forall (fun line => exists dep_req,
            line = as_line env dep_req /\ contains_extra (markers dep_req) = false)
         deps.
Proof.
  rewrite info_lines_map_filter.
  destruct (mapM (from_line env) lines) as [reqs|]; [|discriminate].
  cbn. intros [= <-].
  apply Forall_fmap, Forall_forall. intros r Hr.
  apply list_elem_of_filter in Hr as [Hx _]. exists r. auto.
Qed.

Lemma json_attempt_no_extra (url : string) (deps : list string) :
  json_attempt env url = Some deps ->
  Forall (fun line => exists dep_req,
            line = as_line env dep_req /\ contains_extra (markers dep_req) = false)
         deps.
Proof.
  unfold json_attempt, info_dependencies.
  destruct (http_info env url) as [info|]; [|discriminate]. cbn.
  destruct (requires info) as [fallback|]; [|discriminate]. cbn.
  destruct (default fallback (requires_dist info)); [discriminate|].
  apply info_lines_no_extra.
Qed.

(** The candidate prefixes: what precedes [/simple] in the url of a
    source, trailing slashes stripped. *)
Lemma url_prefixes_spec (sources : list Source) (prefix : string) :
  prefix ∈ url_prefixes sources <->
  exists source : Source,
    source ∈ sources
    /\ Str.rstrip "/" (default "" (source !! "url")) = prefix ++ "/simple".
Proof.
  unfold url_prefixes. rewrite list_elem_of_omap.
  split; intros (source & Hin & Hurl); exists source; (split; [exact Hin|]).
  - destruct (Str.endswith _ "/simple") eqn:Hends; [|discriminate].
    apply endswith_spec in Hends as [p Hp]. rewrite Hp in Hurl.
    injection Hurl as <-. rewrite Hp.
    rewrite drop_last_simple. reflexivity.
  - cbn zeta. rewrite Hurl.
    rewrite (proj2 (endswith_spec (prefix ++ "/simple") "/simple")) by eauto.
    rewrite drop_last_simple. reflexivity.
Qed.

Variables (ireq : InstallRequirement) (version : string).

Let url (prefix : string) : string := json_url prefix ireq version.

Lemma json_loop_found (tried : list string) (prefix : string) (rest : list string)
    (deps : list string) (w : World) :
  Forall (fun p => json_attempt env (url p) = None) tried ->
  json_attempt env (url prefix) = Some deps ->
  json_loop env ireq version (tried ++ prefix :: rest) w =
    (Ok (Some deps), record_calls (map (fun p => HttpGet (url p)) (tried ++ [prefix])) w).
Proof.
  intros Htried Hprefix. revert w.
  induction Htried as [|p tried Hp _ IH]; intros w; cbn.
  - unfold bind, call, ret. fold (url prefix). rewrite Hprefix. reflexivity.
  - unfold bind, call. fold (url p). rewrite Hp, IH.
    rewrite record_calls_cons. reflexivity.
Qed.

Lemma json_loop_exhausted (prefixes : list string) (w : World) :
  Forall (fun p => json_attempt env (url p) = None) prefixes ->
  json_loop env ireq version prefixes w =
    (Ok None, record_calls (map (fun p => HttpGet (url p)) prefixes) w).
Proof.
  intros Hall. revert w.
  induction Hall as [|p prefixes Hp _ IH]; intros w; cbn.
  - unfold ret. rewrite record_calls_nil. reflexivity.
  - unfold bind, call. fold (url p). rewrite Hp, IH.
    rewrite record_calls_cons. reflexivity.
Qed.

(** The candidates split at the first one whose attempt succeeds, if any. *)
Lemma first_success (prefixes : list string) :
  Forall (fun p => json_attempt env (url p) = None) prefixes
  \/ exists (tried : list string) (prefix : string) (rest deps : list string),
       prefixes = (tried ++ prefix :: rest)%list
       /\ Forall (fun p => json_attempt env (url p) = None) tried
       /\ json_attempt env (url prefix) = Some deps.
Proof.
  induction prefixes as [|p prefixes IH]; [left; constructor|].
  destruct (json_attempt env (url p)) as [deps|] eqn:Hp.
  - right. exists [], p, prefixes, deps. auto.
  - destruct IH as [Hall|(tried & prefix & rest & deps & -> & Htried & Hprefix)].
    + left. constructor; assumption.
    + right. exists (p :: tried), prefix, rest, deps. auto.
Qed.

End JsonTier.


Section SimpleIndex.

Lemma drop_while_split (c : ascii) (l : list ascii) :
  exists k, l = (replicate k c ++ Str.drop_while (Ascii.eqb c) l)%list.
Proof.
  induction l as [|d l [k IH]]; [exists 0; reflexivity|].
  cbn [Str.drop_while]. destruct (Ascii.eqb c d) eqn:Hd.
  - apply Ascii.eqb_eq in Hd as <-. exists (S k). cbn. f_equal. exact IH.
  - exists 0. reflexivity.
Qed.

Lemma drop_while_replicate (c d : ascii) (k : nat) (l : list ascii) :
  d <> c ->
  Str.drop_while (Ascii.eqb c) (replicate k c ++ d :: l)%list = d :: l.
Proof.
  intros Hd. induction k as [|k IH]; cbn.
  - destruct (Ascii.eqb c d) eqn:E; [|reflexivity].
    apply Ascii.eqb_eq in E. congruence.
  - rewrite Ascii.eqb_refl. exact IH.
Qed.

Lemma rev_replicate (c : ascii) (k : nat) : rev (replicate k c) = replicate k c.
Proof.
  induction k as [|k IH]; [reflexivity|].
  cbn. rewrite IH. symmetry. apply replicate_cons_app.
Qed.

(** A string is what [rstrip] leaves of it, followed by the stripped
    characters. *)
Lemma rstrip_split (s : string) :
  exists k, s = Str.rstrip "/" s ++ slashes k.
Proof.
  unfold Str.rstrip, slashes.
  destruct (drop_while_split "/" (rev (Str.chars s))) as [k Hk].
  exists k. rewrite <- of_chars_app.
  rewrite <- (rev_replicate "/" k), <- rev_app_distr, <- Hk, rev_involutive.
  symmetry. apply of_chars_chars.
Qed.

Lemma rstrip_simple (prefix : string) (k : nat) :
  Str.rstrip "/" (prefix ++ "/simple" ++ slashes k) = prefix ++ "/simple".
Proof.
  unfold Str.rstrip, slashes.
  rewrite !chars_app, chars_of_chars, !rev_app_distr, rev_replicate.
  change (rev (Str.chars "/simple")) with ("e"%char :: rev (Str.chars "/simpl")).
  rewrite <- app_assoc, <- app_comm_cons.
  rewrite drop_while_replicate by discriminate.
  change ("e"%char :: (rev (Str.chars "/simpl") ++ rev (Str.chars prefix))%list)
    with (rev (Str.chars "/simple") ++ rev (Str.chars prefix))%list.
  rewrite <- rev_app_distr, rev_involutive, <- chars_app.
  apply of_chars_chars.
Qed.

Lemma simple_index_rstrip (source : Source) (prefix : string) :
  simple_index source prefix <->
  Str.rstrip "/" (default "" (source !! "url")) = prefix ++ "/simple".
Proof.
  unfold simple_index. split.
  - intros [k ->]. apply rstrip_simple.
  - intros Hp. destruct (rstrip_split (default "" (source !! "url"))) as [k Hk].
    exists k. rewrite Hk at 1. rewrite Hp.
    rewrite <- (of_chars_chars ((prefix ++ "/simple") ++ slashes k)),
            <- (of_chars_chars (prefix ++ "/simple" ++ slashes k)).
    rewrite !chars_app, app_assoc. reflexivity.
Qed.

Lemma append_simple_inj (p q : string) : p ++ "/simple" = q ++ "/simple" -> p = q.
Proof.
  intros H. rewrite <- (drop_last_simple p), <- (drop_last_simple q), H. reflexivity.
Qed.

Lemma simple_index_functional (source : Source) (p q : string) :
  simple_index source p -> simple_index source q -> p = q.
Proof.
  rewrite !simple_index_rstrip. intros Hp Hq. apply append_simple_inj. congruence.
Qed.

Lemma url_prefixes_cons (source : Source) (sources : list Source) :
  (forall prefix, simple_index source prefix ->
     url_prefixes (source :: sources) = prefix :: url_prefixes sources)
  /\ ((forall prefix, ~ simple_index source prefix) ->
      url_prefixes (source :: sources) = url_prefixes sources).
Proof.
  unfold url_prefixes. cbn [omap list_omap]. cbn zeta. split.
  - intros prefix Hp. apply simple_index_rstrip in Hp. rewrite Hp.
    rewrite (proj2 (endswith_spec (prefix ++ "/simple") "/simple")) by eauto.
    rewrite drop_last_simple. reflexivity.
  - intros Hno.
    destruct (Str.endswith _ "/simple") eqn:Hends; [|reflexivity].
    apply endswith_spec in Hends as [p Hp].
    destruct (Hno p). apply simple_index_rstrip, Hp.
Qed.

Lemma simple_index_dec (source : Source) :
  (exists prefix, simple_index source prefix) \/ (forall prefix, ~ simple_index source prefix).
Proof.
  destruct (Str.endswith (Str.rstrip "/" (default "" (source !! "url"))) "/simple") eqn:Hends.
  - apply endswith_spec in Hends as [p Hp]. left. exists p. apply simple_index_rstrip, Hp.
  - right. intros p Hp. apply simple_index_rstrip in Hp.
    rewrite Hp in Hends.
    exact (proj1 (endswith_false (p ++ "/simple") "/simple") Hends p eq_refl).
Qed.

(** [url_prefixes] computes the candidates, and they are the only ones. *)
Lemma candidates_url_prefixes (sources : list Source) (prefixes : list string) :
  candidates sources prefixes <-> prefixes = url_prefixes sources.
Proof.
  split.
  - induction 1 as [|source sources prefix prefixes Hp _ IH|source sources prefixes Hno _ IH].
    + reflexivity.
    + rewrite (proj1 (url_prefixes_cons source sources) prefix Hp), IH. reflexivity.
    + rewrite (proj2 (url_prefixes_cons source sources) Hno). exact IH.
  - intros ->. induction sources as [|source sources IH]; [constructor|].
    destruct (simple_index_dec source) as [[p Hp]|Hno].
    + rewrite (proj1 (url_prefixes_cons source sources) p Hp).
      constructor; assumption.
    + rewrite (proj2 (url_prefixes_cons source sources) Hno).
      apply candidates_skip; assumption.
Qed.

End SimpleIndex.

Section Answers.

Context (env : Env).

Lemma json_attempt_answers (url : string) (deps : list string) :
  json_attempt env url = Some deps <-> answers env url deps.
Proof.
  unfold json_attempt, info_dependencies, answers. split.
  - destruct (http_info env url) as [info|]; [|discriminate]. cbn.
    destruct (requires info) as [fallback|] eqn:Hreq; [|discriminate]. cbn.
    destruct (default fallback (requires_dist info)) as [|lines] eqn:Hd; [discriminate|].
    rewrite info_lines_map_filter.
    destruct (mapM (from_line env) lines) as [reqs|] eqn:Hm; [|discriminate].
    cbn. intros [= <-]. exists info, fallback, lines, reqs. auto.
  - intros (info & fallback & lines & reqs & -> & Hreq & Hd & Hm & ->). cbn.
    rewrite Hreq. cbn. rewrite Hd, info_lines_map_filter, Hm. reflexivity.
Qed.

Lemma json_attempt_fails (url : string) :
  json_attempt env url = None <-> forall deps, ~ answers env url deps.
Proof.
  split.
  - intros Hn deps Ha. apply json_attempt_answers in Ha. congruence.
  - intros Hno. destruct (json_attempt env url) as [deps|] eqn:Ha; [|reflexivity].
    destruct (Hno deps). apply json_attempt_answers, Ha.
Qed.

End Answers.

Section JsonTierOutcome.

Context (env : Env).

Lemma json_tier_guard (ireq : InstallRequirement) (sources : list Source) (w : World) :
  ireq_editable ireq = true \/ ireq_extras ireq <> [] ->
  _get_dependencies_from_json env ireq sources w = (Ok None, w).
Proof.
  intros [He|Hx]; unfold _get_dependencies_from_json.
  - rewrite He. reflexivity.
  - destruct (ireq_editable ireq); [reflexivity|].
    destruct (ireq_extras ireq); [congruence | reflexivity].
Qed.

(** C6. For a requirement that is editable or declares any extra, the
    remote-metadata tier returns [None] and leaves the world as it was: no
    request is issued, whatever the sources are. *)
Theorem json_tier_skips (ireq : InstallRequirement) (sources : list Source) (w : World) :
  ireq_editable ireq = true \/ ireq_extras ireq <> [] ->
  _get_dependencies_from_json env ireq sources w = (Ok None, w)
  /\ calls (snd (_get_dependencies_from_json env ireq sources w)) = calls w.
Proof.
  intros H. rewrite (json_tier_guard ireq sources w H). split; reflexivity.
Qed.

Lemma fails_attempts (ireq : InstallRequirement) (version : string) (prefixes : list string) :
  Forall (fun p => json_attempt env (json_url p ireq version) = None) prefixes
  <-> Forall (fun p => forall deps, ~ answers env (json_url p ireq version) deps) prefixes.
Proof.
  rewrite !Forall_forall. split; intros H p Hp; apply json_attempt_fails, H, Hp.
Qed.

(** C7. The remote-metadata tier never raises and never touches the cache.
    Its candidates are fixed by the sources alone, in the order of the
    sources: a source whose url is a prefix, then [/simple], then any number
    of slashes gives that prefix, any other source gives nothing. The
    request for a candidate goes to prefix [/pypi/] name [/] version
    [/json], the name canonicalized and the version the specifier without
    its leading [=]; it succeeds when the response carries the list of
    lines and every line parses. A list the tier returns is the answer of
    the first candidate whose request succeeds, after one request to each
    earlier candidate, in order, and one to that candidate; every line of it
    is printed from a requirement whose marker has no extra clause. For a
    requirement that is not editable and has no extras, the first candidate
    that answers decides the result, and the tier returns [None] exactly
    when no candidate answers, after one request to each. *)
Theorem json_tier_first_success (ireq : InstallRequirement) (sources : list Source)
    (w w' : World) (r : Res (option (list string))) :
  _get_dependencies_from_json env ireq sources w = (r, w') ->
  let version := Str.lstrip "=" (specifier_str ireq) in
  let url := fun prefix =>
    prefix ++ "/pypi/" ++ Packaging.canonicalize_name (ireq_name ireq)
           ++ "/" ++ version ++ "/json" in
  let fails := fun prefix => forall deps, ~ answers env (url prefix) deps in
  (exists o, r = Ok o)
  /\ dep_cache w' = dep_cache w
  /\ exists prefixes : list string,
       (forall ps, candidates sources ps <-> ps = prefixes)
       /\ (forall deps, r = Ok (Some deps) ->
             (ireq_editable ireq = false /\ ireq_extras ireq = [])
             /\ Forall (fun line => exists dep_req,
                          line = as_line env dep_req
                          /\ contains_extra (markers dep_req) = false) deps
             /\ exists (tried : list string) (prefix : string) (rest : list string),
                  prefixes = (tried ++ prefix :: rest)%list
                  /\ Forall fails tried
                  /\ answers env (url prefix) deps
                  /\ calls w' = (calls w ++ map (fun p => HttpGet (url p)) (tried ++ [prefix]))%list)
       /\ (ireq_editable ireq = false -> ireq_extras ireq = [] ->
           (forall (tried : list string) (prefix : string) (rest deps : list string),
              prefixes = (tried ++ prefix :: rest)%list ->
              Forall fails tried -> answers env (url prefix) deps ->
              r = Ok (Some deps))
           /\ (r = Ok None <-> Forall fails prefixes)
           /\ (r = Ok None ->
               calls w' = (calls w ++ map (fun p => HttpGet (url p)) prefixes)%list)).
Proof.
  intros Hrun version url fails.
  assert (Hcand : forall ps, candidates sources ps <-> ps = url_prefixes sources)
    by (intros ps; apply candidates_url_prefixes).
  destruct (ireq_editable ireq) eqn:He.
  { rewrite (json_tier_guard ireq sources w (or_introl He)) in Hrun.
    injection Hrun as <- <-. split; [eauto|]. split; [reflexivity|].
    exists (url_prefixes sources). split; [exact Hcand|].
    split; [discriminate|]. discriminate. }
  destruct (ireq_extras ireq) as [|x xs] eqn:Hx.
  2: { rewrite (json_tier_guard ireq sources w) in Hrun
         by (right; rewrite Hx; discriminate).
       injection Hrun as <- <-. split; [eauto|]. split; [reflexivity|].
       exists (url_prefixes sources). split; [exact Hcand|].
       split; discriminate. }
  unfold _get_dependencies_from_json in Hrun. rewrite He, Hx in Hrun.
  fold version in Hrun.
  assert (Hsame : forall tried prefix rest deps deps',
            url_prefixes sources = (tried ++ prefix :: rest)%list ->
            Forall fails tried -> answers env (url prefix) deps ->
            r = Ok deps' -> deps' = Some deps /\
            calls w' = (calls w ++ map (fun p => HttpGet (url p)) (tried ++ [prefix]))%list).
  { intros tried prefix rest deps deps' Hsplit Htried Hprefix ->.
    rewrite Hsplit in Hrun.
    rewrite (json_loop_found env ireq version tried prefix rest deps w) in Hrun.
    - injection Hrun as <- <-. split; reflexivity.
    - apply fails_attempts, Htried.
    - apply json_attempt_answers, Hprefix. }
  destruct (first_success env ireq version (url_prefixes sources))
    as [Hall|(tried & prefix & rest & deps & Hsplit & Htried & Hprefix)].
  - rewrite (json_loop_exhausted env _ _ _ w Hall) in Hrun.
    injection Hrun as <- <-. split; [eauto|]. split; [reflexivity|].
    exists (url_prefixes sources). split; [exact Hcand|].
    split; [discriminate|]. intros _ _. split; [|split].
    + intros tried prefix rest deps Hsplit Htried Hprefix. exfalso.
      rewrite Hsplit in Hall. apply Forall_app in Hall as [_ Hall].
      inversion Hall as [|? ? Hp _]; subst.
      exact (proj1 (json_attempt_fails env _) Hp deps Hprefix).
    + split; [intros _; apply fails_attempts, Hall | reflexivity].
    + reflexivity.
  - apply fails_attempts in Htried. apply json_attempt_answers in Hprefix.
    assert (Hr : exists deps', r = Ok deps').
    { rewrite Hsplit in Hrun.
      rewrite (json_loop_found env ireq version tried prefix rest deps w) in Hrun.
      - injection Hrun as <- _. eauto.
      - apply fails_attempts, Htried.
      - apply json_attempt_answers, Hprefix. }
    destruct Hr as [deps' ->].
    destruct (Hsame tried prefix rest deps deps' Hsplit Htried Hprefix eq_refl)
      as [-> Hcalls].
    split; [eauto|]. split.
    { rewrite Hsplit in Hrun.
      rewrite (json_loop_found env ireq version tried prefix rest deps w) in Hrun.
      - injection Hrun as <-. reflexivity.
      - apply fails_attempts, Htried.
      - apply json_attempt_answers, Hprefix. }
    exists (url_prefixes sources). split; [exact Hcand|]. split; [|intros _ _; split; [|split]].
    + intros deps0 [= <-]. split; [split; reflexivity|]. split.
      * eapply json_attempt_no_extra. apply json_attempt_answers, Hprefix.
      * exists tried, prefix, rest. auto.
    + intros tried0 prefix0 rest0 deps0 Hsplit0 Htried0 Hprefix0.
      destruct (Hsame tried0 prefix0 rest0 deps0 (Some deps) Hsplit0 Htried0 Hprefix0 eq_refl)
        as [Heq _]. rewrite Heq. reflexivity.
    + split; [discriminate|]. intros Hall. exfalso. rewrite Hsplit in Hall.
      apply Forall_app in Hall as [_ Hall]. inversion Hall as [|? ? Hp _]; subst.
      exact (Hp deps Hprefix).
    + discriminate.
Qed.

End JsonTierOutcome.

(** ** The lookup chain *)

Section Chain.

Context (env : Env).

(** What is raised once every getter has been tried: the exception raised
    last, else the one recorded before, else the generic error. *)
Lemma run_getters_exhausted (gs : list Getter) (ireq : InstallRequirement)
    (last_exc : option Exc) (w : World) :
  Forall (fun r => is_list r = false) (fst (run_all gs ireq w)) ->
  run_getters env gs ireq last_exc w =
    (Raise (default NoDependencies
              (match last_raised (fst (run_all gs ireq w)) with
               | Some e => Some e
               | None => last_exc
               end)),
     snd (run_all gs ireq w)).
Proof.
  revert last_exc w. induction gs as [|g gs IH]; intros last_exc w Hall.
  - cbn. destruct last_exc; reflexivity.
  - cbn in *. destruct (g ireq w) as [r w1].
    destruct (run_all gs ireq w1) as [rs w'] eqn:Hrest. cbn in *.
    inversion Hall as [|? ? Hr Hrs]; subst.
    assert (Hrs' : Forall (fun r => is_list r = false) (fst (run_all gs ireq w1)))
      by (rewrite Hrest; exact Hrs).
    destruct r as [[deps|]|e]; [discriminate| |].
    + rewrite (IH last_exc w1 Hrs'), Hrest. reflexivity.
    + rewrite (IH (Some e) w1 Hrs'), Hrest. cbn.
      unfold last_raised. cbn. rewrite last_cons.
      destruct (last (omap raised rs)); reflexivity.
Qed.

(** The first getter to return a list decides, whatever follows it. *)
Lemma run_getters_first_list (pre : list Getter) (g : Getter) (post : list Getter)
    (ireq : InstallRequirement) (last_exc : option Exc) (w w' : World)
    (deps : list string) :
  Forall (fun r => is_list r = false) (fst (run_all pre ireq w)) ->
  g ireq (snd (run_all pre ireq w)) = (Ok (Some deps), w') ->
  run_getters env (pre ++ g :: post) ireq last_exc w = (parse_lines env deps, w').
Proof.
  revert last_exc w. induction pre as [|p pre IH]; intros last_exc w Hall Hg.
  - cbn in *. rewrite Hg. reflexivity.
  - cbn in *. destruct (p ireq w) as [r w1].
    destruct (run_all pre ireq w1) as [rs w2] eqn:Hrest. cbn in *.
    inversion Hall as [|? ? Hr Hrs]; subst.
    assert (Hrs' : Forall (fun r => is_list r = false) (fst (run_all pre ireq w1)))
      by (rewrite Hrest; exact Hrs).
    assert (Hg' : g ireq (snd (run_all pre ireq w1)) = (Ok (Some deps), w'))
      by (rewrite Hrest; exact Hg).
    destruct r as [[deps'|]|e]; [discriminate| |]; apply IH; assumption.
Qed.

(** The calls of the cache tier are calls to the cache. *)
Lemma cache_tier_calls (ireq : InstallRequirement) (w : World) :
  exists evs,
    calls (snd (_get_dependencies_from_cache env ireq w)) = (calls w ++ evs)%list
    /\ Forall (fun ev => is_cache_call ev = true) evs.
Proof.
  unfold _get_dependencies_from_cache.
  destruct (ireq_editable ireq).
  { exists []. cbn. rewrite app_nil_r. auto. }
  unfold cache_getitem, cache_delitem, bind, call, lift, ret.
  destruct (as_cache_key ireq) as [key|e]; cbn.
  - destruct (dep_cache w !! key) as [cached|]; cbn.
    + destruct (cache_entry_broken env _ cached); cbn.
      * exists [CacheGet ireq; CacheDel ireq]. rewrite <- app_assoc. auto.
      * exists [CacheGet ireq]. auto.
    + exists [CacheGet ireq]. auto.
  - exists [CacheGet ireq]. destruct e; cbn; auto.
Qed.

Lemma json_loop_calls (ireq : InstallRequirement) (version : string)
    (prefixes : list string) (w : World) :
  exists evs,
    calls (snd (json_loop env ireq version prefixes w)) = (calls w ++ evs)%list
    /\ Forall (fun ev => is_build_call ev = false) evs.
Proof.
  revert w. induction prefixes as [|p prefixes IH]; intros w; cbn.
  - exists []. rewrite app_nil_r. auto.
  - unfold bind, call, ret.
    destruct (json_attempt env _) as [deps|].
    + exists [HttpGet (json_url p ireq version)]. auto.
    + destruct (IH (record_call (HttpGet (json_url p ireq version)) w))
        as (evs & Hevs & Hall).
      exists (HttpGet (json_url p ireq version) :: evs). split.
      * rewrite Hevs. cbn. rewrite <- app_assoc. reflexivity.
      * constructor; auto.
Qed.

(** The remote-metadata tier, wrapped, never calls the wheel builder. *)
Lemma cached_json_tier_calls (ireq : InstallRequirement) (sources : list Source)
    (w : World) :
  exists evs,
    calls (snd (_cached (fun ireq => _get_dependencies_from_json env ireq sources) ireq w))
    = (calls w ++ evs)%list
    /\ Forall (fun ev => is_build_call ev = false) evs.
Proof.
  assert (Hjson : exists evs,
            calls (snd (_get_dependencies_from_json env ireq sources w)) = (calls w ++ evs)%list
            /\ Forall (fun ev => is_build_call ev = false) evs).
  { unfold _get_dependencies_from_json.
    destruct (ireq_editable ireq); [exists []; cbn; rewrite app_nil_r; auto|].
    destruct (ireq_extras ireq); [|exists []; cbn; rewrite app_nil_r; auto].
    apply json_loop_calls. }
  destruct Hjson as (evs & Hevs & Hall).
  unfold _cached, bind, ret.
  destruct (_get_dependencies_from_json env ireq sources w) as [[[value|]|e] w1];
    cbn in *; eauto.
  destruct (is_pinned_requirement ireq); cbn; eauto.
  unfold cache_setitem, bind, call, lift.
  destruct (as_cache_key ireq) as [key|e]; cbn;
    (exists (evs ++ [CacheSet ireq value])%list; split;
     [rewrite Hevs, <- app_assoc; reflexivity
     | apply Forall_app; split; auto]).
Qed.

End Chain.

Section ChainOutcome.

Context (env : Env).

Lemma cache_call_not_build (evs : list Event) :
  Forall (fun ev => is_cache_call ev = true) evs ->
  Forall (fun ev => is_build_call ev = false) evs.
Proof. intros Hall. eapply Forall_impl; [exact Hall|]. intros []; cbn; congruence. Qed.

(** [parse_lines] gives one requirement for each line, in order, or the
    error of the first line the parser rejects. *)
Lemma parse_lines_parsed_as (deps : list string) :
  parsed_as env deps (parse_lines env deps).
Proof.
  induction deps as [|d rest IH]; cbn.
  - left. exists []. split; [reflexivity | constructor].
  - destruct (from_line env d) as [r|] eqn:Hd.
    + destruct IH as [(reqs & -> & Hall)|(good & bad & tail & -> & Hgood & Hbad & ->)].
      * left. exists (r :: reqs). split; [reflexivity|]. constructor; assumption.
      * right. exists (d :: good), bad, tail. split; [reflexivity|].
        split; [constructor; [rewrite Hd; eauto | exact Hgood]|]. auto.
    + right. exists [], d, rest. split; [reflexivity|]. split; [constructor|]. auto.
Qed.

(** C3. [get_dependencies] calls the cache tier first, the wrapped
    remote-metadata tier in the world the cache tier left, and the wrapped
    local-build tier in the world that one left. The first of them to
    return a list, empty or not, decides: what [get_dependencies] returns
    is one requirement for each line of that list, in order, each the
    parse of its line (or, if a line does not parse, the error of the first
    such line), and the world is the one this tier left, so that no later
    tier has run: after a list from the cache tier the new calls are calls
    to the cache only, and after a list from the remote-metadata tier no
    call to the wheel builder is among them. *)
Theorem get_dependencies_first_list (requirement : Requirement) (sources : list Source)
    (w w1 w2 w3 : World) (r1 r2 r3 : Res (option (list string))) :
  let ireq := as_ireq requirement in
  _get_dependencies_from_cache env ireq w = (r1, w1) ->
  _cached (fun i => _get_dependencies_from_json env i sources) ireq w1 = (r2, w2) ->
  _cached (fun i => _get_dependencies_from_pip env i sources) ireq w2 = (r3, w3) ->
  (forall deps, r1 = Ok (Some deps) ->
     snd (get_dependencies env requirement sources w) = w1
     /\ parsed_as env deps (fst (get_dependencies env requirement sources w))
     /\ (forall reqs,
           Forall2 (fun line r => from_line env line = Some r) deps reqs ->
           get_dependencies env requirement sources w = (Ok reqs, w1))
     /\ exists evs, calls w1 = (calls w ++ evs)%list
                    /\ Forall (fun ev => is_cache_call ev = true) evs)
  /\ (forall deps, is_list r1 = false -> r2 = Ok (Some deps) ->
        snd (get_dependencies env requirement sources w) = w2
        /\ parsed_as env deps (fst (get_dependencies env requirement sources w))
        /\ (forall reqs,
              Forall2 (fun line r => from_line env line = Some r) deps reqs ->
              get_dependencies env requirement sources w = (Ok reqs, w2))
        /\ exists evs, calls w2 = (calls w ++ evs)%list
                       /\ Forall (fun ev => is_build_call ev = false) evs)
  /\ (forall deps, is_list r1 = false -> is_list r2 = false -> r3 = Ok (Some deps) ->
        snd (get_dependencies env requirement sources w) = w3
        /\ parsed_as env deps (fst (get_dependencies env requirement sources w))
        /\ (forall reqs,
              Forall2 (fun line r => from_line env line = Some r) deps reqs ->
              get_dependencies env requirement sources w = (Ok reqs, w3))).
Proof.
  intros ireq H1 H2 H3.
  destruct (cache_tier_calls env ireq w) as (evs1 & Hevs1 & Hall1).
  destruct (cached_json_tier_calls env ireq sources w1) as (evs2 & Hevs2 & Hall2).
  rewrite H1 in Hevs1. rewrite H2 in Hevs2. cbn in Hevs1, Hevs2.
  assert (Hparsed : forall deps w',
            get_dependencies env requirement sources w = (parse_lines env deps, w') ->
            snd (get_dependencies env requirement sources w) = w'
            /\ parsed_as env deps (fst (get_dependencies env requirement sources w))
            /\ (forall reqs,
                  Forall2 (fun line r => from_line env line = Some r) deps reqs ->
                  get_dependencies env requirement sources w = (Ok reqs, w'))).
  { intros deps w' ->. cbn [fst snd]. split; [reflexivity|].
    split; [apply parse_lines_parsed_as|].
    intros reqs Hall. f_equal.
    clear -Hall. induction Hall as [|line r lines reqs Hline _ IH]; cbn; [reflexivity|].
    rewrite Hline, IH. reflexivity. }
  assert (Hgd : get_dependencies env requirement sources w
                = match r1 with
                  | Ok (Some deps) => (parse_lines env deps, w1)
                  | _ =>
                    match r2 with
                    | Ok (Some deps) => (parse_lines env deps, w2)
                    | _ =>
                      match r3 with
                      | Ok (Some deps) => (parse_lines env deps, w3)
                      | _ => get_dependencies env requirement sources w
                      end
                    end
                  end).
  { unfold get_dependencies, getters. fold ireq. cbn [run_getters]. rewrite H1.
    destruct r1 as [[d1|]|e1]; [reflexivity| |]; rewrite H2;
      (destruct r2 as [[d2|]|e2]; [reflexivity| |]); rewrite H3;
      destruct r3 as [[d3|]|e3]; reflexivity. }
  split; [|split].
  - intros deps ->. destruct (Hparsed deps w1 Hgd) as (Hw & Hp & Hok).
    repeat (split; [assumption|]). eauto.
  - intros deps Hr1 ->.
    assert (Hgd2 : get_dependencies env requirement sources w = (parse_lines env deps, w2))
      by (rewrite Hgd at 1; destruct r1 as [[d|]|e]; [discriminate| |]; reflexivity).
    destruct (Hparsed deps w2 Hgd2) as (Hw & Hp & Hok).
    repeat (split; [assumption|]).
    exists (evs1 ++ evs2)%list. split.
    + rewrite Hevs2, Hevs1, <- app_assoc. reflexivity.
    + apply Forall_app. split; [apply cache_call_not_build|]; assumption.
  - intros deps Hr1 Hr2 ->.
    assert (Hgd3 : get_dependencies env requirement sources w = (parse_lines env deps, w3)).
    { rewrite Hgd at 1. destruct r1 as [[d|]|e]; [discriminate| |];
        (destruct r2 as [[d2|]|e2]; [discriminate| |]); reflexivity. }
    exact (Hparsed deps w3 Hgd3).
Qed.

(** C4. When every getter has returned [None] or raised, the chain raises
    the exception raised last, if any getter raised, and the generic error
    otherwise; the world it leaves is the one reached by calling every
    getter in turn, so that a getter that raises does not keep the later
    ones from being tried. This holds of any list of getters, and so of
    the three tiers of [get_dependencies]. *)
Theorem chain_exhausted (gs : list Getter) (requirement : Requirement)
    (sources : list Source) (w : World) :
  let ireq := as_ireq requirement in
  let failure := fun rs : list (Res (option (list string))) =>
                   default NoDependencies (last_raised rs) in
  (Forall (fun r => is_list r = false) (fst (run_all gs ireq w)) ->
   run_getters env gs ireq None w =
     (Raise (failure (fst (run_all gs ireq w))), snd (run_all gs ireq w)))
  /\ (Forall (fun r => is_list r = false) (fst (run_all (getters env sources) ireq w)) ->
      get_dependencies env requirement sources w =
        (Raise (failure (fst (run_all (getters env sources) ireq w))),
         snd (run_all (getters env sources) ireq w))).
Proof.
  intros ireq failure. unfold failure, get_dependencies. fold ireq.
  split; intros Hall; rewrite (run_getters_exhausted env _ ireq None w Hall);
    destruct (last_raised _); reflexivity.
Qed.

End ChainOutcome.

(** ** The marker filter *)

Lemma has_extra_collect (m : Marker) :
  has_extra m = false <-> collect_extras m = ∅.
Proof.
  induction m as [e|v op x|l IHl r IHr|l IHl r IHr]; cbn.
  - split; [discriminate|]. intros H.
    assert (He : e ∈ ({[ e ]} : gset string)) by set_solver.
    rewrite H in He. set_solver.
  - split; reflexivity.
  - rewrite orb_false_iff, IHl, IHr, empty_union_L. reflexivity.
  - rewrite orb_false_iff, IHl, IHr, empty_union_L. reflexivity.
Qed.

Lemma strip_extra_clean (m m' : Marker) :
  strip_extra m = Some m' -> has_extra m' = false.
Proof.
  revert m'. induction m as [e|v op x|l IHl r IHr|l IHl r IHr]; cbn; intros m'.
  - discriminate.
  - intros [= <-]. reflexivity.
  - destruct (strip_extra l) as [l'|], (strip_extra r) as [r'|]; cbn;
      intros [= <-]; cbn; try rewrite (IHl _ eq_refl); try rewrite (IHr _ eq_refl);
      reflexivity.
  - destruct (strip_extra l) as [l'|], (strip_extra r) as [r'|]; cbn;
      intros [= <-]; cbn; try rewrite (IHl _ eq_refl); try rewrite (IHr _ eq_refl);
      reflexivity.
Qed.

Lemma strip_extra_id (m : Marker) :
  has_extra m = false -> strip_extra m = Some m.
Proof.
  induction m as [e|v op x|l IHl r IHr|l IHl r IHr]; cbn.
  - discriminate.
  - reflexivity.
  - intros [Hl Hr]%orb_false_iff. rewrite (IHl Hl), (IHr Hr). reflexivity.
  - intros [Hl Hr]%orb_false_iff. rewrite (IHl Hl), (IHr Hr). reflexivity.
Qed.

Lemma get_without_extra_clean (marker : option Marker) :
  contains_extra (get_without_extra marker) = false.
Proof.
  destruct marker as [m|]; cbn; [|reflexivity].
  destruct (strip_extra m) as [m'|] eqn:Hm; cbn; [|reflexivity].
  eapply strip_extra_clean, Hm.
Qed.

Lemma contains_extra_collect (marker : option Marker) :
  contains_extra marker = false <-> get_contained_extras marker = ∅.
Proof.
  destruct marker as [m|]; cbn; [apply has_extra_collect|].
  split; reflexivity.
Qed.

Lemma set_markers_same (r : Requirement) : set_markers r (markers r) = r.
Proof. destruct r; reflexivity. Qed.

(** ** The extras scoping of the local-build tier *)

Section Scoping.

Context (env : Env).

Lemma gate_closed_iff (extras : list string) (marker : option Marker) :
  bool_decide (get_contained_extras marker ≠ ∅)
  && negb (existsb (fun e => bool_decide (e ∈ get_contained_extras marker)) extras)
  = false
  <-> gate_open extras marker.
Proof.
  unfold gate_open. rewrite andb_false_iff, negb_false_iff, existsb_exists.
  rewrite bool_decide_eq_false. split.
  - intros [Hempty|(e & Hin & He)].
    + left. destruct (decide (get_contained_extras marker = ∅)); [assumption|contradiction].
    + right. exists e. apply list_elem_of_In in Hin.
      apply bool_decide_eq_true in He. auto.
  - intros [Hempty|(e & Hin & He)].
    + left. intros Hne. contradiction.
    + right. exists e. split; [apply list_elem_of_In, Hin|].
      apply bool_decide_eq_true, He.
Qed.

(** The inner loop appends to what was collected; it keeps exactly the
    lines [kept_as] describes, and it returns only if every line parses. *)
Lemma read_lines_spec (extras lines requirements out : list string) :
  read_lines env extras lines requirements = Ok out ->
  exists kept,
    out = (requirements ++ kept)%list
    /\ Forall (fun line => is_Some (from_line env line)) lines
    /\ (forall o, o ∈ kept <->
          exists line r, line ∈ lines /\ from_line env line = Some r
                         /\ kept_as env extras line r o).
Proof.
  revert requirements. induction lines as [|line rest IH]; intros requirements; cbn.
  - intros [= <-]. exists []. rewrite app_nil_r. split; [reflexivity|].
    split; [constructor|]. intros o. split; [intros H; inversion H|].
    intros (l & r & H & _). inversion H.
  - destruct (from_line env line) as [r|] eqn:Hline; [|discriminate].
    destruct (markers r) as [m|] eqn:Hm.
    + destruct (bool_decide _ && negb _) eqn:Hgate.
      * intros Hrun. destruct (IH _ Hrun) as (kept & -> & Hparse & Hkept).
        exists kept. split; [reflexivity|]. split; [constructor; eauto|].
        intros o. rewrite Hkept. split.
        -- intros (l & r' & Hl & Hr' & Hk). exists l, r'. split; [right; exact Hl|]. auto.
        -- intros (l & r' & Hl & Hr' & Hk).
           apply elem_of_cons in Hl as [->|Hl]; [|eauto].
           exfalso. assert (r' = r) by congruence. subst r'.
           destruct Hk as [[Hnone _]|(_ & Hopen & _)]; [congruence|].
           apply gate_closed_iff in Hopen. rewrite Hm in Hopen. congruence.
      * intros Hrun. destruct (IH _ Hrun) as (kept & -> & Hparse & Hkept).
        set (o1 := as_line env (set_markers r (get_without_extra (Some m)))).
        exists (o1 :: kept). split; [rewrite <- app_assoc; reflexivity|].
        split; [constructor; eauto|].
        assert (Hk1 : kept_as env extras line r o1).
        { right. rewrite Hm. split; [discriminate|]. split; [|reflexivity].
          apply gate_closed_iff. exact Hgate. }
        intros o. rewrite elem_of_cons, Hkept. split.
        -- intros [->|(l & r' & Hl & Hr' & Hk)].
           ++ exists line, r. split; [left|]; auto.
           ++ exists l, r'. split; [right; exact Hl|]. auto.
        -- intros (l & r' & Hl & Hr' & Hk).
           apply elem_of_cons in Hl as [->|Hl]; [|right; eauto].
           left. assert (r' = r) by congruence. subst r'.
           destruct Hk as [[Hnone _]|(_ & _ & ->)]; [congruence|].
           rewrite Hm. reflexivity.
    + intros Hrun. destruct (IH _ Hrun) as (kept & -> & Hparse & Hkept).
      exists (line :: kept). split; [rewrite <- app_assoc; reflexivity|].
      split; [constructor; eauto|].
      intros o. rewrite elem_of_cons, Hkept. split.
      * intros [->|(l & r' & Hl & Hr' & Hk)].
        -- exists line, r. split; [left|]. split; [assumption|]. left. auto.
        -- exists l, r'. split; [right; exact Hl|]. auto.
      * intros (l & r' & Hl & Hr' & Hk).
        apply elem_of_cons in Hl as [->|Hl]; [|right; eauto].
        left. assert (r' = r) by congruence. subst r'.
        destruct Hk as [[_ ->]|(Hsome & _)]; [reflexivity|congruence].
Qed.

Lemma read_lines_total (extras lines requirements : list string) :
  Forall (fun line => is_Some (from_line env line)) lines ->
  exists out, read_lines env extras lines requirements = Ok out.
Proof.
  intros Hall. revert requirements.
  induction Hall as [|line rest [r Hr] _ IH]; intros requirements; cbn.
  - eauto.
  - rewrite Hr. destruct (markers r); [destruct (_ && _)|]; apply IH.
Qed.

End Scoping.

Section ScopingEntries.

Context (env : Env).

Lemma in_scope_untagged (extras : list string) (entry : Entry) :
  entry_extra entry = None -> in_scope extras entry.
Proof. intros H tag. rewrite H. discriminate. Qed.

Lemma in_scope_tagged (extras : list string) (entry : Entry) (tag : string) :
  entry_extra entry = Some tag -> (in_scope extras entry <-> tag ∈ extras).
Proof.
  intros H. unfold in_scope. rewrite H. split; [eauto|].
  intros Hin ? [= <-]. exact Hin.
Qed.

(** The outer loop: what it keeps, and what it needs to return. *)
Lemma read_entries_spec (extras : list string) (entries : list Entry)
    (requirements out : list string) :
  read_entries env extras entries requirements = Ok out ->
  exists kept,
    out = (requirements ++ kept)%list
    /\ (forall entry, entry ∈ entries -> in_scope extras entry ->
          Forall (fun line => is_Some (from_line env line)) (entry_lines entry))
    /\ (forall o, o ∈ kept <->
          exists entry line r,
            entry ∈ entries /\ in_scope extras entry
            /\ line ∈ entry_lines entry /\ from_line env line = Some r
            /\ kept_as env extras line r o).
Proof.
  revert requirements. induction entries as [|entry rest IH]; intros requirements; cbn.
  - intros [= <-]. exists []. rewrite app_nil_r. split; [reflexivity|].
    split; [intros e He; inversion He|].
    intros o. split; [intros H; inversion H|].
    intros (e & l & r & He & _). inversion He.
  - assert (Hin :
      forall Hscope : in_scope extras entry,
      match read_lines env extras (entry_lines entry) requirements with
      | Ok requirements' => read_entries env extras rest requirements'
      | Raise e => Raise e
      end = Ok out ->
      exists kept,
        out = (requirements ++ kept)%list
        /\ (forall e, e ∈ entry :: rest -> in_scope extras e ->
              Forall (fun line => is_Some (from_line env line)) (entry_lines e))
        /\ (forall o, o ∈ kept <->
              exists e line r,
                e ∈ entry :: rest /\ in_scope extras e
                /\ line ∈ entry_lines e /\ from_line env line = Some r
                /\ kept_as env extras line r o)).
    { intros Hscope Hrun.
      destruct (read_lines env extras (entry_lines entry) requirements)
        as [requirements'|] eqn:Hlines; [|discriminate].
      destruct (read_lines_spec env _ _ _ _ Hlines) as (kept1 & -> & Hparse1 & Hkept1).
      destruct (IH _ Hrun) as (kept2 & -> & Hparse2 & Hkept2).
      exists (kept1 ++ kept2)%list. split; [rewrite app_assoc; reflexivity|]. split.
      - intros e [->|He]%elem_of_cons; eauto.
      - intros o. rewrite elem_of_app, Hkept1, Hkept2. split.
        + intros [(l & r & Hl & Hr & Hk)|(e & l & r & He & Hrest)].
          * exists entry, l, r. split; [left|]; auto.
          * exists e, l, r. split; [right; exact He|]. exact Hrest.
        + intros (e & l & r & [->|He]%elem_of_cons & Hs & Hl & Hr & Hk).
          * left. eauto.
          * right. exists e, l, r. auto. }
    destruct (entry_extra entry) as [tag|] eqn:Htag.
    + case_bool_decide as Hreq.
      * apply Hin. apply (in_scope_tagged extras entry tag Htag), Hreq.
      * intros Hrun. destruct (IH _ Hrun) as (kept & -> & Hparse & Hkept).
        assert (Hout : ~ in_scope extras entry)
          by (rewrite (in_scope_tagged extras entry tag Htag); exact Hreq).
        exists kept. split; [reflexivity|]. split.
        -- intros e [->|He]%elem_of_cons; [contradiction | eauto].
        -- intros o. rewrite Hkept. split.
           ++ intros (e & l & r & He & Hrest). exists e, l, r.
              split; [right; exact He | exact Hrest].
           ++ intros (e & l & r & [->|He]%elem_of_cons & Hs & Hrest);
                [contradiction|]. exists e, l, r. auto.
    + apply Hin. apply in_scope_untagged, Htag.
Qed.

Lemma read_entries_total (extras : list string) (entries : list Entry)
    (requirements : list string) :
  (forall entry, entry ∈ entries -> in_scope extras entry ->
     Forall (fun line => is_Some (from_line env line)) (entry_lines entry)) ->
  exists out, read_entries env extras entries requirements = Ok out.
Proof.
  revert requirements. induction entries as [|entry rest IH];
    intros requirements Hparse; cbn; [eauto|].
  assert (Hrest : forall requirements',
            exists out, read_entries env extras rest requirements' = Ok out).
  { intros requirements'. apply IH. intros e He. apply Hparse. right. exact He. }
  assert (Hin : in_scope extras entry ->
            exists out,
              match read_lines env extras (entry_lines entry) requirements with
              | Ok requirements' => read_entries env extras rest requirements'
              | Raise e => Raise e
              end = Ok out).
  { intros Hscope.
    destruct (read_lines_total env extras (entry_lines entry) requirements)
      as [requirements' ->]; [|apply Hrest].
    apply Hparse; [left | exact Hscope]. }
  destruct (entry_extra entry) as [tag|] eqn:Htag.
  - case_bool_decide as Hreq; [|apply Hrest].
    apply Hin, (in_scope_tagged extras entry tag Htag), Hreq.
  - apply Hin, in_scope_untagged, Htag.
Qed.

Lemma read_requirements_total_iff (wheel : Wheel) (extras : list string) :
  (forall entry, entry ∈ run_requires wheel -> in_scope extras entry ->
     Forall (fun line => is_Some (from_line env line)) (entry_lines entry))
  <-> exists out, _read_requirements env wheel extras = Ok out.
Proof.
  unfold _read_requirements. split.
  - apply read_entries_total.
  - intros [out Hout].
    destruct (read_entries_spec extras _ _ _ Hout) as (kept & _ & Hparse & _).
    exact Hparse.
Qed.

Lemma offers_in_scope (extras : list string) (entry : Entry) (line : string) :
  offers extras entry line <-> in_scope extras entry /\ line ∈ entry_lines entry.
Proof.
  split.
  - intros Hoffer. destruct Hoffer as [l|lines l Hl|tag lines l Htag Hl].
    + split; [apply in_scope_untagged; reflexivity | left].
    + split; [apply in_scope_untagged; reflexivity | exact Hl].
    + split; [|exact Hl]. intros tag' [= <-]. exact Htag.
  - intros [Hscope Hl]. destruct entry as [l|[tag|] [lines|]]; cbn in Hl.
    + apply list_elem_of_singleton in Hl as ->. constructor.
    + constructor; [|exact Hl]. apply Hscope. reflexivity.
    + inversion Hl.
    + constructor. exact Hl.
    + inversion Hl.
Qed.

Lemma kept_as_kept (extras : list string) (line : string) (r : Requirement)
    (out : string) :
  kept_as env extras line r out <-> kept env extras line r out.
Proof.
  unfold kept_as, kept. split.
  - intros [H|(Hsome & Hopen & ->)]; [left; exact H|].
    right. split; [exact Hsome|]. split; [exact Hopen|].
    exists (set_markers r (get_without_extra (markers r))).
    split; [|reflexivity]. repeat split.
  - intros [H|(Hsome & Hopen & r' & Hr' & ->)]; [left; exact H|].
    right. split; [exact Hsome|]. split; [exact Hopen|].
    destruct Hr' as (Hn & He & Hx & Hs & Hm). destruct r, r'; cbn in *. subst.
    reflexivity.
Qed.

(** [_read_requirements] returns exactly when every offered line parses. *)
Lemma read_requirements_returns (wheel : Wheel) (extras : list string) :
  (forall entry line,
     entry ∈ run_requires wheel -> offers extras entry line ->
     is_Some (from_line env line))
  <-> exists out, _read_requirements env wheel extras = Ok out.
Proof.
  rewrite <- read_requirements_total_iff. split.
  - intros Hall entry Hin Hscope. apply Forall_forall. intros line Hl.
    apply (Hall entry line Hin). apply offers_in_scope. auto.
  - intros Hall entry line Hin [Hscope Hl]%offers_in_scope.
    specialize (Hall entry Hin Hscope). rewrite Forall_forall in Hall. auto.
Qed.

(** What [_read_requirements] returns: the offered lines that are kept. *)
Lemma read_requirements_members (wheel : Wheel) (extras out : list string) :
  _read_requirements env wheel extras = Ok out ->
  forall o,
    o ∈ out <->
    exists entry line r,
      entry ∈ run_requires wheel /\ offers extras entry line
      /\ from_line env line = Some r /\ kept env extras line r o.
Proof.
  unfold _read_requirements. intros Hout.
  destruct (read_entries_spec extras _ _ _ Hout) as (kept' & -> & _ & Hkept).
  cbn [app]. intros o. rewrite Hkept. split.
  - intros (entry & line & r & Hin & Hs & Hl & Hr & Hk).
    exists entry, line, r. split; [exact Hin|]. split; [apply offers_in_scope; auto|].
    split; [exact Hr | apply kept_as_kept, Hk].
  - intros (entry & line & r & Hin & [Hs Hl]%offers_in_scope & Hr & Hk).
    exists entry, line, r. repeat (split; [assumption|]). apply kept_as_kept, Hk.
Qed.

(** What makes [_read_requirements] raise: an offered line that the parser
    rejects. *)
Lemma read_requirements_raises (wheel : Wheel) (extras : list string) (e : Exc) :
  _read_requirements env wheel extras = Raise e ->
  exists entry line,
    entry ∈ run_requires wheel /\ offers extras entry line
    /\ from_line env line = None /\ e = InvalidRequirement line.
Proof.
  unfold _read_requirements. generalize (@nil string).
  induction (run_requires wheel) as [|entry rest IH]; intros requirements; cbn.
  - discriminate.
  - assert (Hlater : forall requirements',
              read_entries env extras rest requirements' = Raise e ->
              exists en line,
                en ∈ entry :: rest /\ offers extras en line
                /\ from_line env line = None /\ e = InvalidRequirement line).
    { intros requirements' Hrun. destruct (IH _ Hrun) as (en & l & Hen & Hrest).
      exists en, l. split; [right; exact Hen | exact Hrest]. }
    assert (Hin : in_scope extras entry ->
      match read_lines env extras (entry_lines entry) requirements with
      | Ok requirements' => read_entries env extras rest requirements'
      | Raise e => Raise e
      end = Raise e ->
      exists en line,
        en ∈ entry :: rest /\ offers extras en line
        /\ from_line env line = None /\ e = InvalidRequirement line).
    { intros Hscope.
      destruct (read_lines env extras (entry_lines entry) requirements)
        as [requirements'|e'] eqn:Hlines; [apply Hlater|].
      intros [= <-].
      assert (Hbad : exists line, line ∈ entry_lines entry
                                  /\ from_line env line = None
                                  /\ e' = InvalidRequirement line).
      { clear -Hlines. revert requirements Hlines.
        induction (entry_lines entry) as [|line lines IHl]; intros requirements; cbn.
        - discriminate.
        - destruct (from_line env line) as [r|] eqn:Hline.
          + intros Hrun.
            assert (Hrest : exists l, l ∈ lines /\ from_line env l = None
                                      /\ e' = InvalidRequirement l).
            { destruct (markers r); [destruct (_ && _)|]; eapply IHl, Hrun. }
            destruct Hrest as (l & Hl & Hrest). exists l.
            split; [right; exact Hl | exact Hrest].
          + intros [= <-]. exists line. split; [left|]; auto. }
      destruct Hbad as (line & Hl & Hnone & ->).
      exists entry, line. split; [left|]. split; [apply offers_in_scope; auto|]. auto. }
    destruct (entry_extra entry) as [tag|] eqn:Htag.
    + case_bool_decide as Hreq; [|apply Hlater].
      apply Hin, (in_scope_tagged extras entry tag Htag), Hreq.
    + apply Hin, in_scope_untagged, Htag.
Qed.

(** C5. [_read_requirements] returns exactly when every line offered to
    the requested extras parses. An entry that is a bare string offers its
    line; a dict offers the lines under [requires], and one tagged with an
    extra offers them only if that extra is requested. What is returned
    consists of the offered lines that are kept: a line without marker as
    it is; a line with a marker only if the marker names no extra or names
    a requested one, and then printed again from the requirement with the
    extra clauses removed from its marker and nothing else changed; what
    is left of a marker has no extra clause. When no extra is requested,
    every returned line comes from an entry without tag and from a
    requirement whose marker has no extra clause. *)
Theorem read_requirements_scoping (wheel : Wheel) (extras : list string) :
  ((forall entry line,
      entry ∈ run_requires wheel -> offers extras entry line ->
      is_Some (from_line env line))
   <-> exists out, _read_requirements env wheel extras = Ok out)
  /\ (forall marker, contains_extra (get_without_extra marker) = false)
  /\ (forall out, _read_requirements env wheel extras = Ok out ->
        (forall o, o ∈ out <->
           exists entry line r,
             entry ∈ run_requires wheel /\ offers extras entry line
             /\ from_line env line = Some r /\ kept env extras line r o)
        /\ (extras = [] ->
            forall o, o ∈ out ->
              exists entry line r,
                entry ∈ run_requires wheel /\ untagged entry
                /\ offers extras entry line /\ from_line env line = Some r
                /\ contains_extra (markers r) = false
                /\ (o = line \/ o = as_line env r))).
Proof.
  split; [apply read_requirements_returns|].
  split; [apply get_without_extra_clean|].
  intros out Hout. pose proof (read_requirements_members wheel extras out Hout) as Hmem.
  split; [exact Hmem|].
  intros Hnone o Ho. apply Hmem in Ho as (entry & line & r & Hin & Hoffer & Hr & Hk).
  exists entry, line, r. split; [exact Hin|].
  split.
  { destruct Hoffer as [l|lines l Hl|tag lines l Htag Hl]; cbn; auto.
    subst extras. inversion Htag. }
  split; [exact Hoffer|]. split; [exact Hr|].
  destruct Hk as [[Hm ->]|(Hsome & [Hempty|(e & He & _)] & r' & Hr' & ->)].
  - rewrite Hm. auto.
  - apply contains_extra_collect in Hempty. split; [exact Hempty|]. right.
    destruct Hr' as (Hn & Hed & Hx & Hs & Hmk).
    destruct (markers r) as [m|] eqn:Hm; [|congruence].
    cbn in Hempty, Hmk. rewrite (strip_extra_id m Hempty) in Hmk.
    f_equal. destruct r, r'; cbn in *. subst. reflexivity.
  - subst extras. inversion He.
Qed.

End ScopingEntries.

(** ** The local-build tier *)

Section PipTier.

Context (env : Env).

Lemma read_lines_raises (extras lines requirements : list string) (e : Exc) :
  read_lines env extras lines requirements = Raise e ->
  exists line, line ∈ lines /\ from_line env line = None /\ e = InvalidRequirement line.
Proof.
  revert requirements. induction lines as [|line rest IH]; intros requirements; cbn.
  - discriminate.
  - destruct (from_line env line) as [r|] eqn:Hline.
    + intros Hrun.
      assert (Hrest : exists l, l ∈ rest /\ from_line env l = None /\ e = InvalidRequirement l).
      { destruct (markers r); [destruct (_ && _)|]; eapply IH, Hrun. }
      destruct Hrest as (l & Hl & Hrest). exists l. split; [right; exact Hl | exact Hrest].
    + intros [= <-]. exists line. split; [left|]; auto.
Qed.

Lemma read_entries_raises (extras : list string) (entries : list Entry)
    (requirements : list string) (e : Exc) :
  read_entries env extras entries requirements = Raise e ->
  exists entry line,
    entry ∈ entries /\ line ∈ entry_lines entry
    /\ from_line env line = None /\ e = InvalidRequirement line.
Proof.
  revert requirements. induction entries as [|entry rest IH]; intros requirements; cbn.
  - discriminate.
  - assert (Hin :
      match read_lines env extras (entry_lines entry) requirements with
      | Ok requirements' => read_entries env extras rest requirements'
      | Raise e => Raise e
      end = Raise e ->
      exists en line,
        en ∈ entry :: rest /\ line ∈ entry_lines en
        /\ from_line env line = None /\ e = InvalidRequirement line).
    { destruct (read_lines env extras (entry_lines entry) requirements)
        as [requirements'|e'] eqn:Hlines.
      - intros Hrun. destruct (IH _ Hrun) as (en & l & Hen & Hrest).
        exists en, l. split; [right; exact Hen | exact Hrest].
      - intros [= <-]. destruct (read_lines_raises _ _ _ _ Hlines) as (l & Hrest).
        exists entry, l. split; [left | exact Hrest]. }
    destruct (entry_extra entry) as [tag|]; [|exact Hin].
    case_bool_decide; [exact Hin|].
    intros Hrun. destruct (IH _ Hrun) as (en & l & Hen & Hrest).
    exists en, l. split; [right; exact Hen | exact Hrest].
Qed.

Lemma usable_artifact_false (wheel_path : option string) :
  usable_artifact env wheel_path = false <-> no_artifact env wheel_path.
Proof.
  unfold usable_artifact, no_artifact. destruct wheel_path as [path|].
  - rewrite andb_false_iff, negb_false_iff, bool_decide_eq_true. split.
    + intros [-> | Hdisk]; [right; left; reflexivity|]. right. right. eauto.
    + intros [[=]|[[= ->]|(p & [= <-] & Hdisk)]]; auto.
  - split; auto.
Qed.

(** The tier once the builder has returned. *)
Lemma pip_tier_built (ireq : InstallRequirement) (sources : list Source)
    (wheel_path : option string) (w : World) :
  build_wheel env ireq sources = Ok wheel_path ->
  _get_dependencies_from_pip env ireq sources w =
    (match wheel_path with
     | Some path =>
       if usable_artifact env wheel_path
       then match open_wheel env path with
            | Some wheel =>
              match _read_requirements env wheel (ireq_extras ireq) with
              | Ok requirements => Ok (Some requirements)
              | Raise e => Raise e
              end
            | None => Raise (Collaborator "distlib.wheel")
            end
       else Raise BuildFailed
     | None => Raise BuildFailed
     end,
     record_call (BuildWheel ireq sources) w).
Proof.
  intros Hb. unfold _get_dependencies_from_pip, bind, call, lift, ret, raise.
  rewrite Hb. destruct wheel_path as [path|]; [|reflexivity].
  destruct (usable_artifact env (Some path)); [|reflexivity].
  destruct (open_wheel env path) as [wheel|]; [|reflexivity].
  destruct (_read_requirements _ _ _); reflexivity.
Qed.

(** C9, as amended. The local-build tier calls the wheel builder once and
    never returns [None]. An exception raised by the builder is raised by
    the tier. When the builder returns, the tier raises the build error
    exactly when there is no usable artifact: no path, an empty path, or a
    path that is not on disk. With a path that is on disk: if the wheel
    cannot be opened or its metadata read, the tier raises that error; if
    it can, the tier returns a list, which may be empty, exactly when every
    line offered to the requested extras parses, the list being the one
    [_read_requirements] gives, made of the offered lines that are kept;
    otherwise it raises the parse error of an offered line. *)
Theorem pip_tier_outcome (ireq : InstallRequirement) (sources : list Source) (w : World) :
  let run := _get_dependencies_from_pip env ireq sources w in
  let extras := ireq_extras ireq in
  snd run = record_call (BuildWheel ireq sources) w
  /\ fst run <> Ok None
  /\ (forall e, build_wheel env ireq sources = Raise e -> fst run = Raise e)
  /\ (forall wheel_path, build_wheel env ireq sources = Ok wheel_path ->
        (fst run = Raise BuildFailed <-> no_artifact env wheel_path)
        /\ (forall path,
              wheel_path = Some path -> path <> "" -> path_exists env path = true ->
              (open_wheel env path = None ->
               fst run = Raise (Collaborator "distlib.wheel"))
              /\ (forall wheel, open_wheel env path = Some wheel ->
                    ((forall entry line,
                        entry ∈ run_requires wheel -> offers extras entry line ->
                        is_Some (from_line env line))
                     <-> exists requirements, fst run = Ok (Some requirements))
                    /\ (forall requirements,
                          fst run = Ok (Some requirements) <->
                          _read_requirements env wheel extras = Ok requirements)
                    /\ (forall requirements,
                          fst run = Ok (Some requirements) ->
                          forall o,
                            o ∈ requirements <->
                            exists entry line r,
                              entry ∈ run_requires wheel /\ offers extras entry line
                              /\ from_line env line = Some r
                              /\ kept env extras line r o)
                    /\ (forall e,
                          fst run = Raise e ->
                          exists entry line,
                            entry ∈ run_requires wheel /\ offers extras entry line
                            /\ from_line env line = None
                            /\ e = InvalidRequirement line)))).
Proof.
  intros run extras. subst run extras.
  destruct (build_wheel env ireq sources) as [wheel_path|e] eqn:Hb.
  2: { unfold _get_dependencies_from_pip, bind, call, lift. rewrite Hb. cbn.
       repeat split; try discriminate. intros e' [= <-]. reflexivity. }
  rewrite (pip_tier_built ireq sources wheel_path w Hb). cbn [fst snd].
  split; [reflexivity|]. split.
  { destruct wheel_path as [path|]; [|discriminate].
    destruct (usable_artifact env (Some path)); [|discriminate].
    destruct (open_wheel env path) as [wheel|]; [|discriminate].
    destruct (_read_requirements _ _ _); discriminate. }
  split; [discriminate|].
  intros wheel_path' [= <-]. split.
  - rewrite <- usable_artifact_false.
    destruct wheel_path as [path|]; [|split; reflexivity].
    destruct (usable_artifact env (Some path)); [|split; reflexivity].
    split; [|discriminate].
    destruct (open_wheel env path) as [wheel|]; [|discriminate].
    destruct (_read_requirements env _ _) as [l|e] eqn:Hread; [discriminate|].
    intros [= ->].
    apply read_requirements_raises in Hread as (? & ? & _ & _ & _ & [=]).
  - intros path -> Hne Hdisk.
    assert (Husable : usable_artifact env (Some path) = true).
    { unfold usable_artifact. rewrite (bool_decide_eq_false_2 _ Hne), Hdisk. reflexivity. }
    rewrite Husable. split; [intros ->; reflexivity|].
    intros wheel ->.
    pose proof (read_requirements_returns env wheel (ireq_extras ireq)) as Hret.
    pose proof (read_requirements_members env wheel (ireq_extras ireq)) as Hmem.
    pose proof (read_requirements_raises env wheel (ireq_extras ireq)) as Hraise.
    destruct (_read_requirements env wheel (ireq_extras ireq)) as [l|e].
    + split; [rewrite Hret; split; eauto|].
      split; [intros requirements; split; congruence|].
      split; [|discriminate].
      intros requirements [= <-]. apply Hmem. reflexivity.
    + split; [rewrite Hret; split; intros [? [=]]|].
      split; [intros requirements; split; discriminate|].
      split; [discriminate|].
      intros e' [= <-]. apply Hraise. reflexivity.
Qed.

End PipTier.

(** * Examples *)

Import Cases.

(** The scenario of the spec: [flask==1.0], empty cache, the index answers
    with one plain line and one gated by an extra. *)
Example flask_scenario :
  fst (get_dependencies Demo.env flask [Demo.pypi] Demo.empty_world)
  = Ok [Demo.plain "werkzeug" [(">=", "0.15")] None]
  /\ dep_cache (snd (get_dependencies Demo.env flask [Demo.pypi] Demo.empty_world))
     = {[ ("flask", "1.0") := ["werkzeug>=0.15"] ]}
  /\ calls (snd (get_dependencies Demo.env flask [Demo.pypi] Demo.empty_world))
     = [CacheGet (as_ireq flask);
        HttpGet "https://pypi.org/pypi/flask/1.0/json";
        CacheSet (as_ireq flask) ["werkzeug>=0.15"]].
Proof. repeat split; vm_compute; reflexivity. Qed.

(** P2: the entry that names the package itself is deleted, and the lookup
    goes on to the next tier. *)
Example self_dependency_heals :
  _get_dependencies_from_cache Demo.env (as_ireq flask) flask_self
  = (Ok None,
     {| dep_cache := ∅;
        calls := [CacheGet (as_ireq flask); CacheDel (as_ireq flask)] |})
  /\ calls (snd (get_dependencies Demo.env flask [Demo.pypi] flask_self))
     = [CacheGet (as_ireq flask); CacheDel (as_ireq flask);
        HttpGet "https://pypi.org/pypi/flask/1.0/json";
        CacheSet (as_ireq flask) ["werkzeug>=0.15"]].
Proof. split; vm_compute; reflexivity. Qed.

(** P3: the entry tagged [security] is left out when no extra is
    requested, and comes in with its marker stripped when [security] is. *)
Example extras_scoping :
  _read_requirements Demo.env (Demo.demo_open_wheel Demo.requests_wheel) []
  = Ok ["urllib3>=1.21"]
  /\ _read_requirements Demo.env (Demo.demo_open_wheel Demo.requests_wheel) ["security"]
     = Ok ["urllib3>=1.21"; "cryptography>=1.0"]
  /\ _read_requirements Demo.env (Demo.demo_open_wheel Demo.requests_wheel) ["socks"]
     = Ok ["urllib3>=1.21"; "pysocks>=1.5.6"; "win-inet-pton; sys_platform == 'win32'"].
Proof. repeat split; vm_compute; reflexivity. Qed.

(** P6: after a local build of [requests==2.19.1] the same lookup is
    answered by the cache tier alone. *)
Example second_lookup_from_cache :
  let first := get_dependencies Demo.env requests [Demo.pypi] Demo.empty_world in
  let second := get_dependencies Demo.env requests [Demo.pypi]
                  {| dep_cache := dep_cache (snd first); calls := [] |} in
  fst first = fst second
  /\ calls (snd second) = [CacheGet (as_ireq requests)].
Proof. split; vm_compute; reflexivity. Qed.

(** The docstring of [is_pinned]. *)
Example is_pinned_docstring :
  let django := fun op version =>
    {| Utils.attr_specifier := Some [(op, version)]; Utils.attr_editable := Some false |} in
  Utils.is_pinned (django "==" "1.8") = Ok true
  /\ Utils.is_pinned (django ">" "1.8") = Ok false
  /\ Utils.is_pinned (django "~=" "1.8") = Ok false
  /\ Utils.is_pinned (django "==" "1.*") = Ok false.
Proof. repeat split; reflexivity. Qed.

(** ** Instances of the theorems *)

(** C1: the cache tier does call the cache lookup for [flask>=1.0], which
    is not pinned, and does not return [None]. *)
Lemma unpinned_lookup_reaches_cache :
  (ireq_editable flask_any = true \/ is_pinned_requirement flask_any = false)
  /\ fst (_get_dependencies_from_cache Demo.env flask_any Demo.empty_world)
     = Raise TypeError
  /\ fst (_get_dependencies_from_cache Demo.env flask_any Demo.empty_world)
     <> Ok None
  /\ calls (snd (_get_dependencies_from_cache Demo.env flask_any Demo.empty_world))
     = [CacheGet flask_any].
Proof.
  split; [right; reflexivity|]. split; [reflexivity|].
  split; [discriminate | reflexivity].
Qed.

Lemma unpinned_never_cached_witness :
  (ireq_editable flask_any = true \/ is_pinned_requirement flask_any = false)
  /\ (forall f : Getter, _cached f flask_any Demo.empty_world = f flask_any Demo.empty_world)
  /\ dep_cache (snd (_get_dependencies_from_cache Demo.env flask_any Demo.empty_world))
     = dep_cache Demo.empty_world.
Proof.
  assert (H : ireq_editable flask_any = true \/ is_pinned_requirement flask_any = false)
    by (right; reflexivity).
  split; [exact H|].
  destruct (unpinned_never_cached Demo.env flask_any Demo.empty_world H)
    as (Hwrap & _ & Hcache & _).
  split; assumption.
Defined.

Lemma cache_tier_validates_witness :
  ireq_editable (as_ireq flask) = false
  /\ as_cache_key (as_ireq flask) = Ok ("flask", "1.0")
  /\ dep_cache flask_cached !! ("flask", "1.0") = Some ["werkzeug>=0.15"]
  /\ _get_dependencies_from_cache Demo.env (as_ireq flask) flask_cached
     = (Ok (Some ["werkzeug>=0.15"]), record_call (CacheGet (as_ireq flask)) flask_cached).
Proof.
  assert (He : ireq_editable (as_ireq flask) = false) by reflexivity.
  assert (Hk : as_cache_key (as_ireq flask) = Ok ("flask", "1.0")) by reflexivity.
  assert (Hc : dep_cache flask_cached !! ("flask", "1.0") = Some ["werkzeug>=0.15"])
    by (vm_compute; reflexivity).
  repeat (split; [assumption|]).
  apply (cache_tier_validates Demo.env (as_ireq flask) ("flask", "1.0")
           ["werkzeug>=0.15"] flask_cached He Hk Hc).
  apply cache_entry_broken_false. vm_compute. reflexivity.
Defined.

(** A list from each tier in turn: from the cache (a sound entry, and P4's
    empty one, after which nothing else is called), from the index, and
    from the wheel. *)
Lemma get_dependencies_first_list_witness :
  get_dependencies Demo.env flask [Demo.pypi] flask_cached
  = (Ok [Demo.plain "werkzeug" [(">=", "0.15")] None],
     record_call (CacheGet (as_ireq flask)) flask_cached)
  /\ get_dependencies Demo.env requests [Demo.pypi] requests_cached_empty
     = (Ok [], record_call (CacheGet (as_ireq requests)) requests_cached_empty)
  /\ fst (get_dependencies Demo.env flask [Demo.pypi] Demo.empty_world)
     = Ok [Demo.plain "werkzeug" [(">=", "0.15")] None]
  /\ fst (get_dependencies Demo.env requests [Demo.pypi] Demo.empty_world)
     = Ok [Demo.plain "urllib3" [(">=", "1.21")] None].
Proof.
  split; [|split; [|split]].
  - destruct (get_dependencies_first_list Demo.env flask [Demo.pypi]
                flask_cached _ _ _ _ _ _
                (surjective_pairing _) (surjective_pairing _) (surjective_pairing _))
      as (Hfirst & _).
    destruct (Hfirst ["werkzeug>=0.15"]) as (_ & _ & Hok & _); [vm_compute; reflexivity|].
    rewrite (Hok [Demo.plain "werkzeug" [(">=", "0.15")] None])
      by (repeat constructor).
    vm_compute. reflexivity.
  - destruct (get_dependencies_first_list Demo.env requests [Demo.pypi]
                requests_cached_empty _ _ _ _ _ _
                (surjective_pairing _) (surjective_pairing _) (surjective_pairing _))
      as (Hfirst & _).
    destruct (Hfirst []) as (_ & _ & Hok & _); [vm_compute; reflexivity|].
    rewrite (Hok []) by constructor.
    vm_compute. reflexivity.
  - destruct (get_dependencies_first_list Demo.env flask [Demo.pypi]
                Demo.empty_world _ _ _ _ _ _
                (surjective_pairing _) (surjective_pairing _) (surjective_pairing _))
      as (_ & Hsecond & _).
    destruct (Hsecond ["werkzeug>=0.15"]) as (_ & _ & Hok & _);
      [vm_compute; reflexivity | vm_compute; reflexivity |].
    rewrite (Hok [Demo.plain "werkzeug" [(">=", "0.15")] None])
      by (repeat constructor).
    reflexivity.
  - destruct (get_dependencies_first_list Demo.env requests [Demo.pypi]
                Demo.empty_world _ _ _ _ _ _
                (surjective_pairing _) (surjective_pairing _) (surjective_pairing _))
      as (_ & _ & Hthird).
    destruct (Hthird ["urllib3>=1.21"]) as (_ & _ & Hok);
      [vm_compute; reflexivity | vm_compute; reflexivity | vm_compute; reflexivity |].
    rewrite (Hok [Demo.plain "urllib3" [(">=", "1.21")] None])
      by (repeat constructor).
    reflexivity.
Defined.

(** P5: the cache lookup raises, the index has nothing, the build fails:
    the build error is the one raised. *)
Lemma chain_exhausted_witness :
  fst (run_all (getters Demo.env [Demo.pypi]) (as_ireq ghost) Demo.empty_world)
  = [Raise TypeError; Ok None; Raise BuildFailed]
  /\ fst (get_dependencies Demo.env ghost [Demo.pypi] Demo.empty_world)
     = Raise BuildFailed.
Proof.
  split; [vm_compute; reflexivity|].
  destruct (chain_exhausted Demo.env [] ghost [Demo.pypi] Demo.empty_world)
    as (_ & Hrun).
  rewrite Hrun; [vm_compute; reflexivity|].
  vm_compute. repeat constructor.
Defined.

Lemma json_tier_skips_witness :
  (ireq_editable (as_ireq requests_socks) = true
   \/ ireq_extras (as_ireq requests_socks) <> [])
  /\ _get_dependencies_from_json Demo.env (as_ireq requests_socks) [Demo.pypi]
       Demo.empty_world
     = (Ok None, Demo.empty_world).
Proof.
  assert (H : ireq_editable (as_ireq requests_socks) = true
              \/ ireq_extras (as_ireq requests_socks) <> [])
    by (right; discriminate).
  split; [exact H|].
  apply (proj1 (json_tier_skips Demo.env (as_ireq requests_socks) [Demo.pypi] Demo.empty_world H)).
Defined.

Lemma json_tier_first_success_witness :
  let sources := [DemoFaulty.mirror; DemoFaulty.files; Demo.pypi] in
  let asked := [HttpGet "https://mirror.example/pypi/flask/1.0/json";
                HttpGet "https://pypi.org/pypi/flask/1.0/json"] in
  _get_dependencies_from_json Demo.env (as_ireq flask) sources Demo.empty_world
  = (Ok (Some ["werkzeug>=0.15"]), record_calls asked Demo.empty_world)
  /\ (forall ps, candidates sources ps <-> ps = ["https://mirror.example"; "https://pypi.org"])
  /\ (forall deps, ~ answers Demo.env "https://mirror.example/pypi/flask/1.0/json" deps)
  /\ answers Demo.env "https://pypi.org/pypi/flask/1.0/json" ["werkzeug>=0.15"]
  /\ Forall (fun line => exists dep_req,
               line = as_line Demo.env dep_req
               /\ contains_extra (markers dep_req) = false)
            ["werkzeug>=0.15"].
Proof.
  intros sources asked.
  assert (Hrun : _get_dependencies_from_json Demo.env (as_ireq flask) sources
                   Demo.empty_world
                 = (Ok (Some ["werkzeug>=0.15"]), record_calls asked Demo.empty_world))
    by (vm_compute; reflexivity).
  split; [exact Hrun|].
  assert (Hcand : candidates sources ["https://mirror.example"; "https://pypi.org"]).
  { apply candidates_keep; [exists 1; vm_compute; reflexivity|].
    apply candidates_skip.
    - intros prefix Hp. apply simple_index_rstrip in Hp.
      exact (proj1 (endswith_false "https://files.example/packages" "/simple")
               eq_refl prefix Hp).
    - apply candidates_keep; [exists 0; vm_compute; reflexivity|]. constructor. }
  destruct (json_tier_first_success Demo.env _ _ _ _ _ Hrun)
    as (_ & _ & prefixes & Hps & Hlist & _).
  apply Hps in Hcand. subst prefixes.
  destruct (Hlist _ eq_refl)
    as (_ & Hclean & tried & prefix & rest & Hsplit & Htried & Hprefix & Hcalls).
  split; [exact Hps|].
  destruct tried as [|t0 [|t1 tried]].
  - apply (f_equal (@length Event)) in Hcalls. vm_compute in Hcalls.
    discriminate Hcalls.
  - injection Hsplit as <- <- <-.
    inversion Htried as [|? ? Hfails _]; subst.
    split; [exact Hfails|]. split; [exact Hprefix | exact Hclean].
  - injection Hsplit as _ _ Hsplit. destruct tried; discriminate Hsplit.
Defined.

Lemma _cached_returns_and_stores_witness :
  let pip := fun ireq => _get_dependencies_from_pip Demo.env ireq [Demo.pypi] in
  pip (as_ireq requests) Demo.empty_world
  = (Ok (Some ["urllib3>=1.21"]),
     record_call (BuildWheel (as_ireq requests) [Demo.pypi]) Demo.empty_world)
  /\ fst (_cached pip (as_ireq requests) Demo.empty_world) = Ok (Some ["urllib3>=1.21"])
  /\ fst (_get_dependencies_from_cache Demo.env (as_ireq requests)
            (snd (_cached pip (as_ireq requests) Demo.empty_world)))
     = Ok (Some ["urllib3>=1.21"]).
Proof.
  intros pip.
  assert (Hrun : pip (as_ireq requests) Demo.empty_world
                 = (Ok (Some ["urllib3>=1.21"]),
                    record_call (BuildWheel (as_ireq requests) [Demo.pypi]) Demo.empty_world))
    by (vm_compute; reflexivity).
  split; [exact Hrun|].
  destruct (_cached_returns_and_stores Demo.env pip _ _ _ _ Hrun) as (Hret & Hstore & _).
  split; [exact Hret|].
  destruct (Hstore _ eq_refl eq_refl) as (key & _ & _ & _ & Hcache).
  apply Hcache. vm_compute. reflexivity.
Defined.

(** C9: the wheel of [legacy==0.1] is built and on disk, and the tier
    raises all the same: a line of its metadata does not parse. *)
Lemma pip_tier_raises_with_artifact :
  build_wheel Demo.env (as_ireq legacy) [Demo.pypi] = Ok (Some Demo.legacy_wheel)
  /\ usable_artifact Demo.env (Some Demo.legacy_wheel) = true
  /\ fst (_get_dependencies_from_pip Demo.env (as_ireq legacy) [Demo.pypi] Demo.empty_world)
     = Raise (InvalidRequirement "futures (>= 2.1.3").
Proof. repeat split; vm_compute; reflexivity. Qed.

(** C5: the wheel of [requests]. Without extras only the untagged entry
    counts; with [security] the tagged line comes out with its extra clause
    removed. The metadata of [legacy] has a line that does not parse, so
    nothing is returned for it. *)
Lemma read_requirements_scoping_witness :
  let wheel := Demo.demo_open_wheel Demo.requests_wheel in
  let old_wheel := Demo.demo_open_wheel Demo.legacy_wheel in
  _read_requirements Demo.env wheel [] = Ok ["urllib3>=1.21"]
  /\ _read_requirements Demo.env wheel ["security"]
     = Ok ["urllib3>=1.21"; "cryptography>=1.0"]
  /\ (exists entry line r,
        entry ∈ run_requires wheel /\ offers ["security"] entry line
        /\ from_line Demo.env line = Some r
        /\ kept Demo.env ["security"] line r "cryptography>=1.0")
  /\ (forall o, o ∈ ["urllib3>=1.21"] ->
        exists entry line r,
          entry ∈ run_requires wheel /\ untagged entry
          /\ offers [] entry line /\ from_line Demo.env line = Some r
          /\ contains_extra (markers r) = false
          /\ (o = line \/ o = as_line Demo.env r))
  /\ ~ (exists out, _read_requirements Demo.env old_wheel [] = Ok out).
Proof.
  intros wheel old_wheel.
  assert (Hnone : _read_requirements Demo.env wheel [] = Ok ["urllib3>=1.21"])
    by (vm_compute; reflexivity).
  assert (Hsec : _read_requirements Demo.env wheel ["security"]
                 = Ok ["urllib3>=1.21"; "cryptography>=1.0"])
    by (vm_compute; reflexivity).
  split; [exact Hnone|]. split; [exact Hsec|].
  split; [|split].
  - destruct (read_requirements_scoping Demo.env wheel ["security"]) as (_ & _ & Hout).
    destruct (Hout _ Hsec) as [Hmem _]. apply Hmem.
    apply list_elem_of_In. right. left. reflexivity.
  - destruct (read_requirements_scoping Demo.env wheel []) as (_ & _ & Hout).
    destruct (Hout _ Hnone) as [_ Huntagged]. exact (Huntagged eq_refl).
  - destruct (read_requirements_scoping Demo.env old_wheel []) as (Hreturns & _).
    intros Hsome. pose proof (proj2 Hreturns Hsome) as Hparse.
    destruct (Hparse (EntryText "futures (>= 2.1.3") "futures (>= 2.1.3") as [r Hr].
    + apply list_elem_of_In. right. left. reflexivity.
    + constructor.
    + vm_compute in Hr. discriminate Hr.
Defined.

(** C9: four builds. The wheel of [requests] is read; that of [legacy] has
    a line that does not parse; the one named for [ghost] is not on disk;
    that of [corrupt] is on disk and cannot be opened. *)
Lemma pip_tier_outcome_witness :
  let pip := fun r => fst (_get_dependencies_from_pip DemoFaulty.env (as_ireq r)
                             [Demo.pypi] Demo.empty_world) in
  pip requests = Ok (Some ["urllib3>=1.21"])
  /\ pip legacy = Raise (InvalidRequirement "futures (>= 2.1.3")
  /\ pip ghost = Raise BuildFailed
  /\ pip DemoFaulty.corrupt = Raise (Collaborator "distlib.wheel").
Proof.
  intros pip. subst pip. cbn beta.
  split; [|split; [|split]].
  - destruct (pip_tier_outcome DemoFaulty.env (as_ireq requests) [Demo.pypi]
                Demo.empty_world) as (_ & _ & _ & Hbuilt).
    destruct (Hbuilt (Some Demo.requests_wheel) eq_refl) as [_ Hdisk].
    destruct (Hdisk Demo.requests_wheel eq_refl) as [_ Hopen];
      [discriminate | reflexivity |].
    destruct (Hopen (Demo.demo_open_wheel Demo.requests_wheel) eq_refl)
      as (_ & Hread & _).
    apply Hread. vm_compute. reflexivity.
  - destruct (pip_tier_outcome DemoFaulty.env (as_ireq legacy) [Demo.pypi]
                Demo.empty_world) as (_ & Hsome & _ & Hbuilt).
    destruct (Hbuilt (Some Demo.legacy_wheel) eq_refl) as [Hfailed Hdisk].
    destruct (Hdisk Demo.legacy_wheel eq_refl) as [_ Hopen];
      [discriminate | reflexivity |].
    destruct (Hopen (Demo.demo_open_wheel Demo.legacy_wheel) eq_refl)
      as (Hreturns & _ & _ & Hraises).
    destruct (fst (_get_dependencies_from_pip DemoFaulty.env (as_ireq legacy)
                     [Demo.pypi] Demo.empty_world)) as [[requirements|]|e] eqn:Hrun.
    + exfalso. destruct (proj2 Hreturns (ex_intro _ requirements eq_refl)
                           (EntryText "futures (>= 2.1.3") "futures (>= 2.1.3")
        as [r Hr].
      * apply list_elem_of_In. right. left. reflexivity.
      * constructor.
      * vm_compute in Hr. discriminate Hr.
    + exfalso. apply Hsome. reflexivity.
    + destruct (Hraises e eq_refl) as (entry & line & Hin & Hoffer & Hline & ->).
      apply list_elem_of_In in Hin. destruct Hin as [<-|[<-|[]]];
        inversion Hoffer; subst.
      * vm_compute in Hline. discriminate Hline.
      * reflexivity.
  - destruct (pip_tier_outcome DemoFaulty.env (as_ireq ghost) [Demo.pypi]
                Demo.empty_world) as (_ & _ & _ & Hbuilt).
    destruct (Hbuilt (Some Demo.ghost_wheel) eq_refl) as [Hfailed _].
    apply Hfailed. right. right. exists Demo.ghost_wheel. split; reflexivity.
  - destruct (pip_tier_outcome DemoFaulty.env (as_ireq DemoFaulty.corrupt) [Demo.pypi]
                Demo.empty_world) as (_ & _ & _ & Hbuilt).
    destruct (Hbuilt (Some DemoFaulty.corrupt_wheel) eq_refl) as [_ Hdisk].
    destruct (Hdisk DemoFaulty.corrupt_wheel eq_refl) as [Hclosed _];
      [discriminate | reflexivity |].
    apply Hclosed. reflexivity.
Defined.

(** * Further properties *)

(** ** What one lookup does to the world *)

Lemma same_but_refl (key : option CacheKey) (c : gmap CacheKey (list string)) :
  same_but key c c.
Proof. destruct key; cbn; auto. Qed.

Lemma same_but_trans (key : option CacheKey) (c1 c2 c3 : gmap CacheKey (list string)) :
  same_but key c1 c2 -> same_but key c2 c3 -> same_but key c1 c3.
Proof.
  destruct key as [k|]; cbn.
  - intros H12 H23 k' Hk. rewrite (H23 k' Hk). apply H12, Hk.
  - congruence.
Qed.

Lemma tally_app (p : Event -> bool) (evs evs' : list Event) :
  tally p (evs ++ evs') = tally p evs + tally p evs'.
Proof. induction evs as [|ev evs IH]; cbn; [reflexivity|]. rewrite IH. lia. Qed.

Section TierWorlds.

Context (env : Env).

(** The cache tier: at most one lookup, then at most one deletion, and no
    other entry of the cache is touched. *)
Lemma cache_tier_world (ireq : InstallRequirement) (w : World) :
  exists evs,
    calls (snd (_get_dependencies_from_cache env ireq w)) = (calls w ++ evs)%list
    /\ same_but (key_of ireq) (dep_cache w)
         (dep_cache (snd (_get_dependencies_from_cache env ireq w)))
    /\ (evs = [] \/ evs = [CacheGet ireq] \/ evs = [CacheGet ireq; CacheDel ireq]).
Proof.
  unfold _get_dependencies_from_cache, key_of.
  destruct (ireq_editable ireq).
  { exists []. cbn. rewrite app_nil_r. split; [reflexivity|].
    split; [apply same_but_refl | auto]. }
  unfold cache_getitem, cache_delitem, bind, call, lift, ret.
  destruct (as_cache_key ireq) as [key|e]; cbn.
  - destruct (dep_cache w !! key) as [cached|]; cbn.
    + destruct (cache_entry_broken env _ cached); cbn.
      * exists [CacheGet ireq; CacheDel ireq]. rewrite <- app_assoc.
        split; [reflexivity|]. split; [|auto].
        intros k' Hk. apply lookup_delete_ne. congruence.
      * exists [CacheGet ireq]. split; [reflexivity|]. split; auto.
    + exists [CacheGet ireq]. split; [reflexivity|]. split; auto.
  - exists [CacheGet ireq]. destruct e; cbn; (split; [reflexivity|]; split; auto).
Qed.

(** The remote-metadata tier: one request to each candidate, in order, up
    to some point; the cache is not touched. *)
Lemma json_tier_world (ireq : InstallRequirement) (sources : list Source) (w : World) :
  exists n,
    snd (_get_dependencies_from_json env ireq sources w)
    = record_calls
        (map (fun p => HttpGet (json_url p ireq (Str.lstrip "=" (specifier_str ireq))))
             (take n (url_prefixes sources)))
        w.
Proof.
  unfold _get_dependencies_from_json.
  destruct (ireq_editable ireq).
  { exists 0. cbn. rewrite record_calls_nil. reflexivity. }
  destruct (ireq_extras ireq).
  2: { exists 0. cbn. rewrite record_calls_nil. reflexivity. }
  destruct (first_success env ireq (Str.lstrip "=" (specifier_str ireq)) (url_prefixes sources))
    as [Hall|(tried & prefix & rest & deps & Hsplit & Htried & Hprefix)].
  - rewrite (json_loop_exhausted env _ _ _ w Hall).
    exists (length (url_prefixes sources)). rewrite firstn_all. reflexivity.
  - rewrite Hsplit.
    rewrite (json_loop_found env _ _ tried prefix rest deps w Htried Hprefix).
    exists (length (tried ++ [prefix])). cbn [snd].
    replace (tried ++ prefix :: rest)%list with ((tried ++ [prefix]) ++ rest)%list
      by (rewrite <- app_assoc; reflexivity).
    rewrite take_app_length. reflexivity.
Qed.

Lemma pip_tier_world (ireq : InstallRequirement) (sources : list Source) (w : World) :
  snd (_get_dependencies_from_pip env ireq sources w)
  = record_call (BuildWheel ireq sources) w.
Proof.
  unfold _get_dependencies_from_pip, bind, call, lift, ret, raise. cbn.
  destruct (build_wheel env ireq sources) as [[path|]|e]; cbn; try reflexivity.
  destruct (negb _ && _); cbn; [|reflexivity].
  destruct (open_wheel env path) as [wheel|]; [|reflexivity].
  destruct (_read_requirements _ _ _); reflexivity.
Qed.

Lemma pip_tier_never_none (ireq : InstallRequirement) (sources : list Source) (w : World) :
  fst (_get_dependencies_from_pip env ireq sources w) <> Ok None.
Proof.
  unfold _get_dependencies_from_pip, bind, call, lift, ret, raise. cbn.
  destruct (build_wheel env ireq sources) as [[path|]|e]; cbn; try discriminate.
  destruct (negb _ && _); cbn; [|discriminate].
  destruct (open_wheel env path) as [wheel|]; [|discriminate].
  destruct (_read_requirements _ _ _); discriminate.
Qed.

End TierWorlds.

(** The wrapper: the getter's outcome, and either the getter's world or
    that world with the list stored under the requirement's key. *)
Lemma _cached_world (f : Getter) (ireq : InstallRequirement) (w : World) :
  fst (_cached f ireq w) = fst (f ireq w)
  /\ (snd (_cached f ireq w) = snd (f ireq w)
      \/ exists key value,
           fst (f ireq w) = Ok (Some value)
           /\ as_cache_key ireq = Ok key
           /\ snd (_cached f ireq w)
              = set_cache (<[key := value]> (dep_cache (snd (f ireq w))))
                  (record_call (CacheSet ireq value) (snd (f ireq w)))).
Proof.
  destruct (f ireq w) as [r w1] eqn:Hf. cbn [fst snd].
  destruct r as [[value|]|e].
  - destruct (is_pinned_requirement ireq) eqn:Hp.
    + apply is_pinned_requirement_key in Hp as [key Hk].
      rewrite (_cached_pinned_list f ireq w w1 key value Hf Hk). cbn.
      split; [reflexivity|]. right. eauto.
    + rewrite (_cached_not_pinned f ireq w Hp), Hf. auto.
  - rewrite (_cached_no_list f ireq w w1 _ Hf) by discriminate. auto.
  - rewrite (_cached_no_list f ireq w w1 _ Hf) by discriminate. auto.
Qed.

Section ChainRuns.

Context (env : Env).

Variables (requirement : Requirement) (sources : list Source) (w : World).

Let ireq : InstallRequirement := as_ireq requirement.
Let run1 := _get_dependencies_from_cache env ireq w.
Let run2 :=
  _cached (fun i => _get_dependencies_from_json env i sources) ireq (snd run1).
Let run3 :=
  _cached (fun i => _get_dependencies_from_pip env i sources) ireq (snd run2).

(** The four ways a lookup ends: a list from the first, second or third
    tier, parsed; or the exception of the third tier. *)
Lemma chain_outcome :
  (exists deps,
     fst run1 = Ok (Some deps)
     /\ get_dependencies env requirement sources w = (parse_lines env deps, snd run1))
  \/ (is_list (fst run1) = false
      /\ exists deps,
           fst run2 = Ok (Some deps)
           /\ get_dependencies env requirement sources w = (parse_lines env deps, snd run2))
  \/ (is_list (fst run1) = false /\ is_list (fst run2) = false
      /\ exists deps,
           fst run3 = Ok (Some deps)
           /\ get_dependencies env requirement sources w = (parse_lines env deps, snd run3))
  \/ (is_list (fst run1) = false /\ is_list (fst run2) = false
      /\ exists e,
           fst run3 = Raise e
           /\ get_dependencies env requirement sources w = (Raise e, snd run3)).
Proof.
  assert (Hnone : fst run3 <> Ok None).
  { unfold run3.
    rewrite (proj1 (_cached_world (fun i => _get_dependencies_from_pip env i sources) ireq (snd run2))).
    apply pip_tier_never_none. }
  unfold get_dependencies, getters. fold ireq. cbn [run_getters].
  fold run1. destruct run1 as [r1 w1] eqn:H1. cbn [fst snd] in *.
  destruct r1 as [[d1|]|e1].
  - left. eauto.
  - fold run2. destruct run2 as [r2 w2] eqn:H2. cbn [fst snd] in *.
    destruct r2 as [[d2|]|e2].
    + right. left. eauto.
    + fold run3. destruct run3 as [r3 w3] eqn:H3. cbn [fst snd] in *.
      destruct r3 as [[d3|]|e3].
      * right. right. left. eauto.
      * contradiction.
      * right. right. right. eauto.
    + fold run3. destruct run3 as [r3 w3] eqn:H3. cbn [fst snd] in *.
      destruct r3 as [[d3|]|e3].
      * right. right. left. eauto.
      * contradiction.
      * right. right. right. eauto.
  - fold run2. destruct run2 as [r2 w2] eqn:H2. cbn [fst snd] in *.
    destruct r2 as [[d2|]|e2].
    + right. left. eauto.
    + fold run3. destruct run3 as [r3 w3] eqn:H3. cbn [fst snd] in *.
      destruct r3 as [[d3|]|e3].
      * right. right. left. eauto.
      * contradiction.
      * right. right. right. eauto.
    + fold run3. destruct run3 as [r3 w3] eqn:H3. cbn [fst snd] in *.
      destruct r3 as [[d3|]|e3].
      * right. right. left. eauto.
      * contradiction.
      * right. right. right. eauto.
Qed.

End ChainRuns.

(** ** Counting the calls of one lookup *)

Lemma within_app (e1 e2 : list Event) (g1 d1 h1 b1 s1 g2 d2 h2 b2 s2 : nat) :
  within e1 g1 d1 h1 b1 s1 -> within e2 g2 d2 h2 b2 s2 ->
  within (e1 ++ e2) (g1 + g2) (d1 + d2) (h1 + h2) (b1 + b2) (s1 + s2).
Proof.
  unfold within. rewrite !tally_app. lia.
Qed.

Lemma within_le (evs : list Event) (g d h b s g' d' h' b' s' : nat) :
  within evs g d h b s ->
  g <= g' -> d <= d' -> h <= h' -> b <= b' -> s <= s' ->
  within evs g' d' h' b' s'.
Proof. unfold within. lia. Qed.

Lemma within_requests (f : string -> string) (prefixes : list string) :
  within (map (fun p => HttpGet (f p)) prefixes) 0 0 (length prefixes) 0 0.
Proof.
  unfold within. induction prefixes as [|p prefixes IH]; cbn; lia.
Qed.

Section ChainCalls.

Context (env : Env).

Lemma cache_tier_within (ireq : InstallRequirement) (w : World) :
  exists evs,
    calls (snd (_get_dependencies_from_cache env ireq w)) = (calls w ++ evs)%list
    /\ within evs 1 1 0 0 0.
Proof.
  destruct (cache_tier_world env ireq w) as (evs & Hevs & _ & Hshape).
  exists evs. split; [exact Hevs|].
  destruct Hshape as [->|[->| ->]]; unfold within; cbn; lia.
Qed.

(** The wrapped remote-metadata tier: requests only, and one cache write
    at most, none when it returns no list. *)
Lemma cached_json_within (ireq : InstallRequirement) (sources : list Source) (w : World) :
  let run := _cached (fun i => _get_dependencies_from_json env i sources) ireq w in
  exists evs,
    calls (snd run) = (calls w ++ evs)%list
    /\ within evs 0 0 (length (url_prefixes sources)) 0
         (if is_list (fst run) then 1 else 0).
Proof.
  intros run. subst run.
  destruct (_cached_world (fun i => _get_dependencies_from_json env i sources) ireq w)
    as (Hfst & Hsnd).
  destruct (json_tier_world env ireq sources w) as (n & Hjson).
  set (urls := map _ (take n (url_prefixes sources))) in Hjson.
  assert (Hurls : within urls 0 0 (length (url_prefixes sources)) 0 0).
  { eapply within_le; [apply within_requests| | | | |]; try lia.
    rewrite length_take. lia. }
  rewrite Hfst.
  destruct Hsnd as [->|(key & value & Hlist & _ & ->)].
  - rewrite Hjson. exists urls. split; [reflexivity|].
    eapply within_le; [exact Hurls| | | | |]; lia.
  - rewrite Hlist, Hjson. cbn.
    exists (urls ++ [CacheSet ireq value])%list.
    split; [rewrite app_assoc; reflexivity|].
    eapply within_le; [apply (within_app _ _ _ _ _ _ _ 0 0 0 0 1 Hurls)| | | | |]; try lia.
    unfold within; cbn; lia.
Qed.

(** The wrapped local-build tier: one build and one cache write at most. *)
Lemma cached_pip_within (ireq : InstallRequirement) (sources : list Source) (w : World) :
  exists evs,
    calls (snd (_cached (fun i => _get_dependencies_from_pip env i sources) ireq w))
    = (calls w ++ evs)%list
    /\ within evs 0 0 0 1 1.
Proof.
  destruct (_cached_world (fun i => _get_dependencies_from_pip env i sources) ireq w)
    as (_ & Hsnd).
  pose proof (pip_tier_world env ireq sources w) as Hpip.
  destruct Hsnd as [->|(key & value & _ & _ & ->)]; rewrite Hpip; cbn.
  - exists [BuildWheel ireq sources]. split; [reflexivity|]. unfold within; cbn; lia.
  - exists [BuildWheel ireq sources; CacheSet ireq value].
    split; [rewrite <- app_assoc; reflexivity|]. unfold within; cbn; lia.
Qed.

(** X1. One call of [get_dependencies] looks the requirement up in the
    cache at most once, deletes its entry at most once, sends at most one
    request per candidate prefix, calls the wheel builder at most once and
    writes to the cache at most once; the calls made before stay as they
    were. *)
Theorem get_dependencies_call_bounds (requirement : Requirement)
    (sources : list Source) (w : World) :
  exists evs,
    calls (snd (get_dependencies env requirement sources w)) = (calls w ++ evs)%list
    /\ tally is_cache_get evs <= 1
    /\ tally is_cache_del evs <= 1
    /\ tally is_http_call evs <= length (url_prefixes sources)
    /\ tally is_build_call evs <= 1
    /\ tally is_cache_set evs <= 1.
Proof.
  set (ireq := as_ireq requirement).
  destruct (cache_tier_within ireq w) as (evs1 & Hevs1 & Hin1).
  destruct (cached_json_within ireq sources (snd (_get_dependencies_from_cache env ireq w)))
    as (evs2 & Hevs2 & Hin2).
  destruct (cached_pip_within ireq sources
              (snd (_cached (fun i => _get_dependencies_from_json env i sources) ireq
                      (snd (_get_dependencies_from_cache env ireq w)))))
    as (evs3 & Hevs3 & Hin3).
  cut (exists evs,
         calls (snd (get_dependencies env requirement sources w)) = (calls w ++ evs)%list
         /\ within evs 1 1 (length (url_prefixes sources)) 1 1).
  { intros (evs & H & Hin). exists evs. split; [exact H | exact Hin]. }
  pose proof (within_app _ _ _ _ _ _ _ _ _ _ _ _ Hin1 Hin2) as H12.
  destruct (chain_outcome env requirement sources w)
    as [(deps & _ & ->)
       |[(_ & deps & _ & ->)
        |[(_ & Hr2 & deps & _ & ->)|(_ & Hr2 & e & _ & ->)]]]; cbn [snd]; fold ireq.
  - exists evs1. split; [exact Hevs1|].
    eapply within_le; [exact Hin1| | | | |]; lia.
  - exists (evs1 ++ evs2)%list.
    split; [rewrite Hevs2, Hevs1, <- app_assoc; reflexivity|].
    eapply within_le; [exact H12| | | | |]; try lia. destruct (is_list _); lia.
  - fold ireq in Hr2. rewrite Hr2 in H12.
    exists ((evs1 ++ evs2) ++ evs3)%list.
    split; [rewrite Hevs3, Hevs2, Hevs1, <- !app_assoc; reflexivity|].
    eapply within_le; [apply (within_app _ _ _ _ _ _ _ _ _ _ _ _ H12 Hin3)| | | | |]; lia.
  - fold ireq in Hr2. rewrite Hr2 in H12.
    exists ((evs1 ++ evs2) ++ evs3)%list.
    split; [rewrite Hevs3, Hevs2, Hevs1, <- !app_assoc; reflexivity|].
    eapply within_le; [apply (within_app _ _ _ _ _ _ _ _ _ _ _ _ H12 Hin3)| | | | |]; lia.
Qed.

End ChainCalls.

(** ** One lookup and the cache *)

Lemma key_of_ok (ireq : InstallRequirement) (key : CacheKey) :
  as_cache_key ireq = Ok key -> key_of ireq = Some key.
Proof. unfold key_of. intros ->. reflexivity. Qed.

Lemma _cached_same_but (f : Getter) (ireq : InstallRequirement) (w : World) :
  same_but (key_of ireq) (dep_cache (snd (f ireq w)))
    (dep_cache (snd (_cached f ireq w))).
Proof.
  destruct (_cached_world f ireq w) as (_ & [->|(key & value & _ & Hk & ->)]).
  - apply same_but_refl.
  - rewrite (key_of_ok _ _ Hk). cbn. intros k' Hne.
    apply lookup_insert_ne. congruence.
Qed.

Section ChainCache.

Context (env : Env).

Lemma json_tier_cache (ireq : InstallRequirement) (sources : list Source) (w : World) :
  dep_cache (snd (_get_dependencies_from_json env ireq sources w)) = dep_cache w.
Proof. destruct (json_tier_world env ireq sources w) as (n & ->). reflexivity. Qed.

Lemma pip_tier_cache (ireq : InstallRequirement) (sources : list Source) (w : World) :
  dep_cache (snd (_get_dependencies_from_pip env ireq sources w)) = dep_cache w.
Proof. rewrite pip_tier_world. reflexivity. Qed.

(** X2. One call of [get_dependencies] changes the cache at most under the
    key of the requirement it is called for: every other entry is as
    before, and when the requirement has no key (it is editable or not
    pinned) the whole cache is as before. *)
Theorem get_dependencies_own_key (requirement : Requirement)
    (sources : list Source) (w : World) :
  let w' := snd (get_dependencies env requirement sources w) in
  (forall key k',
     as_cache_key (as_ireq requirement) = Ok key -> k' <> key ->
     dep_cache w' !! k' = dep_cache w !! k')
  /\ (is_pinned_requirement (as_ireq requirement) = false -> dep_cache w' = dep_cache w).
Proof.
  intros w'. subst w'. set (ireq := as_ireq requirement).
  assert (H1 : same_but (key_of ireq) (dep_cache w)
                 (dep_cache (snd (_get_dependencies_from_cache env ireq w)))).
  { destruct (cache_tier_world env ireq w) as (evs & _ & H & _). exact H. }
  set (w1 := snd (_get_dependencies_from_cache env ireq w)) in *.
  assert (H2 : same_but (key_of ireq) (dep_cache w)
                 (dep_cache (snd (_cached (fun i => _get_dependencies_from_json env i sources) ireq w1)))).
  { eapply same_but_trans; [exact H1|].
    pose proof (_cached_same_but (fun i => _get_dependencies_from_json env i sources) ireq w1) as H.
    cbn beta in H. rewrite json_tier_cache in H. exact H. }
  set (w2 := snd (_cached (fun i => _get_dependencies_from_json env i sources) ireq w1)) in *.
  assert (H3 : same_but (key_of ireq) (dep_cache w)
                 (dep_cache (snd (_cached (fun i => _get_dependencies_from_pip env i sources) ireq w2)))).
  { eapply same_but_trans; [exact H2|].
    pose proof (_cached_same_but (fun i => _get_dependencies_from_pip env i sources) ireq w2) as H.
    cbn beta in H. rewrite pip_tier_cache in H. exact H. }
  assert (Hfinal : same_but (key_of ireq) (dep_cache w)
                     (dep_cache (snd (get_dependencies env requirement sources w)))).
  { destruct (chain_outcome env requirement sources w)
      as [(deps & _ & ->)
         |[(_ & deps & _ & ->)
          |[(_ & _ & deps & _ & ->)|(_ & _ & e & _ & ->)]]]; cbn [snd]; assumption. }
  split.
  - intros key k' Hk Hne. rewrite (key_of_ok _ _ Hk) in Hfinal. apply Hfinal, Hne.
  - intros Hp. unfold key_of in Hfinal.
    rewrite (not_pinned_no_key _ Hp) in Hfinal. exact Hfinal.
Qed.

(** What a list from the cache tier tells. *)
Lemma cache_tier_list (ireq : InstallRequirement) (w w1 : World) (deps : list string) :
  _get_dependencies_from_cache env ireq w = (Ok (Some deps), w1) ->
  exists key,
    as_cache_key ireq = Ok key
    /\ dep_cache w !! key = Some deps
    /\ cache_entry_broken env (Packaging.canonicalize_name (ireq_name ireq)) deps = false
    /\ w1 = record_call (CacheGet ireq) w.
Proof.
  unfold _get_dependencies_from_cache.
  destruct (ireq_editable ireq); [discriminate|].
  unfold cache_getitem, cache_delitem, bind, call, lift, ret.
  destruct (as_cache_key ireq) as [key|e]; cbn.
  - destruct (dep_cache w !! key) as [cached|] eqn:Hc; cbn; [|discriminate].
    destruct (cache_entry_broken env _ cached) eqn:Hb; cbn; [discriminate|].
    intros [= <- <-]. exists key. auto.
  - destruct e; discriminate.
Qed.

(** A list that passes the validation of the cache tier parses. *)
Lemma sound_entry_parses (ireq_name : string) (deps : list string) :
  cache_entry_broken env ireq_name deps = false ->
  exists reqs,
    parse_lines env deps = Ok reqs
    /\ Forall2 (fun line r => from_line env line = Some r) deps reqs
    /\ Forall (fun r => contains_extra (markers r) = false
                        /\ normalized_name r <> ireq_name) reqs.
Proof.
  induction deps as [|line rest IH]; cbn.
  - intros _. exists []. repeat split; constructor.
  - destruct (from_line env line) as [r|] eqn:Hline; [|discriminate].
    destruct (contains_extra (markers r)) eqn:Hx; [discriminate|].
    case_bool_decide as Hn; [discriminate|].
    intros Hrest. destruct (IH Hrest) as (reqs & -> & Hall2 & Hall).
    exists (r :: reqs). repeat split; constructor; auto.
Qed.

(** After a lookup of a pinned requirement that returned, the cache holds,
    under the requirement's key, a list that parses to what was returned. *)
Lemma lookup_leaves_entry (requirement : Requirement) (sources : list Source)
    (w w' : World) (reqs : list Requirement) :
  get_dependencies env requirement sources w = (Ok reqs, w') ->
  is_pinned_requirement (as_ireq requirement) = true ->
  exists key deps,
    as_cache_key (as_ireq requirement) = Ok key
    /\ dep_cache w' !! key = Some deps
    /\ parse_lines env deps = Ok reqs.
Proof.
  intros Hrun Hp. set (ireq := as_ireq requirement) in *.
  destruct (proj1 (is_pinned_requirement_key ireq) Hp) as [key Hk].
  assert (Hstored : forall (f : Getter) w0 deps,
            fst (_cached f ireq w0) = Ok (Some deps) ->
            dep_cache (snd (_cached f ireq w0)) !! key = Some deps).
  { intros f w0 deps Hf. destruct (f ireq w0) as [r w1] eqn:Hfw.
    assert (r = Ok (Some deps)) as ->.
    { rewrite <- Hf, (proj1 (_cached_world f ireq w0)), Hfw. reflexivity. }
    rewrite (_cached_pinned_list f ireq w0 w1 key deps Hfw Hk). cbn.
    apply lookup_insert_eq. }
  destruct (chain_outcome env requirement sources w)
    as [(deps & Hr & Hgd)
       |[(_ & deps & Hr & Hgd)
        |[(_ & _ & deps & Hr & Hgd)|(_ & _ & e & _ & Hgd)]]];
    rewrite Hgd in Hrun; injection Hrun as Hparse <-; [| | |discriminate].
  - fold ireq in Hr.
    destruct (cache_tier_list ireq w _ deps (eq_trans (surjective_pairing _)
                (f_equal (fun r => (r, _)) Hr)))
      as (key' & Hk' & Hc & _ & Hw1).
    assert (key' = key) as -> by congruence.
    exists key, deps. fold ireq. rewrite Hw1. auto.
  - exists key, deps. split; [exact Hk|]. split; [|exact Hparse].
    apply Hstored, Hr.
  - exists key, deps. split; [exact Hk|]. split; [|exact Hparse].
    apply Hstored, Hr.
Qed.

(** X3. When [get_dependencies] returns for a pinned requirement, the
    cache holds under the requirement's key a list that parses to the
    requirements returned, whichever tier answered. *)
Theorem get_dependencies_leaves_entry (requirement : Requirement)
    (sources : list Source) (w w' : World) (reqs : list Requirement) :
  get_dependencies env requirement sources w = (Ok reqs, w') ->
  is_pinned_requirement (as_ireq requirement) = true ->
  exists key deps,
    as_cache_key (as_ireq requirement) = Ok key
    /\ dep_cache w' !! key = Some deps
    /\ parse_lines env deps = Ok reqs.
Proof. apply lookup_leaves_entry. Qed.

(** X4. A second lookup of the same pinned requirement, in the world the
    first one left, returns the same requirements after a single call, the
    cache lookup, provided the stored list passes the cache tier's
    validation (no line naming the package itself, no extra clause). *)
Theorem get_dependencies_again (requirement : Requirement) (sources : list Source)
    (w w' : World) (reqs : list Requirement) (key : CacheKey) (deps : list string) :
  get_dependencies env requirement sources w = (Ok reqs, w') ->
  as_cache_key (as_ireq requirement) = Ok key ->
  dep_cache w' !! key = Some deps ->
  cache_entry_broken env
    (Packaging.canonicalize_name (ireq_name (as_ireq requirement))) deps = false ->
  get_dependencies env requirement sources w'
  = (Ok reqs, record_call (CacheGet (as_ireq requirement)) w').
Proof.
  intros Hrun Hk Hc Hb. set (ireq := as_ireq requirement) in *.
  assert (Hp : is_pinned_requirement ireq = true)
    by (apply is_pinned_requirement_key; eauto).
  destruct (lookup_leaves_entry requirement sources w w' reqs Hrun Hp)
    as (key' & deps' & Hk' & Hc' & Hparse).
  fold ireq in Hk'. assert (key' = key) as -> by congruence.
  assert (deps' = deps) as -> by congruence.
  assert (He : ireq_editable ireq = false).
  { destruct (ireq_editable ireq) eqn:He; [|reflexivity].
    rewrite (editable_not_pinned _ He) in Hp. discriminate. }
  pose proof (cache_tier_hit env ireq key deps w' He Hk Hc) as Hhit.
  rewrite Hb in Hhit.
  unfold get_dependencies, getters. fold ireq. cbn [run_getters].
  rewrite Hhit, Hparse. reflexivity.
Qed.

(** X5. A list returned by the cache tier always parses: with it
    [get_dependencies] returns, one requirement per line, none of them
    carrying an extra clause or naming the package itself. *)
Theorem cache_answer_parses (requirement : Requirement) (sources : list Source)
    (w w1 : World) (deps : list string) :
  _get_dependencies_from_cache env (as_ireq requirement) w = (Ok (Some deps), w1) ->
  exists reqs,
    get_dependencies env requirement sources w = (Ok reqs, w1)
    /\ Forall2 (fun line r => from_line env line = Some r) deps reqs
    /\ Forall (fun r => contains_extra (markers r) = false
                        /\ normalized_name r
                           <> Packaging.canonicalize_name (req_name requirement)) reqs.
Proof.
  intros Hrun.
  destruct (cache_tier_list _ _ _ _ Hrun) as (key & _ & _ & Hb & _).
  destruct (sound_entry_parses _ _ Hb) as (reqs & Hparse & Hall2 & Hall).
  exists reqs. split; [|split; assumption].
  unfold get_dependencies, getters. cbn [run_getters].
  rewrite Hrun, Hparse. reflexivity.
Qed.

(** X6. For an editable requirement [get_dependencies] makes one call, to
    the wheel builder: no cache lookup, no request, and nothing is stored.
    Its outcome is that of the local-build tier, the list parsed. *)
Theorem get_dependencies_editable (requirement : Requirement)
    (sources : list Source) (w : World) :
  req_editable requirement = true ->
  get_dependencies env requirement sources w
  = (match fst (_get_dependencies_from_pip env (as_ireq requirement) sources w) with
     | Ok (Some deps) => parse_lines env deps
     | Ok None => Raise NoDependencies
     | Raise e => Raise e
     end,
     record_call (BuildWheel (as_ireq requirement) sources) w).
Proof.
  intros He. set (ireq := as_ireq requirement).
  assert (He' : ireq_editable ireq = true) by exact He.
  pose proof (editable_not_pinned ireq He') as Hp.
  unfold get_dependencies, getters. fold ireq. cbn [run_getters].
  rewrite (cache_tier_editable env ireq w He').
  rewrite (_cached_not_pinned _ ireq w Hp).
  rewrite (json_tier_guard env ireq sources w (or_introl He')).
  rewrite (_cached_not_pinned _ ireq w Hp).
  pose proof (pip_tier_world env ireq sources w) as Hw.
  destruct (_get_dependencies_from_pip env ireq sources w) as [[[deps|]|e] w3];
    cbn [fst snd] in *; subst w3; reflexivity.
Qed.

(** X7. Once the cache tier and the remote-metadata tier have given no
    list, the lookup ends as the local-build tier does: with its list,
    parsed, or with its exception. That tier never returns [None], so an
    exception of an earlier tier and the generic error of exhaustion are
    never what [get_dependencies] raises. *)
Theorem last_tier_decides (requirement : Requirement) (sources : list Source) (w : World) :
  let ireq := as_ireq requirement in
  let run1 := _get_dependencies_from_cache env ireq w in
  let run2 := _cached (fun i => _get_dependencies_from_json env i sources) ireq (snd run1) in
  let build := _get_dependencies_from_pip env ireq sources (snd run2) in
  is_list (fst run1) = false ->
  is_list (fst run2) = false ->
  fst build <> Ok None
  /\ (forall deps, fst build = Ok (Some deps) ->
        fst (get_dependencies env requirement sources w) = parse_lines env deps)
  /\ (forall e, fst build = Raise e ->
        fst (get_dependencies env requirement sources w) = Raise e).
Proof.
  intros ireq run1 run2 build H1 H2.
  split; [apply pip_tier_never_none|].
  pose proof (proj1 (_cached_world (fun i => _get_dependencies_from_pip env i sources)
                       ireq (snd run2))) as Hfst.
  cbn beta in Hfst. fold build in Hfst.
  destruct (chain_outcome env requirement sources w)
    as [(deps & Hr & _)
       |[(_ & deps & Hr & _)
        |[(_ & _ & deps & Hr & Hgd)|(_ & _ & e & Hr & Hgd)]]].
  - fold ireq run1 in Hr. rewrite Hr in H1. discriminate.
  - fold ireq run1 run2 in Hr. rewrite Hr in H2. discriminate.
  - fold ireq run1 run2 in Hr. rewrite Hfst in Hr. rewrite Hgd. cbn [fst].
    split; intros ? Hb; rewrite Hb in Hr; [injection Hr as <-; reflexivity | discriminate].
  - fold ireq run1 run2 in Hr. rewrite Hfst in Hr. rewrite Hgd. cbn [fst].
    split; intros ? Hb; rewrite Hb in Hr; [discriminate | injection Hr as <-; reflexivity].
Qed.

End ChainCache.

(** ** The extras scoping and the requested extras *)

Section ScopingExtras.

Context (env : Env).

Lemma existsb_same_members (f : string -> bool) (extras extras' : list string) :
  (forall e, e ∈ extras <-> e ∈ extras') ->
  existsb f extras = existsb f extras'.
Proof.
  intros Hsame. apply eq_true_iff_eq. rewrite !existsb_exists.
  split; intros (e & Hin & He); exists e; (split; [|exact He]);
    apply list_elem_of_In; apply list_elem_of_In in Hin; apply Hsame; exact Hin.
Qed.

Lemma read_lines_same_members (extras extras' lines requirements : list string) :
  (forall e, e ∈ extras <-> e ∈ extras') ->
  read_lines env extras lines requirements = read_lines env extras' lines requirements.
Proof.
  intros Hsame. revert requirements.
  induction lines as [|line rest IH]; intros requirements; cbn; [reflexivity|].
  destruct (from_line env line) as [r|]; [|reflexivity].
  destruct (markers r) as [m|]; [|apply IH].
  rewrite (existsb_same_members _ extras extras' Hsame).
  destruct (_ && _); apply IH.
Qed.

(** X8. [_read_requirements] depends on the requested extras only through
    which names are among them: two collections of extras with the same
    members, in any order and with any repetition, give the same outcome. *)
Theorem read_requirements_same_members (wheel : Wheel) (extras extras' : list string) :
  (forall e, e ∈ extras <-> e ∈ extras') ->
  _read_requirements env wheel extras = _read_requirements env wheel extras'.
Proof.
  intros Hsame. unfold _read_requirements. generalize (@nil string).
  induction (run_requires wheel) as [|entry rest IH]; intros requirements; cbn;
    [reflexivity|].
  rewrite (read_lines_same_members extras extras' _ requirements Hsame).
  assert (Hlines :
    match read_lines env extras' (entry_lines entry) requirements with
    | Ok requirements' => read_entries env extras rest requirements'
    | Raise e => Raise e
    end
    = match read_lines env extras' (entry_lines entry) requirements with
      | Ok requirements' => read_entries env extras' rest requirements'
      | Raise e => Raise e
      end).
  { destruct (read_lines env extras' (entry_lines entry) requirements);
      [apply IH | reflexivity]. }
  destruct (entry_extra entry) as [tag|]; [|exact Hlines].
  rewrite (bool_decide_ext (tag ∈ extras) (tag ∈ extras') (Hsame tag)).
  case_bool_decide; [exact Hlines | apply IH].
Qed.

Lemma gate_open_more (extras extras' : list string) (marker : option Marker) :
  (forall e, e ∈ extras -> e ∈ extras') ->
  gate_open extras marker -> gate_open extras' marker.
Proof.
  intros Hsub [Hempty|(e & Hin & He)]; [left; exact Hempty|].
  right. exists e. auto.
Qed.

(** X9. Requesting more extras only adds dependencies: if
    [_read_requirements] returns for a collection of extras, it returns
    for every collection whose members are among those, and every line
    returned for the smaller one is returned for the larger one. *)
Theorem read_requirements_more_extras (wheel : Wheel) (extras extras' out' : list string) :
  (forall e, e ∈ extras -> e ∈ extras') ->
  _read_requirements env wheel extras' = Ok out' ->
  exists out,
    _read_requirements env wheel extras = Ok out
    /\ forall o, o ∈ out -> o ∈ out'.
Proof.
  intros Hsub Hrun'.
  assert (Hscope : forall entry, in_scope extras entry -> in_scope extras' entry).
  { intros entry Hs tag Htag. apply Hsub, Hs, Htag. }
  destruct (proj1 (read_requirements_total_iff env wheel extras)) as [out Hrun].
  { intros entry Hin Hs.
    apply (proj2 (read_requirements_total_iff env wheel extras') (ex_intro _ _ Hrun'));
      auto. }
  exists out. split; [exact Hrun|].
  unfold _read_requirements in Hrun, Hrun'.
  destruct (read_entries_spec env extras _ _ _ Hrun) as (kept & -> & _ & Hkept).
  destruct (read_entries_spec env extras' _ _ _ Hrun') as (kept' & -> & _ & Hkept').
  cbn [app]. intros o Ho.
  apply Hkept in Ho as (entry & line & r & Hin & Hs & Hl & Hr & Hk).
  apply Hkept'. exists entry, line, r.
  repeat (split; [auto|]).
  destruct Hk as [Hk|(Hsome & Hopen & Ho)]; [left; exact Hk|].
  right. split; [exact Hsome|]. split; [|exact Ho].
  eapply gate_open_more; eassumption.
Qed.

End ScopingExtras.

(** ** The remote-metadata tier and the key [requires] *)

Section JsonRequires.

Context (env : Env).

(** X10. The fallback [info["requires"]] is read before [requires_dist] is
    looked at: a response whose [info] has no key [requires] gives nothing,
    whatever it holds under [requires_dist]. When every candidate answers
    that way, or not at all, the tier returns [None] after one request to
    each. *)
Theorem json_tier_needs_requires (ireq : InstallRequirement) (sources : list Source)
    (w : World) :
  let url := fun prefix => json_url prefix ireq (Str.lstrip "=" (specifier_str ireq)) in
  ireq_editable ireq = false ->
  ireq_extras ireq = [] ->
  (forall prefix info,
     prefix ∈ url_prefixes sources ->
     http_info env (url prefix) = Some info -> requires info = None) ->
  _get_dependencies_from_json env ireq sources w
  = (Ok None, record_calls (map (fun p => HttpGet (url p)) (url_prefixes sources)) w).
Proof.
  intros url He Hx Hreq. unfold _get_dependencies_from_json. rewrite He, Hx.
  apply json_loop_exhausted. apply Forall_forall. intros prefix Hin.
  unfold json_attempt. fold (url prefix).
  destruct (http_info env (url prefix)) as [info|] eqn:Hinfo; [|reflexivity].
  cbn. unfold info_dependencies. rewrite (Hreq prefix info Hin Hinfo). reflexivity.
Qed.

End JsonRequires.

(** ** utils.py: identifiers and directories *)

Lemma append_bracket_split (a b x y : string) :
  bracket_free a -> bracket_free b -> bracketed x -> bracketed y ->
  a ++ x = b ++ y -> a = b /\ x = y.
Proof.
  unfold bracket_free. revert b.
  induction a as [|c a IH]; intros b Ha Hb Hx Hy Heq.
  - destruct b as [|d b]; [auto|].
    exfalso. change (x = String d (b ++ y)) in Heq. subst x.
    destruct Hx as [Hx|[t Hx]]; [discriminate|].
    injection Hx as -> _. inversion Hb as [|? ? Hd _]. contradiction.
  - destruct b as [|d b].
    + exfalso. change (String c (a ++ x) = y) in Heq. subst y.
      destruct Hy as [Hy|[t Hy]]; [discriminate|].
      injection Hy as -> _. inversion Ha as [|? ? Hc _]. contradiction.
    + change (String c (a ++ x) = String d (b ++ y)) in Heq.
      injection Heq as -> Heq.
      inversion Ha as [|? ? _ Ha']; inversion Hb as [|? ? _ Hb']; subst.
      destruct (IH b Ha' Hb' Hx Hy Heq) as [-> ->]. auto.
Qed.

(** X11. The identifier of [identify_requirment] tells requirements apart
    exactly by normalized name and extras: for names without an opening
    bracket and extras printed as pip prints them (nothing, or a bracketed
    list), two requirements have the same identifier if and only if they
    have the same normalized name and the same extras. *)
Theorem identify_requirment_injective (extras_as_pip : Requirement -> string)
    (r1 r2 : Requirement) :
  bracket_free (normalized_name r1) ->
  bracket_free (normalized_name r2) ->
  bracketed (extras_as_pip r1) ->
  bracketed (extras_as_pip r2) ->
  (UtilsMore.identify_requirment extras_as_pip r1
   = UtilsMore.identify_requirment extras_as_pip r2
   <-> normalized_name r1 = normalized_name r2
       /\ extras_as_pip r1 = extras_as_pip r2).
Proof.
  intros H1 H2 Hx1 Hx2. unfold UtilsMore.identify_requirment. split.
  - apply append_bracket_split; assumption.
  - intros [-> ->]. reflexivity.
Qed.

(** X12. When [mkdir_p] returns, the path is a directory, given that
    [os.makedirs] leaves a directory when it returns. It raises only what
    [os.makedirs] raised, and an [OSError] only if the path is still not a
    directory afterwards: on a path that already is a directory it does not
    fail with [OSError]. The file system is left as [os.makedirs] left it. *)
Theorem mkdir_p_outcome {FS : Type}
    (makedirs : string -> nat -> FS -> UtilsMore.Outcome * FS)
    (isdir : string -> FS -> bool) (path : string) (mode : nat) (fs : FS) :
  (fst (makedirs path mode fs) = UtilsMore.Returned ->
   isdir path (snd (makedirs path mode fs)) = true) ->
  let run := UtilsMore.mkdir_p makedirs isdir path mode fs in
  snd run = snd (makedirs path mode fs)
  /\ (fst run = UtilsMore.Returned -> isdir path (snd run) = true)
  /\ (forall errno,
        fst run = UtilsMore.OSError errno <->
        fst (makedirs path mode fs) = UtilsMore.OSError errno
        /\ isdir path (snd (makedirs path mode fs)) = false)
  /\ (forall what,
        fst run = UtilsMore.OtherError what <->
        fst (makedirs path mode fs) = UtilsMore.OtherError what).
Proof.
  intros Hcontract run. subst run. unfold UtilsMore.mkdir_p.
  destruct (makedirs path mode fs) as [[|errno|what] fs']; cbn [fst snd] in *.
  - split; [reflexivity|]. split; [exact Hcontract|].
    split; intros ?; intuition congruence.
  - destruct (isdir path fs') eqn:Hdir; cbn [fst snd];
      (split; [reflexivity|]); (split; [intros; congruence|]);
      split; intros ?; intuition congruence.
  - split; [reflexivity|]. split; [discriminate|].
    split; intros ?; intuition congruence.
Qed.

(** ** models/virtualenv.py: the sources of a requirement *)

Lemma filter_empty_iff {A : Type} (P : A -> Prop) `{forall x, Decision (P x)}
    (l : list A) :
  filter P l = [] <-> Forall (fun x => ~ P x) l.
Proof.
  induction l as [|x l IH]; [split; [constructor | reflexivity]|].
  rewrite filter_cons. destruct (decide (P x)) as [Hx|Hx].
  - split; [discriminate|]. intros Hall. inversion Hall. contradiction.
  - rewrite IH. split; [intros; constructor; assumption|].
    intros Hall. inversion Hall. assumption.
Qed.

Lemma filter_sources_list (index : option string) (every : list Source) :
  VirtualEnv.filter_sources index (Some every)
  = Some match index with
         | None => every
         | Some wanted =>
           if bool_decide (wanted = "") then every
           else match filter (VirtualEnv.named wanted) every with
                | [] => every
                | (_ :: _) as filtered => filtered
                end
         end.
Proof.
  unfold VirtualEnv.filter_sources.
  destruct every as [|s every]; [destruct index as [w|]; [|reflexivity]|].
  - destruct (bool_decide (w = "")); reflexivity.
  - destruct index as [w|]; [|reflexivity].
    destruct (bool_decide (w = "")); [reflexivity|].
    destruct (filter (VirtualEnv.named w) (s :: every)); reflexivity.
Qed.

(** X13. [filter_sources] returns [None] for [None] and a list for a list,
    and never turns a list with sources into an empty one: what it returns
    is a sublist of the sources, in their order. If the requirement names
    an index and some source has that name, the result is exactly the
    sources of that name; if the requirement names no index (or an empty
    one), or no source has that name, the result is all the sources. *)
Theorem filter_sources_outcome (index : option string) :
  VirtualEnv.filter_sources index None = None
  /\ (forall every,
        exists result,
          VirtualEnv.filter_sources index (Some every) = Some result
          /\ result `sublist_of` every
          /\ (every <> [] -> result <> []))
  /\ (forall every wanted,
        index = Some wanted -> wanted <> "" ->
        Exists (VirtualEnv.named wanted) every ->
        VirtualEnv.filter_sources index (Some every)
        = Some (filter (VirtualEnv.named wanted) every))
  /\ (forall every,
        index = None \/ index = Some ""
        \/ (exists wanted, index = Some wanted
                           /\ Forall (fun s => ~ VirtualEnv.named wanted s) every) ->
        VirtualEnv.filter_sources index (Some every) = Some every).
Proof.
  split; [reflexivity|]. split; [|split].
  - intros every. rewrite filter_sources_list. eexists. split; [reflexivity|].
    destruct index as [w|]; [|auto].
    destruct (bool_decide (w = "")); [auto|].
    destruct (filter (VirtualEnv.named w) every) as [|s l] eqn:Hf; [auto|].
    split; [rewrite <- Hf; apply sublist_filter | discriminate].
  - intros every wanted -> Hne Hex. rewrite filter_sources_list.
    rewrite bool_decide_eq_false_2 by exact Hne.
    destruct (filter (VirtualEnv.named wanted) every) as [|s l] eqn:Hf; [|reflexivity].
    exfalso. apply filter_empty_iff in Hf. apply Exists_exists in Hex as (s & Hin & Hs).
    rewrite Forall_forall in Hf. exact (Hf s Hin Hs).
  - intros every Hcase. rewrite filter_sources_list.
    destruct Hcase as [->|[->|(wanted & -> & Hall)]]; [reflexivity|reflexivity|].
    destruct (bool_decide (wanted = "")); [reflexivity|].
    rewrite (proj2 (filter_empty_iff _ every) Hall). reflexivity.
Qed.

(** X14. Filtering the sources again for the same requirement changes
    nothing. *)
Theorem filter_sources_idempotent (index : option string)
    (sources : option (list Source)) :
  VirtualEnv.filter_sources index (VirtualEnv.filter_sources index sources)
  = VirtualEnv.filter_sources index sources.
Proof.
  destruct sources as [every|]; [|reflexivity].
  rewrite (filter_sources_list index every).
  destruct index as [w|]; [|apply filter_sources_list].
  destruct (bool_decide (w = "")) eqn:Hw.
  { rewrite filter_sources_list, Hw. reflexivity. }
  destruct (filter (VirtualEnv.named w) every) as [|s l] eqn:Hf.
  { rewrite filter_sources_list, Hw, Hf. reflexivity. }
  rewrite filter_sources_list, Hw, <- Hf.
  rewrite list_filter_filter_r by auto. rewrite Hf. reflexivity.
Qed.

(** ** models/virtualenv.py: the name of the virtualenv *)

Lemma length_chars (s : string) : length (Str.chars s) = String.length s.
Proof.
  unfold Str.chars. induction s as [|c s IH]; [reflexivity|].
  cbn. rewrite IH. reflexivity.
Qed.

Lemma length_of_chars (l : list ascii) : String.length (Str.of_chars l) = length l.
Proof. rewrite <- length_chars, chars_of_chars. reflexivity. Qed.

Lemma append_assoc (a b c : string) : (a ++ b) ++ c = a ++ (b ++ c).
Proof.
  rewrite <- (of_chars_chars ((a ++ b) ++ c)), <- (of_chars_chars (a ++ (b ++ c))).
  rewrite !chars_app, app_assoc. reflexivity.
Qed.

Lemma length_append (a b : string) :
  String.length (a ++ b) = String.length a + String.length b.
Proof. rewrite <- !length_chars, chars_app, length_app. reflexivity. Qed.

Lemma sextet_in_alphabet (n : nat) :
  n < 64 -> VirtualEnv.sextet n ∈ VirtualEnv.urlsafe_alphabet.
Proof.
  intros Hn. unfold VirtualEnv.sextet. apply list_elem_of_In, nth_In.
  exact Hn.
Qed.

Lemma alphabet_safe :
  Forall (fun c => VirtualEnv.is_unsafe c = false) VirtualEnv.urlsafe_alphabet.
Proof.
  unfold VirtualEnv.urlsafe_alphabet. cbn [Str.chars list_ascii_of_string].
  repeat (constructor; [vm_compute; reflexivity|]). constructor.
Qed.

Lemma sextet_safe (n : nat) : n < 64 -> VirtualEnv.is_unsafe (VirtualEnv.sextet n) = false.
Proof.
  intros Hn. pose proof alphabet_safe as Hall. rewrite Forall_forall in Hall.
  apply Hall, sextet_in_alphabet, Hn.
Qed.

Lemma sanitize_chars (name : string) :
  Str.chars (VirtualEnv.sanitize name)
  = take 42 (map (fun c => if VirtualEnv.is_unsafe c then "_"%char else c) (Str.chars name)).
Proof. unfold VirtualEnv.sanitize. apply chars_of_chars. Qed.

Lemma replaced_safe (c : ascii) :
  VirtualEnv.is_unsafe (if VirtualEnv.is_unsafe c then "_"%char else c) = false.
Proof. destruct (VirtualEnv.is_unsafe c) eqn:Hc; [reflexivity | exact Hc]. Qed.

Lemma sanitize_safe (name : string) :
  Forall (fun c => VirtualEnv.is_unsafe c = false) (Str.chars (VirtualEnv.sanitize name)).
Proof.
  rewrite sanitize_chars. apply Forall_take, Forall_map, Forall_forall.
  intros c _. apply replaced_safe.
Qed.

(** The six bytes the fragment is made of give eight characters of the
    alphabet. *)
Lemma hash_fragment_chars (digest : list nat) :
  6 <= length digest ->
  Forall (fun b => b < 256) (take 6 digest) ->
  exists n1 n2 n3 n4 n5 n6 n7 n8,
    Str.chars (VirtualEnv.hash_fragment digest)
    = map VirtualEnv.sextet [n1; n2; n3; n4; n5; n6; n7; n8]
    /\ Forall (fun n => n < 64) [n1; n2; n3; n4; n5; n6; n7; n8].
Proof.
  intros Hlen Hbytes. unfold VirtualEnv.hash_fragment. rewrite chars_of_chars.
  destruct digest as [|a [|b [|c [|d [|e [|f rest]]]]]]; cbn in Hlen; try lia.
  cbn [take] in *.
  inversion Hbytes as [|? ? Ha H1]; subst. inversion H1 as [|? ? Hb H2]; subst.
  inversion H2 as [|? ? Hc H3]; subst. inversion H3 as [|? ? Hd H4]; subst.
  inversion H4 as [|? ? He H5]; subst. inversion H5 as [|? ? Hf _]; subst.
  exists (a / 4), (a mod 4 * 16 + b / 16), (b mod 16 * 4 + c / 64), (c mod 64),
         (d / 4), (d mod 4 * 16 + e / 16), (e mod 16 * 4 + f / 64), (f mod 64).
  split; [reflexivity|].
  assert (Hdiv4 : forall x, x < 256 -> x / 4 < 64)
    by (intros x Hx; apply Nat.Div0.div_lt_upper_bound; lia).
  assert (Hdiv16 : forall x, x < 256 -> x / 16 < 16)
    by (intros x Hx; apply Nat.Div0.div_lt_upper_bound; lia).
  assert (Hdiv64 : forall x, x < 256 -> x / 64 < 4)
    by (intros x Hx; apply Nat.Div0.div_lt_upper_bound; lia).
  assert (Hmod4 : forall x, x mod 4 < 4) by (intros x; apply Nat.mod_upper_bound; lia).
  assert (Hmod16 : forall x, x mod 16 < 16) by (intros x; apply Nat.mod_upper_bound; lia).
  assert (Hmod64 : forall x, x mod 64 < 64) by (intros x; apply Nat.mod_upper_bound; lia).
  pose proof (Hdiv4 a Ha). pose proof (Hdiv4 d Hd).
  pose proof (Hdiv16 b Hb). pose proof (Hdiv16 e He).
  pose proof (Hdiv64 c Hc). pose proof (Hdiv64 f Hf).
  pose proof (Hmod4 a). pose proof (Hmod4 d).
  pose proof (Hmod16 b). pose proof (Hmod16 e).
  pose proof (Hmod64 c). pose proof (Hmod64 f).
  rewrite !Forall_cons. repeat split; try lia. constructor.
Qed.

Lemma map_fmap {A B : Type} (f : A -> B) (l : list A) : map f l = f <$> l.
Proof. induction l as [|x l IH]; [reflexivity|]. cbn. rewrite IH. reflexivity. Qed.

(** X15. The name [from_project_path] gives a virtualenv: the name of the
    project directory cut to 42 characters, each character of the pattern
    replaced by an underscore and every other one kept in place, then a
    dash, then exactly eight characters of the URL-safe alphabet, without
    padding. No character of the pattern is left in the name, which is at
    most 51 characters long; sanitizing twice is sanitizing once. The
    digest is any list of at least six bytes. *)
Theorem venv_name_shape (dirname : string) (digest : list nat) :
  6 <= length digest ->
  Forall (fun b => b < 256) (take 6 digest) ->
  String.length (VirtualEnv.sanitize dirname) = min 42 (String.length dirname)
  /\ (forall i c,
        Str.chars dirname !! i = Some c -> i < 42 ->
        Str.chars (VirtualEnv.sanitize dirname) !! i
        = Some (if VirtualEnv.is_unsafe c then "_"%char else c))
  /\ VirtualEnv.sanitize (VirtualEnv.sanitize dirname) = VirtualEnv.sanitize dirname
  /\ String.length (VirtualEnv.hash_fragment digest) = 8
  /\ Forall (fun c => c ∈ VirtualEnv.urlsafe_alphabet)
       (Str.chars (VirtualEnv.hash_fragment digest))
  /\ String.length (VirtualEnv.venv_name dirname digest)
     = min 42 (String.length dirname) + 9
  /\ Forall (fun c => VirtualEnv.is_unsafe c = false)
       (Str.chars (VirtualEnv.venv_name dirname digest)).
Proof.
  intros Hlen Hbytes.
  destruct (hash_fragment_chars digest Hlen Hbytes)
    as (n1 & n2 & n3 & n4 & n5 & n6 & n7 & n8 & Hfrag & Hsix).
  assert (Hfraglen : String.length (VirtualEnv.hash_fragment digest) = 8).
  { rewrite <- length_chars, Hfrag. reflexivity. }
  assert (Hsanlen : String.length (VirtualEnv.sanitize dirname)
                    = min 42 (String.length dirname)).
  { rewrite <- length_chars, sanitize_chars, length_take, length_map, length_chars.
    reflexivity. }
  assert (Hname : Str.chars (VirtualEnv.venv_name dirname digest)
                  = (Str.chars (VirtualEnv.sanitize dirname)
                     ++ "-"%char :: Str.chars (VirtualEnv.hash_fragment digest))%list).
  { unfold VirtualEnv.venv_name. rewrite !chars_app. reflexivity. }
  split; [exact Hsanlen|]. split; [|split; [|split; [exact Hfraglen|split; [|split]]]].
  - intros i c Hc Hi. rewrite sanitize_chars, lookup_take_lt by exact Hi.
    rewrite map_fmap, list_lookup_fmap, Hc. reflexivity.
  - unfold VirtualEnv.sanitize at 1. rewrite sanitize_chars. unfold VirtualEnv.sanitize.
    f_equal. rewrite !map_fmap, fmap_take, take_idemp. f_equal.
    rewrite <- list_fmap_compose. apply list_fmap_ext. intros i c _. cbn.
    destruct (VirtualEnv.is_unsafe c) eqn:Hc; [reflexivity | rewrite Hc; reflexivity].
  - rewrite Hfrag, map_fmap. apply Forall_fmap.
    eapply Forall_impl; [exact Hsix|]. intros n Hn. apply sextet_in_alphabet, Hn.
  - rewrite <- length_chars, Hname, length_app. cbn [length].
    rewrite !length_chars, Hsanlen, Hfraglen. lia.
  - rewrite Hname. apply Forall_app. split; [apply sanitize_safe|].
    constructor; [vm_compute; reflexivity|].
    rewrite Hfrag, map_fmap. apply Forall_fmap.
    eapply Forall_impl; [exact Hsix|]. intros n Hn. apply sextet_safe, Hn.
Qed.

(** ** models/virtualenv.py: where the virtualenv of a project is *)

(** X16. A project is named as well by its directory as by its Pipfile:
    for a directory that is not itself called [Pipfile],
    [from_project_path] gives the same virtualenv for the path of the
    Pipfile in it as for the directory. The two facts of pathlib used are
    hypotheses: the name and the parent of [dir / "Pipfile"]. *)
Theorem from_project_path_pipfile {Path : Type} (sys : VirtualEnv.System Path)
    (dir : Path) :
  VirtualEnv.path_name sys (VirtualEnv.path_join sys dir "Pipfile") = "Pipfile" ->
  VirtualEnv.path_parent sys (VirtualEnv.path_join sys dir "Pipfile") = dir ->
  VirtualEnv.path_name sys dir <> "Pipfile" ->
  VirtualEnv.from_project_path sys (VirtualEnv.path_join sys dir "Pipfile")
  = VirtualEnv.from_project_path sys dir.
Proof.
  intros Hname Hparent Hdir. unfold VirtualEnv.from_project_path.
  rewrite (bool_decide_eq_true_2 _ Hname), (bool_decide_eq_false_2 _ Hdir), Hparent.
  reflexivity.
Qed.

(** X17. Where virtualenvs go: a non-empty [WORKON_HOME] is taken as it
    is, whatever the platform and [XDG_DATA_HOME]; an empty [WORKON_HOME]
    counts as an unset one; and without it the directory chosen ends in
    [virtualenvs] on every platform. What is expanded is this text. *)
Theorem workon_home_choice (environ : gmap string string) (os_name : string) :
  (forall home, environ !! "WORKON_HOME" = Some home -> home <> "" ->
     VirtualEnv.workon_home_text environ os_name = home)
  /\ VirtualEnv.workon_home_text (<["WORKON_HOME" := ""]> environ) os_name
     = VirtualEnv.workon_home_text (delete "WORKON_HOME" environ) os_name
  /\ (environ !! "WORKON_HOME" = None \/ environ !! "WORKON_HOME" = Some "" ->
      exists p, VirtualEnv.workon_home_text environ os_name = p ++ "virtualenvs")
  /\ (forall {Path : Type} (sys : VirtualEnv.System Path),
        VirtualEnv.get_workon_home sys
        = VirtualEnv.expand sys
            (VirtualEnv.workon_home_text (VirtualEnv.environ sys) (VirtualEnv.os_name sys))).
Proof.
  split; [|split; [|split; [|reflexivity]]].
  - intros home Hhome Hne. unfold VirtualEnv.workon_home_text.
    rewrite Hhome, (bool_decide_eq_false_2 _ Hne). reflexivity.
  - unfold VirtualEnv.workon_home_text.
    rewrite lookup_insert_eq, lookup_delete_eq.
    rewrite lookup_insert_ne, lookup_delete_ne by discriminate. reflexivity.
  - assert (Hfallback : exists p,
              (if bool_decide (os_name = "nt") then "~/.virtualenvs"
               else VirtualEnv.posix_join
                      (default "~/.local/share" (environ !! "XDG_DATA_HOME"))
                      "virtualenvs")
              = p ++ "virtualenvs").
    { destruct (bool_decide (os_name = "nt")); [exists "~/."; reflexivity|].
      unfold VirtualEnv.posix_join.
      change (String.prefix "/" "virtualenvs") with false. cbv iota.
      set (base := default "~/.local/share" (environ !! "XDG_DATA_HOME")).
      destruct (bool_decide (base = "") || Str.endswith base "/").
      - exists base. reflexivity.
      - exists (base ++ "/"). rewrite append_assoc. reflexivity. }
    intros [Hnone|Hempty]; unfold VirtualEnv.workon_home_text.
    + rewrite Hnone. exact Hfallback.
    + rewrite Hempty. exact Hfallback.
Qed.

(** ** cli/remove.py *)



Lemma main_outcomes (project : Remove.Project) (options : Remove.Options) :
  let root := Remove.project_root options in
  let default := negb (bool_decide (Remove.only options = Some "dev")) in
  let develop := negb (bool_decide (Remove.only options = Some "default")) in
  let every :=
    [Remove.OpenProject root;
     Remove.RemoveKeys (Remove.packages options) default develop;
     Remove.Lock; Remove.WritePipfile; Remove.WriteLockfile; Remove.Print] in
  let opened := Remove.open_project project root in
  let removed :=
    Remove.remove_keys_from_pipfile project (Remove.packages options) default develop in
  let locked := Remove.lock project in
  let pipfile := Remove.write_pipfile project in
  let lockfile := Remove.write_lockfile project in
  (opened = Ok tt /\ removed = Ok tt /\ locked = Ok false
   /\ Remove.main project options = (Ok (Some 1), take 3 every))
  \/ (opened = Ok tt /\ removed = Ok tt /\ locked = Ok true /\ pipfile = Ok tt
      /\ lockfile = Ok tt
      /\ Remove.main project options = (Ok None, every))
  \/ (exists e n,
        Remove.main project options = (Raise e, take n every)
        /\ ((n = 1 /\ opened = Raise e)
            \/ (n = 2 /\ opened = Ok tt /\ removed = Raise e)
            \/ (n = 3 /\ opened = Ok tt /\ removed = Ok tt /\ locked = Raise e)
            \/ (n = 4 /\ opened = Ok tt /\ removed = Ok tt /\ locked = Ok true
                /\ pipfile = Raise e)
            \/ (n = 5 /\ opened = Ok tt /\ removed = Ok tt /\ locked = Ok true
                /\ pipfile = Ok tt /\ lockfile = Raise e))).
Proof.
  intros root default develop every opened removed locked pipfile lockfile.
  unfold Remove.main.
  change (Remove.other_than "dev" (Remove.only options)) with default.
  change (Remove.other_than "default" (Remove.only options)) with develop.
  change (Remove.open_project project (Remove.project_root options)) with opened.
  change (Remove.remove_keys_from_pipfile project (Remove.packages options)
            default develop) with removed.
  change (Remove.lock project) with locked.
  change (Remove.write_pipfile project) with pipfile.
  change (Remove.write_lockfile project) with lockfile.
  clearbody opened removed locked pipfile lockfile.
  destruct opened as [[]|e1].
  2: { right; right. exists e1, 1. split; [reflexivity|]. left. auto. }
  destruct removed as [[]|e2].
  2: { right; right. exists e2, 2. split; [reflexivity|]. right; left. auto. }
  destruct locked as [[|]|e3].
  3: { right; right. exists e3, 3. split; [reflexivity|]. right; right; left. auto. }
  2: { left. auto. }
  destruct pipfile as [[]|e4].
  2: { right; right. exists e4, 4. split; [reflexivity|].
       right; right; right; left. auto. }
  destruct lockfile as [[]|e5].
  2: { right; right. exists e5, 5. split; [reflexivity|].
       right; right; right; right. auto 6. }
  right; left. auto 6.
Qed.

(** X19. The calls of [main] are an initial part of: open the project,
    remove the keys, lock, write the Pipfile, write the lock file, print
    the message, in that order. It returns 1 exactly when the project
    opens, the keys are removed and locking reports failure; the calls are
    then the first three, so nothing is written. It returns [None] exactly
    when every collaborator succeeds and locking reports success; the
    calls are then all six. It returns no other value. When it raises, the
    exception is that of the first collaborator that raised and the calls
    stop at that one. So the Pipfile is written only after locking has
    succeeded and the lock file only after the Pipfile has been written. *)
Theorem main_writes_after_lock (project : Remove.Project) (options : Remove.Options) :
  let run := Remove.main project options in
  let root := Remove.project_root options in
  let default := negb (bool_decide (Remove.only options = Some "dev")) in
  let develop := negb (bool_decide (Remove.only options = Some "default")) in
  let every :=
    [Remove.OpenProject root;
     Remove.RemoveKeys (Remove.packages options) default develop;
     Remove.Lock; Remove.WritePipfile; Remove.WriteLockfile; Remove.Print] in
  let opened := Remove.open_project project root in
  let removed :=
    Remove.remove_keys_from_pipfile project (Remove.packages options) default develop in
  let locked := Remove.lock project in
  let pipfile := Remove.write_pipfile project in
  let lockfile := Remove.write_lockfile project in
  (exists n, 1 <= n <= 6 /\ snd run = take n every)
  /\ (fst run = Ok (Some 1) <-> opened = Ok tt /\ removed = Ok tt /\ locked = Ok false)
  /\ (fst run = Ok (Some 1) -> snd run = take 3 every)
  /\ (fst run = Ok None <->
      opened = Ok tt /\ removed = Ok tt /\ locked = Ok true
      /\ pipfile = Ok tt /\ lockfile = Ok tt)
  /\ (fst run = Ok None -> snd run = every)
  /\ (forall code, fst run = Ok (Some code) -> code = 1)
  /\ (forall e, fst run = Raise e <->
        opened = Raise e
        \/ (opened = Ok tt /\ removed = Raise e)
        \/ (opened = Ok tt /\ removed = Ok tt /\ locked = Raise e)
        \/ (opened = Ok tt /\ removed = Ok tt /\ locked = Ok true /\ pipfile = Raise e)
        \/ (opened = Ok tt /\ removed = Ok tt /\ locked = Ok true /\ pipfile = Ok tt
            /\ lockfile = Raise e))
  /\ (forall e, fst run = Raise e ->
        (opened = Raise e -> snd run = take 1 every)
        /\ (removed = Raise e -> opened = Ok tt -> snd run = take 2 every)
        /\ (locked = Raise e -> opened = Ok tt -> removed = Ok tt ->
            snd run = take 3 every)
        /\ (pipfile = Raise e -> opened = Ok tt -> removed = Ok tt ->
            locked = Ok true -> snd run = take 4 every)
        /\ (lockfile = Raise e -> opened = Ok tt -> removed = Ok tt ->
            locked = Ok true -> pipfile = Ok tt -> snd run = take 5 every))
  /\ (Remove.WritePipfile ∈ snd run ->
      opened = Ok tt /\ removed = Ok tt /\ locked = Ok true)
  /\ (Remove.WriteLockfile ∈ snd run ->
      opened = Ok tt /\ removed = Ok tt /\ locked = Ok true /\ pipfile = Ok tt)
  /\ (fst run = Ok (Some 1) ->
      (Remove.WritePipfile ∉ snd run) /\ (Remove.WriteLockfile ∉ snd run))
  /\ (fst run = Ok None -> last (snd run) = Some Remove.Print).
Proof.
  intros run root default develop every opened removed locked pipfile lockfile.
  subst run.
  assert (Hmem : forall (s : Remove.Step) n, s ∈ take n every ->
            exists i, every !! i = Some s /\ i < n).
  { intros s n Hin. apply elem_of_take in Hin. exact Hin. }
  pose proof (main_outcomes project options) as Hcases. cbn zeta in Hcases.
  fold root default develop every opened removed locked pipfile lockfile in Hcases.
  clearbody opened removed locked pipfile lockfile.
  destruct Hcases
    as [(Ho & Hk & Hlock & Hrun)
       |[(Ho & Hk & Hlock & Hp & Hl & Hrun)
        |(e & n & Hrun & Hn)]];
    rewrite Hrun; cbn [fst snd].
  - subst. split; [exists 3; split; [lia | reflexivity]|].
    split; [split; [intros _; auto | reflexivity]|].
    split; [reflexivity|].
    split; [split; [discriminate | intros (_ & _ & Hlock' & _); discriminate]|].
    split; [discriminate|].
    split; [intros code [= <-]; reflexivity|].
    split; [intros e; split; [discriminate|]|].
    { intros [H|[(_ & H)|[(_ & _ & H)|[(_ & _ & H & _)|(_ & _ & H & _)]]]];
        discriminate. }
    split; [discriminate|].
    split; [|split; [|split; [|discriminate]]].
    + intros Hin. apply Hmem in Hin as (i & Hi & Hlt).
      destruct i as [|[|[|[|[|[|i]]]]]]; cbn in Hi; try discriminate; lia.
    + intros Hin. apply Hmem in Hin as (i & Hi & Hlt).
      destruct i as [|[|[|[|[|[|i]]]]]]; cbn in Hi; try discriminate; lia.
    + intros _. split; intros Hin; apply Hmem in Hin as (i & Hi & Hlt);
        destruct i as [|[|[|[|[|[|i]]]]]]; cbn in Hi; try discriminate; lia.
  - subst. split; [exists 6; split; [lia | reflexivity]|].
    split; [split; [discriminate | intros (_ & _ & Hlock'); discriminate]|].
    split; [discriminate|].
    split; [split; [intros _; auto 6 | reflexivity]|].
    split; [reflexivity|].
    split; [discriminate|].
    split; [intros e; split; [discriminate|]|].
    { intros [H|[(_ & H)|[(_ & _ & H)|[(_ & _ & _ & H)|(_ & _ & _ & _ & H)]]]];
        discriminate. }
    split; [discriminate|].
    split; [auto|]. split; [auto 6|].
    split; [discriminate | reflexivity].
  - split; [exists n; split; [|reflexivity]|].
    { destruct Hn as [(-> & _)|[(-> & _)|[(-> & _)|[(-> & _)|(-> & _)]]]]; lia. }
    split; [split; [discriminate|]|].
    { intros (Ho & Hk & Hlock). exfalso.
      destruct Hn as [(_ & H)|[(_ & _ & H)|[(_ & _ & _ & H)
                     |[(_ & _ & _ & H & _)|(_ & _ & _ & H & _)]]]]; congruence. }
    split; [discriminate|].
    split; [split; [discriminate|]|].
    { intros (Ho & Hk & Hlock & Hp & Hl). exfalso.
      destruct Hn as [(_ & H)|[(_ & _ & H)|[(_ & _ & _ & H)
                     |[(_ & _ & _ & _ & H)|(_ & _ & _ & _ & _ & H)]]]]; congruence. }
    split; [discriminate|].
    split; [discriminate|].
    split.
    { intros e'. split.
      - intros [= <-].
        destruct Hn as [(_ & H)|[(_ & H)|[(_ & H)|[(_ & H)|(_ & H)]]]]; tauto.
      - intros He'. f_equal.
        destruct Hn as [(_ & H)|[(_ & H1 & H)|[(_ & H1 & H2 & H)
                       |[(_ & H1 & H2 & H3 & H)|(_ & H1 & H2 & H3 & H4 & H)]]]];
          destruct He' as [G|[(G1 & G)|[(G1 & G2 & G)
                          |[(G1 & G2 & G3 & G)|(G1 & G2 & G3 & G4 & G)]]]];
          congruence. }
    split.
    { intros e' [= <-].
      destruct Hn as [(-> & H)|[(-> & H1 & H)|[(-> & H1 & H2 & H)
                     |[(-> & H1 & H2 & H3 & H)|(-> & H1 & H2 & H3 & H4 & H)]]]];
        repeat split; intros; solve [reflexivity | congruence]. }
    split; [|split; [|split; discriminate]].
    + intros Hin. apply Hmem in Hin as (i & Hi & Hlt).
      destruct i as [|[|[|[|[|[|i]]]]]]; cbn in Hi; try discriminate.
      destruct Hn as [(-> & _)|[(-> & _)|[(-> & _)|[(-> & H)|(-> & H)]]]];
        try lia; tauto.
    + intros Hin. apply Hmem in Hin as (i & Hi & Hlt).
      destruct i as [|[|[|[|[|[|i]]]]]]; cbn in Hi; try discriminate.
      destruct Hn as [(-> & _)|[(-> & _)|[(-> & _)|[(-> & H)|(-> & H)]]]];
        try lia; tauto.
Qed.

Lemma main_writes_after_lock_witness :
  let options := {| Remove.only := Some "dev"; Remove.packages := ["requests"];
                    Remove.project_root := "/home/user/shop" |} in
  let steps := [Remove.OpenProject "/home/user/shop";
                Remove.RemoveKeys ["requests"] false true;
                Remove.Lock] in
  Remove.main DemoSystem.project_unlockable options = (Ok (Some 1), steps)
  /\ Remove.main DemoSystem.project_ok options
     = (Ok None, (steps ++ [Remove.WritePipfile; Remove.WriteLockfile; Remove.Print])%list).
Proof.
  intros options steps. split.
  - destruct (main_writes_after_lock DemoSystem.project_unlockable options)
      as (_ & Hone & Hsteps & _).
    assert (Hr : fst (Remove.main DemoSystem.project_unlockable options) = Ok (Some 1))
      by (apply Hone; repeat split).
    apply Hsteps in Hr as Hs.
    rewrite (surjective_pairing (Remove.main DemoSystem.project_unlockable options)).
    rewrite Hr, Hs. reflexivity.
  - destruct (main_writes_after_lock DemoSystem.project_ok options)
      as (_ & _ & _ & Hnone & Hsteps & _).
    assert (Hr : fst (Remove.main DemoSystem.project_ok options) = Ok None)
      by (apply Hnone; repeat split).
    apply Hsteps in Hr as Hs.
    rewrite (surjective_pairing (Remove.main DemoSystem.project_ok options)).
    rewrite Hr, Hs. reflexivity.
Defined.

(** ** The request of a pinned requirement *)

Lemma lstrip_skip (c : ascii) (s : string) :
  Str.lstrip c (String c s) = Str.lstrip c s.
Proof.
  unfold Str.lstrip. change (Str.chars (String c s)) with (c :: Str.chars s).
  cbn [Str.drop_while]. rewrite Ascii.eqb_refl. reflexivity.
Qed.

Lemma lstrip_none (c : ascii) (s : string) :
  (forall t, s <> String c t) -> Str.lstrip c s = s.
Proof.
  intros Hs. unfold Str.lstrip. destruct s as [|d t]; [reflexivity|].
  change (Str.chars (String d t)) with (d :: Str.chars t). cbn [Str.drop_while].
  destruct (Ascii.eqb c d) eqn:Hcd.
  - apply Ascii.eqb_eq in Hcd. subst d. exfalso. exact (Hs t eq_refl).
  - change (Str.of_chars (d :: Str.chars t)) with (String d (Str.of_chars (Str.chars t))).
    rewrite of_chars_chars. reflexivity.
Qed.

(** X20. For a pinned requirement the remote-metadata tier asks each
    candidate for the pinned version itself: stripping the equals signs
    from the printed specifier gives back the version [get_pinned_version]
    returns, for the operator [==] as for [===], provided the version does
    not itself start with an equals sign. *)
Theorem pinned_request_url (ireq : InstallRequirement) (version prefix : string) :
  Utils.get_pinned_version (ireq_object ireq) = Ok version ->
  (forall t, version <> String "="%char t) ->
  Str.lstrip "=" (specifier_str ireq) = version
  /\ json_url prefix ireq (Str.lstrip "=" (specifier_str ireq))
     = prefix ++ "/pypi/" ++ Packaging.canonicalize_name (ireq_name ireq)
         ++ "/" ++ version ++ "/json".
Proof.
  intros Hv Hne.
  apply get_pinned_version_ok in Hv as (op & Hspec & _ & Hop & _).
  cbn in Hspec. injection Hspec as Hspec.
  assert (Hstrip : Str.lstrip "=" (specifier_str ireq) = version).
  { unfold specifier_str. rewrite Hspec. cbn [map fst snd Str.join String.concat].
    destruct Hop as [-> | ->].
    - change ("==" ++ version) with (String "=" (String "=" version)).
      rewrite !lstrip_skip. apply lstrip_none, Hne.
    - change ("===" ++ version) with (String "=" (String "=" (String "=" version))).
      rewrite !lstrip_skip. apply lstrip_none, Hne. }
  split; [exact Hstrip|]. rewrite Hstrip. reflexivity.
Qed.

(** ** Instances of the further properties *)

Lemma get_dependencies_leaves_entry_witness :
  is_pinned_requirement (as_ireq flask) = true
  /\ fst (get_dependencies Demo.env flask [Demo.pypi] Demo.empty_world)
     = Ok [Demo.plain "werkzeug" [(">=", "0.15")] None]
  /\ exists key deps,
       as_cache_key (as_ireq flask) = Ok key
       /\ dep_cache (snd (get_dependencies Demo.env flask [Demo.pypi] Demo.empty_world))
            !! key = Some deps
       /\ parse_lines Demo.env deps = Ok [Demo.plain "werkzeug" [(">=", "0.15")] None].
Proof.
  assert (Hp : is_pinned_requirement (as_ireq flask) = true) by reflexivity.
  assert (Hrun : get_dependencies Demo.env flask [Demo.pypi] Demo.empty_world
                 = (Ok [Demo.plain "werkzeug" [(">=", "0.15")] None],
                    snd (get_dependencies Demo.env flask [Demo.pypi] Demo.empty_world)))
    by (vm_compute; reflexivity).
  split; [exact Hp|]. split; [rewrite Hrun; reflexivity|].
  exact (get_dependencies_leaves_entry Demo.env flask [Demo.pypi] Demo.empty_world _ _ Hrun Hp).
Defined.

Lemma get_dependencies_again_witness :
  let w' := snd (get_dependencies Demo.env flask [Demo.pypi] Demo.empty_world) in
  dep_cache w' !! ("flask", "1.0") = Some ["werkzeug>=0.15"]
  /\ get_dependencies Demo.env flask [Demo.pypi] w'
     = (Ok [Demo.plain "werkzeug" [(">=", "0.15")] None],
        record_call (CacheGet (as_ireq flask)) w').
Proof.
  intros w'.
  assert (Hrun : get_dependencies Demo.env flask [Demo.pypi] Demo.empty_world
                 = (Ok [Demo.plain "werkzeug" [(">=", "0.15")] None], w'))
    by (vm_compute; reflexivity).
  assert (Hc : dep_cache w' !! ("flask", "1.0") = Some ["werkzeug>=0.15"])
    by (vm_compute; reflexivity).
  split; [exact Hc|].
  apply (get_dependencies_again Demo.env flask [Demo.pypi] Demo.empty_world w' _
           ("flask", "1.0") ["werkzeug>=0.15"] Hrun eq_refl Hc).
  vm_compute. reflexivity.
Defined.

Lemma cache_answer_parses_witness :
  _get_dependencies_from_cache Demo.env (as_ireq flask) flask_cached
  = (Ok (Some ["werkzeug>=0.15"]), record_call (CacheGet (as_ireq flask)) flask_cached)
  /\ exists reqs,
       get_dependencies Demo.env flask [Demo.pypi] flask_cached
       = (Ok reqs, record_call (CacheGet (as_ireq flask)) flask_cached)
       /\ Forall2 (fun line r => from_line Demo.env line = Some r) ["werkzeug>=0.15"] reqs.
Proof.
  assert (Hrun : _get_dependencies_from_cache Demo.env (as_ireq flask) flask_cached
                 = (Ok (Some ["werkzeug>=0.15"]),
                    record_call (CacheGet (as_ireq flask)) flask_cached))
    by (vm_compute; reflexivity).
  split; [exact Hrun|].
  destruct (cache_answer_parses Demo.env flask [Demo.pypi] _ _ _ Hrun)
    as (reqs & Hgd & Hall & _).
  exists reqs. split; assumption.
Defined.

Lemma get_dependencies_editable_witness :
  req_editable DemoModern.requests_editable = true
  /\ get_dependencies Demo.env DemoModern.requests_editable [Demo.pypi] Demo.empty_world
     = (Ok [Demo.plain "urllib3" [(">=", "1.21")] None],
        record_call (BuildWheel (as_ireq DemoModern.requests_editable) [Demo.pypi])
          Demo.empty_world).
Proof.
  split; [reflexivity|].
  rewrite (get_dependencies_editable Demo.env DemoModern.requests_editable [Demo.pypi]
             Demo.empty_world eq_refl).
  vm_compute. reflexivity.
Defined.

Lemma last_tier_decides_witness :
  is_list (fst (_get_dependencies_from_cache Demo.env (as_ireq ghost) Demo.empty_world))
  = false
  /\ fst (get_dependencies Demo.env ghost [Demo.pypi] Demo.empty_world)
     = Raise BuildFailed.
Proof.
  split; [vm_compute; reflexivity|].
  destruct (last_tier_decides Demo.env ghost [Demo.pypi] Demo.empty_world)
    as (_ & _ & Hraise); [vm_compute; reflexivity | vm_compute; reflexivity |].
  apply Hraise. vm_compute. reflexivity.
Defined.

Lemma read_requirements_same_members_witness :
  (forall e, e ∈ ["security"; "socks"] <-> e ∈ ["socks"; "security"; "socks"])
  /\ _read_requirements Demo.env (Demo.demo_open_wheel Demo.requests_wheel)
       ["security"; "socks"]
     = _read_requirements Demo.env (Demo.demo_open_wheel Demo.requests_wheel)
         ["socks"; "security"; "socks"].
Proof.
  assert (Hsame : forall e : string,
            e ∈ ["security"; "socks"] <-> e ∈ ["socks"; "security"; "socks"]).
  { intros e. rewrite !elem_of_cons, !elem_of_nil. tauto. }
  split; [exact Hsame|].
  apply (read_requirements_same_members Demo.env _ _ _ Hsame).
Defined.

Lemma read_requirements_more_extras_witness :
  _read_requirements Demo.env (Demo.demo_open_wheel Demo.requests_wheel) ["security"]
  = Ok ["urllib3>=1.21"; "cryptography>=1.0"]
  /\ exists out,
       _read_requirements Demo.env (Demo.demo_open_wheel Demo.requests_wheel) [] = Ok out
       /\ forall o, o ∈ out -> o ∈ ["urllib3>=1.21"; "cryptography>=1.0"].
Proof.
  assert (Hrun : _read_requirements Demo.env (Demo.demo_open_wheel Demo.requests_wheel)
                   ["security"]
                 = Ok ["urllib3>=1.21"; "cryptography>=1.0"])
    by (vm_compute; reflexivity).
  split; [exact Hrun|].
  apply (read_requirements_more_extras Demo.env _ [] ["security"] _); [|exact Hrun].
  intros e He. inversion He.
Defined.

Lemma json_tier_needs_requires_witness :
  requires_dist DemoModern.flask_info = Some (JLines ["werkzeug>=0.15"])
  /\ _get_dependencies_from_json DemoModern.env (as_ireq flask) [Demo.pypi] Demo.empty_world
     = (Ok None,
        record_calls [HttpGet "https://pypi.org/pypi/flask/1.0/json"] Demo.empty_world).
Proof.
  split; [reflexivity|].
  rewrite (json_tier_needs_requires DemoModern.env (as_ireq flask) [Demo.pypi]
             Demo.empty_world eq_refl eq_refl).
  - vm_compute. reflexivity.
  - intros prefix info Hin. cbn.
    case_bool_decide; [|discriminate]. intros [= <-]. reflexivity.
Defined.

Lemma identify_requirment_injective_witness :
  UtilsMore.identify_requirment DemoSystem.demo_extras_as_pip requests = "requests"
  /\ UtilsMore.identify_requirment DemoSystem.demo_extras_as_pip requests_security
     = "requests[security]"
  /\ (UtilsMore.identify_requirment DemoSystem.demo_extras_as_pip requests
      = UtilsMore.identify_requirment DemoSystem.demo_extras_as_pip requests_security
      <-> normalized_name requests = normalized_name requests_security
          /\ DemoSystem.demo_extras_as_pip requests
             = DemoSystem.demo_extras_as_pip requests_security).
Proof.
  split; [reflexivity|]. split; [reflexivity|].
  apply identify_requirment_injective.
  - unfold bracket_free. vm_compute. repeat (constructor; [discriminate|]). constructor.
  - unfold bracket_free. vm_compute. repeat (constructor; [discriminate|]). constructor.
  - left. reflexivity.
  - right. eexists. reflexivity.
Defined.

Lemma mkdir_p_outcome_witness :
  let fs : gset string := {[ "/tmp/passa" ]} in
  fst (DemoSystem.demo_makedirs "/tmp/passa" 511 fs) = UtilsMore.OSError 17
  /\ fst (UtilsMore.mkdir_p DemoSystem.demo_makedirs DemoSystem.demo_isdir
            "/tmp/passa" 511 fs) = UtilsMore.Returned
  /\ DemoSystem.demo_isdir "/tmp/passa"
       (snd (UtilsMore.mkdir_p DemoSystem.demo_makedirs DemoSystem.demo_isdir
               "/tmp/passa" 511 fs)) = true.
Proof.
  intros fs.
  assert (Hrun : fst (UtilsMore.mkdir_p DemoSystem.demo_makedirs DemoSystem.demo_isdir
                        "/tmp/passa" 511 fs) = UtilsMore.Returned)
    by (vm_compute; reflexivity).
  split; [vm_compute; reflexivity|]. split; [exact Hrun|].
  destruct (mkdir_p_outcome DemoSystem.demo_makedirs DemoSystem.demo_isdir
              "/tmp/passa" 511 fs) as (_ & Hdir & _).
  - vm_compute. discriminate.
  - apply Hdir, Hrun.
Defined.

Lemma venv_name_shape_witness :
  VirtualEnv.venv_name "my shop" (DemoSystem.demo_digest "/home/user/my shop/Pipfile")
  = "my_shop-L2hvbWUv"
  /\ Forall (fun c => VirtualEnv.is_unsafe c = false)
       (Str.chars (VirtualEnv.venv_name "my shop"
                     (DemoSystem.demo_digest "/home/user/my shop/Pipfile"))).
Proof.
  split; [vm_compute; reflexivity|].
  apply (venv_name_shape "my shop" (DemoSystem.demo_digest "/home/user/my shop/Pipfile")).
  - vm_compute. lia.
  - vm_compute. rewrite !Forall_cons. repeat split; try lia. constructor.
Defined.

Lemma from_project_path_pipfile_witness :
  VirtualEnv.from_project_path DemoSystem.sys (DemoSystem.shop ++ ["Pipfile"])%list
  = VirtualEnv.from_project_path DemoSystem.sys DemoSystem.shop
  /\ VirtualEnv.from_project_path DemoSystem.sys DemoSystem.shop
     = Ok "/home/user/shop/.venv".
Proof.
  split; [|vm_compute; reflexivity].
  apply (from_project_path_pipfile DemoSystem.sys DemoSystem.shop).
  - reflexivity.
  - reflexivity.
  - discriminate.
Defined.


Lemma pinned_request_url_witness :
  Utils.get_pinned_version (ireq_object (as_ireq flask)) = Ok "1.0"
  /\ json_url "https://pypi.org" (as_ireq flask)
       (Str.lstrip "=" (specifier_str (as_ireq flask)))
     = "https://pypi.org/pypi/flask/1.0/json".
Proof.
  split; [reflexivity|].
  destruct (pinned_request_url (as_ireq flask) "1.0" "https://pypi.org" eq_refl)
    as (_ & Hurl); [discriminate|].
  rewrite Hurl. reflexivity.
Defined.
